(** * VOC dataset adapters (src/voc.py and src/data/voc.py)

    A shallow embedding of the two PASCAL VOC loaders of the repository:
    the older [src/voc.py] (pixel coordinates, class names) and the newer
    [src/data/voc.py] (fractional coordinates, class indices, batch
    collation), each in a module of its own, [Voc] and [DataVoc].

    Conventions:
    - Python 3 semantics: [/] on integers is true division, with floats as
      IEEE 754 binary64 numbers ([spec_float]);
    - [str] is a sequence of code points, here the code points 0..255 of
      Rocq's [ascii]; [int], [strip] and [lower] are exact on that range;
    - a function that may raise returns a [result]; the dataset accessor,
      which creates objects and calls caller-supplied hooks, runs in a
      state monad with exceptions;
    - images, XML files and text files come from a record of library
      services ([Libs]); torch's [stack], [Tensor], [squeeze_] and [size]
      are modelled on shapes and flat data;
    - drawing on an image and displaying it are library services too
      ([Painter]). *)

From Stdlib Require Import ZArith String Ascii List Bool Lia SpecFloat.
From stdpp Require Import base option list gmap strings.

Local Open Scope string_scope.
Local Open Scope list_scope.
Local Open Scope Z_scope.

(** ** Exceptions and results *)

(** The exceptions the loaders can let escape, by Python class.  Torch's
    [RuntimeError] carries the reason the stacking primitive reports. *)
Inductive stack_failure :=
| EmptyTensorList      (* "stack expects a non-empty TensorList" *)
| SizeMismatch.        (* "stack expects each tensor to be equal size" *)

Inductive exn :=
| KeyError (key : string)
| IndexError
| AttributeError
| TypeError
| ValueError
| ZeroDivisionError
| OverflowError
| FileNotFoundError (path : string)
| ParseError (path : string)
| OSError (path : string)
| RuntimeError (why : stack_failure)
| Raised (what : string).   (* anything a caller-supplied hook raises *)

Inductive result (A : Type) :=
| Ok (a : A)
| Err (e : exn).
Arguments Ok {A} a.
Arguments Err {A} e.

Definition rbind {A B} (r : result A) (k : A -> result B) : result B :=
  match r with
  | Ok a => k a
  | Err e => Err e
  end.

Declare Scope res_scope.
Delimit Scope res_scope with res.
Notation "'let?' x ':=' c 'in' k" := (rbind c (fun x => k))
  (at level 10, x pattern, c at level 100, k at level 200) : res_scope.
Local Open Scope res_scope.

(** [\[f(x) for x in l\]] where [f] may raise: the first failure aborts. *)
Fixpoint map_res {A B} (f : A -> result B) (l : list A) : result (list B) :=
  match l with
  | [] => Ok []
  | x :: l' =>
      let? y := f x in
      let? ys := map_res f l' in
      Ok (y :: ys)
  end.

(** [for x in l: acc = body(acc, x)] where [body] may raise. *)
Fixpoint fold_res {A B} (body : A -> B -> result A) (l : list B) (acc : A)
  : result A :=
  match l with
  | [] => Ok acc
  | x :: l' =>
      let? acc' := body acc x in
      fold_res body l' acc'
  end.

(** ** Python strings *)

Definition code (c : ascii) : Z := Z.of_nat (nat_of_ascii c).

(** [str.isspace] on the code points below 256. *)
Definition is_space (c : ascii) : bool :=
  let n := code c in
  ((9 <=? n) && (n <=? 13)) || ((28 <=? n) && (n <=? 32))
  || (n =? 133) || (n =? 160).

(** [str.lower] on one code point below 256: A-Z, and the Latin-1 capitals
    0xC0-0xDE except the multiplication sign 0xD7. *)
Definition lower_char (c : ascii) : ascii :=
  let n := code c in
  if ((65 <=? n) && (n <=? 90))
     || ((192 <=? n) && (n <=? 222) && negb (n =? 215))
  then ascii_of_nat (Z.to_nat (n + 32))
  else c.

Fixpoint str_lower (s : string) : string :=
  match s with
  | EmptyString => EmptyString
  | String c r => String (lower_char c) (str_lower r)
  end.

Fixpoint lstrip_by (p : ascii -> bool) (s : string) : string :=
  match s with
  | EmptyString => EmptyString
  | String c r => if p c then lstrip_by p r else s
  end.

(** The string without its trailing characters satisfying [p]. *)
Fixpoint rstrip_by (p : ascii -> bool) (s : string) : string :=
  match s with
  | EmptyString => EmptyString
  | String c r =>
      match rstrip_by p r with
      | EmptyString => if p c then EmptyString else String c EmptyString
      | r' => String c r'
      end
  end.

Definition strip_by (p : ascii -> bool) (s : string) : string :=
  rstrip_by p (lstrip_by p s).

(** [s.strip()] *)
Definition str_strip (s : string) : string := strip_by is_space s.

Fixpoint mem_char (c : ascii) (chars : string) : bool :=
  match chars with
  | EmptyString => false
  | String d r => Ascii.eqb c d || mem_char c r
  end.

(** [s.strip(chars)] *)
Definition str_strip_chars (chars s : string) : string :=
  strip_by (fun c => mem_char c chars) s.

Definition newline : ascii := ascii_of_nat 10.
Definition nl : string := String newline EmptyString.

(** ** Python integers from text: [int(s)] *)

Definition digit_val (c : ascii) : option Z :=
  let n := code c in
  if (48 <=? n) && (n <=? 57) then Some (n - 48) else None.

(** Decimal digits, single underscores allowed between two digits.
    [after_digit] tells whether the previous character was a digit. *)
Fixpoint parse_digits (s : string) (acc : Z) (after_digit : bool)
  : option Z :=
  match s with
  | EmptyString => if after_digit then Some acc else None
  | String c r =>
      match digit_val c with
      | Some d => parse_digits r (10 * acc + d) true
      | None =>
          if Ascii.eqb c "_"%char && after_digit
          then parse_digits r acc false
          else None
      end
  end.

(** The blanks [int] skips around a literal: the ASCII ones and, of the
    other code points below 256, the two that [str.isspace] accepts.  The
    separators 28 to 31, which [str.strip] removes, are not among them. *)
Definition is_int_space (c : ascii) : bool :=
  let n := code c in
  ((9 <=? n) && (n <=? 13)) || (n =? 32) || (n =? 133) || (n =? 160).

Fixpoint count_digits (s : string) : Z :=
  match s with
  | EmptyString => 0
  | String c r =>
      match digit_val c with
      | Some _ => 1 + count_digits r
      | None => count_digits r
      end
  end.

(** A decimal literal of more digits is refused (the default limit of
    CPython 3.11 and later). *)
Definition max_str_digits : Z := 4300.

Definition parse_int (s : string) : option Z :=
  let t := strip_by is_int_space s in
  if max_str_digits <? count_digits t then None
  else
    match t with
    | String "+"%char r => parse_digits r 0 false
    | String "-"%char r => Z.opp <$> parse_digits r 0 false
    | _ => parse_digits t 0 false
    end.

(** [int(x)] where [x] is the [text] attribute of an element: [None] is
    not a number (TypeError), a string that is not a literal is a
    ValueError. *)
Definition py_int (x : option string) : result Z :=
  match x with
  | None => Err TypeError
  | Some s =>
      match parse_int s with
      | Some z => Ok z
      | None => Err ValueError
      end
  end.

(** ** Python floats: IEEE 754 binary64 *)

Definition float_of_Z (z : Z) : spec_float :=
  match z with
  | Z0 => S754_zero false
  | Zpos p => S754_finite false p 0
  | Zneg p => S754_finite true p 0
  end.

(** [a / b] on two ints: the correctly rounded quotient. *)
Definition int_truediv (a b : Z) : result spec_float :=
  if b =? 0 then Err ZeroDivisionError
  else match SFdiv 53 1024 (float_of_Z a) (float_of_Z b) with
       | S754_infinity _ => Err OverflowError
       | q => Ok q
       end.

(** The binary64 number 0.5. *)
Definition half : spec_float := S754_finite false 4503599627370496 (-53).


(** [l\[i\]] on a Python list: negative indices count from the end. *)
Definition list_getitem {A} (l : list A) (i : Z) : result A :=
  let n := Z.of_nat (length l) in
  let j := if i <? 0 then i + n else i in
  if (0 <=? j) && (j <? n)
  then match l !! Z.to_nat j with
       | Some x => Ok x
       | None => Err IndexError
       end
  else Err IndexError.

(** [\[f(i, x) for i, x in enumerate(l)\]], counting from [i]. *)
Fixpoint map_res_i {A B} (f : nat -> A -> result B) (i : nat) (l : list A)
  : result (list B) :=
  match l with
  | [] => Ok []
  | x :: l' =>
      let? y := f i x in
      let? ys := map_res_i f (S i) l' in
      Ok (y :: ys)
  end.

(** ** Paths: [os.path.join] (POSIX) and [template % name] *)

Definition starts_with_slash (s : string) : bool :=
  match s with
  | String "/"%char _ => true
  | _ => false
  end.

Fixpoint ends_with_slash (s : string) : bool :=
  match s with
  | EmptyString => false
  | String c EmptyString => Ascii.eqb c "/"%char
  | String _ r => ends_with_slash r
  end.

Definition join2 (path b : string) : string :=
  if starts_with_slash b then b
  else if String.eqb path EmptyString || ends_with_slash path then path +:+ b
  else path +:+ "/" +:+ b.

Definition os_path_join (a : string) (p : list string) : string :=
  fold_left join2 p a.

(** The conversions that want a number: with a [str] argument they are
    a TypeError. *)
Definition numeric_directive (c : ascii) : bool :=
  mem_char c "diouxXeEfFgG".

(** [fmt % arg] with a single [str] argument.  The directives [%s] and
    [%%] are interpreted, and the argument has to be consumed exactly
    once.  A numeric conversion is a TypeError; any other directive
    (flags, widths, [%r], [%c], a percent sign at the end) is outside the
    templates the loaders build and is reported as a ValueError. *)
Fixpoint format_with (fmt arg : string) (used : bool) : result string :=
  match fmt with
  | EmptyString => if used then Ok EmptyString else Err TypeError
  | String "%"%char (String "s"%char r) =>
      if used then Err TypeError
      else let? t := format_with r arg true in Ok (arg +:+ t)
  | String "%"%char (String "%"%char r) =>
      let? t := format_with r arg used in Ok (String "%"%char t)
  | String "%"%char (String c _) =>
      if numeric_directive c then Err TypeError else Err ValueError
  | String "%"%char EmptyString => Err ValueError
  | String c r =>
      let? t := format_with r arg used in Ok (String c t)
  end.

Definition py_format (fmt arg : string) : result string :=
  format_with fmt arg false.

(** ** Text files: [f.readlines()] *)

(** The lines of a text, each with its terminating newline (the last one
    may lack it). *)
Fixpoint readlines (s : string) : list string :=
  match s with
  | EmptyString => []
  | String c r =>
      if Ascii.eqb c newline then nl :: readlines r
      else match readlines r with
           | [] => [String c EmptyString]
           | l :: ls => String c l :: ls
           end
  end.

(** ** xml.etree.ElementTree *)

#[warnings="-register-all"]
Inductive Element := mkElement {
  tag : string;
  text : option string;
  children : list Element
}.

(** The element and everything below it, in document order. *)
Fixpoint ET_walk (e : Element) : list Element :=
  e :: (fix walk_all (l : list Element) : list Element :=
          match l with
          | [] => []
          | c :: l' => ET_walk c ++ walk_all l'
          end) (children e).

(** [e.iter(t)] *)
Definition ET_iter (t : string) (e : Element) : list Element :=
  List.filter (fun x => String.eqb (tag x) t) (ET_walk e).

(** [e.find(t)] for a plain tag name: the first child with that tag. *)
Definition ET_find (t : string) (e : Element) : option Element :=
  List.find (fun x => String.eqb (tag x) t) (children e).

(** [e\[i\]] *)
Definition ET_getitem (e : Element) (i : Z) : result Element :=
  list_getitem (children e) i.

(** [e.find(t).text]: [find] gives [None] when there is no such child. *)
Definition find_text (e : Element) (t : string) : result (option string) :=
  match ET_find t e with
  | Some c => Ok (text c)
  | None => Err AttributeError
  end.

(** [x.lower().strip()] on a [text] attribute, which may be [None]. *)
Definition lower_strip (x : option string) : result string :=
  match x with
  | Some s => Ok (str_strip (str_lower s))
  | None => Err AttributeError
  end.

(** ** PIL images and torch tensors *)

Record PILImage := mkImage {
  mode : string;
  im_size : Z * Z;          (* the [size] attribute: (width, height) *)
  pixels : list Z
}.

Record Tensor := mkTensor {
  shape : list Z;
  data : list spec_float
}.

#[warnings="-register-all"]
Inductive pyval :=
| VNone
| VInt (z : Z)
| VFloat (f : spec_float)
| VStr (s : string)
| VList (items : list pyval)
| VElement (e : Element)
| VImage (im : PILImage)
| VTensor (t : Tensor).

(** [t.squeeze_(0)]: drops the leading axis when its size is 1. *)
Definition squeeze_0 (t : Tensor) : Tensor :=
  match shape t with
  | 1 :: sh => mkTensor sh (data t)
  | _ => t
  end.

(** [v.squeeze_(0)] on any value: only tensors have the method. *)
Definition py_squeeze_0 (v : pyval) : result pyval :=
  match v with
  | VTensor t => Ok (VTensor (squeeze_0 t))
  | _ => Err AttributeError
  end.

(** [v.size()]: a tensor answers with its shape; a PIL image has a [size]
    attribute that is a tuple, and calling a tuple is a TypeError; the
    other values have no such attribute. *)
Definition py_call_size (v : pyval) : result (list Z) :=
  match v with
  | VTensor t => Ok (shape t)
  | VImage _ => Err TypeError
  | _ => Err AttributeError
  end.

(** Python numbers as 32-bit floats, through binary64 as torch does. *)
Definition to_binary32 (f : spec_float) : spec_float :=
  match f with
  | S754_finite s m e => binary_normalize 24 128 (cond_Zopp s (Zpos m)) e s
  | _ => f
  end.

Definition number_to_float (v : pyval) : result spec_float :=
  match v with
  | VInt z =>
      match binary_normalize 53 1024 z 0 false with
      | S754_infinity _ => Err OverflowError
      | f => Ok (to_binary32 f)
      end
  | VFloat f => Ok (to_binary32 f)
  | _ => Err TypeError
  end.

(** [torch.Tensor(a)] for the arguments the loaders build: a flat list of
    numbers gives a one-dimensional tensor, a tensor is passed through.
    Other arguments are reported as a TypeError. *)
Definition torch_Tensor (a : pyval) : result Tensor :=
  match a with
  | VList items =>
      let? xs := map_res number_to_float items in
      Ok (mkTensor [Z.of_nat (length items)] xs)
  | VTensor t => Ok t
  | _ => Err TypeError
  end.

Definition shape_eqb (s1 s2 : list Z) : bool :=
  bool_decide (s1 = s2).

(** [torch.stack(ts, 0)]: the tensors are laid out one after the other
    under a new leading axis; they must be at least one and of one shape. *)
Definition torch_stack (ts : list Tensor) : result Tensor :=
  match ts with
  | [] => Err (RuntimeError EmptyTensorList)
  | t :: rest =>
      if forallb (fun u => shape_eqb (shape u) (shape t)) rest
      then Ok (mkTensor (Z.of_nat (length ts) :: shape t)
                        (concat (map data ts)))
      else Err (RuntimeError SizeMismatch)
  end.

(** ** The services the loaders consume

    Decoding images, parsing XML and reading text files are library
    services; the loaders only pass paths in and results through. *)
Record Libs := mkLibs {
  read_text : string -> result string;
    (* [open(path)]: the text of the file as text mode delivers it, line
       ends translated to a newline; FileNotFoundError when missing *)
  ET_parse : string -> result Element;      (* [ET.parse(path).getroot()] *)
  Image_open : string -> result PILImage;   (* [Image.open(path)] *)
  Image_convert : PILImage -> string -> result PILImage  (* [im.convert(m)] *)
}.

(** ** State: attributes of the live objects and an allocation counter

    Loader calls run in a state monad with exceptions.  Every object a
    call creates receives an identity that was never handed out before. *)
Record object := mkObject { oid : nat; oval : pyval }.

Definition M (S A : Type) : Type := S -> result A * S.

Definition mret {S A} (a : A) : M S A := fun s => (Ok a, s).
Definition mbind {S A B} (m : M S A) (k : A -> M S B) : M S B :=
  fun s => match m s with
           | (Ok a, s') => k a s'
           | (Err e, s') => (Err e, s')
           end.
Definition lift {S A} (r : result A) : M S A := fun s => (r, s).
Definition raise {S A} (e : exn) : M S A := fun s => (Err e, s).
Definition gets {S A} (f : S -> A) : M S A := fun s => (Ok (f s), s).

Declare Scope m_scope.
Delimit Scope m_scope with m.
Notation "'do' x '<-' c ';' k" := (mbind c (fun x => k))
  (at level 10, x pattern, c at level 100, k at level 200) : m_scope.

Definition alloc_with {S} (next : S -> nat) (bump : S -> S) (v : pyval)
  : M S object :=
  fun s => (Ok (mkObject (next s) v), bump s).

(** [dict(pairs)]: later pairs override earlier ones. *)
Definition dict_of_pairs (l : list (string * Z)) : gmap string Z :=
  fold_left (fun m kv => <[kv.1 := kv.2]> m) l ∅.

(** [dict(zip(names, range(len(names))))] *)
Definition index_by_position (names : list string) : gmap string Z :=
  dict_of_pairs (zip names (Z.of_nat <$> seq 0 (length names))).

(** [d\[k\]] *)
Definition dict_getitem (d : gmap string Z) (k : string) : result Z :=
  match d !! k with
  | Some v => Ok v
  | None => Err (KeyError k)
  end.

(** [x or y] on an optional dict: [None] and the empty dict are falsy. *)
Definition dict_or (x : option (gmap string Z)) (y : gmap string Z)
  : gmap string Z :=
  match x with
  | None => y
  | Some d => if decide (d = ∅) then y else d
  end.

(** The identifiers of a manifest: [f.readlines()] and then
    [\[x.strip('\n') for x in ids\]]. *)
Definition read_ids (content : string) : list string :=
  str_strip_chars nl <$> readlines content.

(** ** Drawing on images

    [ImageDraw.Draw(img)] draws on the image in place; a call is a
    [DrawOp], and the drawing library is a service that gives the image
    after the call, or raises.  [img.show()] hands the image to a
    viewer. *)
Definition color : Type := Z * Z * Z * Z.

Inductive DrawOp :=
| Rectangle (xy : list Z) (outline : color)
| Text (xy : list Z) (label : option string) (fill : color).

Record Painter := mkPainter {
  draw : PILImage -> DrawOp -> result PILImage;
  display : PILImage -> result unit
}.

(** [\[int(bb.text) - 1 for bb in bbox\]] where [bbox] is what
    [find('bndbox')] gave: iterating over [None] is a TypeError. *)
Definition int_coords (bbox : option Element) : result (list Z) :=
  match bbox with
  | Some b =>
      map_res (fun bb => let? v := py_int (text bb) in Ok (v - 1))
              (children b)
  | None => Err TypeError
  end.

(** * src/voc.py *)
Module Voc.

Definition VOC_CLASSES : list string :=
  ["__background__";
   "aeroplane"; "bicycle"; "bird"; "boat";
   "bottle"; "bus"; "car"; "cat"; "chair";
   "cow"; "diningtable"; "dog"; "horse";
   "motorbike"; "person"; "pottedplant";
   "sheep"; "sofa"; "train"; "tvmonitor"].

Record AnnotationTransform := mkAnnotationTransform {
  class_to_ind : gmap string Z;
  keep_difficult : bool
}.

(** [AnnotationTransform.__init__] *)
Definition AnnotationTransform_init (class_to_ind : option (gmap string Z))
    (keep_difficult : bool) : AnnotationTransform :=
  mkAnnotationTransform
    (dict_or class_to_ind (index_by_position VOC_CLASSES)) keep_difficult.

(** [\[int(bb.text) - 1 for bb in bbox\]] *)
Definition pixel_coords (bbox : Element) : result (list pyval) :=
  map_res (fun bb => let? v := py_int (text bb) in Ok (VInt (v - 1)))
          (children bbox).

(** One turn of the loop over the object nodes; [None] is [continue]. *)
Definition call_object (self : AnnotationTransform) (obj : Element)
  : result (option (list pyval)) :=
  let? d := find_text obj "difficult" in
  let? dz := py_int d in
  let difficult := dz =? 1 in
  if negb (keep_difficult self) && difficult then Ok None
  else
    let? c0 := ET_getitem obj 0 in
    let? name := lower_strip (text c0) in
    let? bbox := ET_getitem obj 4 in
    let? bndbox := pixel_coords bbox in
    Ok (Some (bndbox ++ [VStr name])).

Definition call_step (self : AnnotationTransform) (res : list (list pyval))
    (obj : Element) : result (list (list pyval)) :=
  let? r := call_object self obj in
  Ok (match r with
      | None => res
      | Some record => res ++ [record]
      end).

(** [AnnotationTransform.__call__] *)
Definition AnnotationTransform_call (self : AnnotationTransform)
    (target : Element) : result (list (list pyval)) :=
  fold_res (call_step self) (ET_iter "object" target) [].

Record VOCDetection := mkVOCDetection {
  root : string;
  image_set : string;
  _annopath : string;
  _imgpath : string;
  _imgsetpath : string;
  ids : list string
}.

(** [VOCDetection.__init__], without the two hooks, which are kept apart
    (see [Hooks]). *)
Definition VOCDetection_init (libs : Libs) (root image_set : string)
    (dataset_name : string) : result VOCDetection :=
  let annopath := os_path_join root [dataset_name; "Annotations"; "%s.xml"] in
  let imgpath := os_path_join root [dataset_name; "JPEGImages"; "%s.jpg"] in
  let imgsetpath :=
    os_path_join root [dataset_name; "ImageSets"; "Main"; "%s.txt"] in
  let? manifest := py_format imgsetpath image_set in
  let? content := read_text libs manifest in
  Ok (mkVOCDetection root image_set annopath imgpath imgsetpath
                     (read_ids content)).

(** The live objects: the dataset, the annotation transform, and the
    number of objects created so far. *)
Record world := mkWorld {
  dataset : VOCDetection;
  annotation_transform : AnnotationTransform;
  next_oid : nat
}.

(** One more object has been created. *)
Definition bump (w : world) : world :=
  mkWorld (dataset w) (annotation_transform w) (S (next_oid w)).

Definition alloc (v : pyval) : M world object :=
  alloc_with next_oid bump v.

(** The caller-supplied [transform] and [target_transform]. *)
Record Hooks := mkHooks {
  transform : option (object -> M world object);
  target_transform : option (object -> M world object)
}.

(** An [AnnotationTransform] instance used as [target_transform]. *)
Definition annotation_hook (target : object) : M world object :=
  (do self <- gets annotation_transform;
   do tree <- match oval target with
              | VElement e => mret e
              | _ => raise AttributeError
              end;
   do res <- lift (AnnotationTransform_call self tree);
   alloc (VList (VList <$> res)))%m.

(** [VOCDetection.__getitem__] *)
Definition VOCDetection_getitem (libs : Libs) (hooks : Hooks) (index : Z)
  : M world (object * object) :=
  (do all_ids <- gets (fun w => ids (dataset w));
   do img_id <- lift (list_getitem all_ids index);
   do annopath <- gets (fun w => _annopath (dataset w));
   do apath <- lift (py_format annopath img_id);
   do tree <- lift (ET_parse libs apath);
   do target <- alloc (VElement tree);
   do imgpath <- gets (fun w => _imgpath (dataset w));
   do ipath <- lift (py_format imgpath img_id);
   do opened <- lift (Image_open libs ipath);
   do rgb <- lift (Image_convert libs opened "RGB");
   do img <- alloc (VImage rgb);
   do img <- match transform hooks with
             | Some f => f img
             | None => mret img
             end;
   do target <- match target_transform hooks with
                | Some g => g target
                | None => mret target
                end;
   mret (img, target))%m.

(** [VOCDetection.__len__] *)
Definition VOCDetection_len (self : VOCDetection) : Z :=
  Z.of_nat (length (ids self)).

(** ** [VOCDetection.show] *)

Definition COLORS : list color :=
  [(255, 0, 0, 128); (0, 255, 0, 128); (0, 0, 255, 128);
   (0, 255, 255, 128); (255, 0, 255, 128); (255, 255, 0, 128)].

(** [COLORS\[i % len(COLORS)\]] *)
Definition color_at (i : Z) : result color :=
  list_getitem COLORS (i mod Z.of_nat (length COLORS)).

(** One turn of the loop of [show]: the rectangle, then the label, on
    the image [st.1] with the counter [st.2]. *)
Definition show_object (painter : Painter) (st : PILImage * Z)
    (obj : Element) : result (PILImage * Z) :=
  let bbox := ET_find "bndbox" obj in
  let? bndbox := int_coords bbox in
  let? outline := color_at st.2 in
  let? img := draw painter st.1 (Rectangle bndbox outline) in
  let? label := find_text obj "name" in
  let? fill := color_at (st.2 + 3) in
  let? img := draw painter img (Text (take 2 bndbox) label fill) in
  Ok (img, st.2 + 1).

(** [VOCDetection.show]: returns nothing. *)
Definition VOCDetection_show (libs : Libs) (painter : Painter)
    (self : VOCDetection) (index : Z) : result unit :=
  let? img_id := list_getitem (ids self) index in
  let? apath := py_format (_annopath self) img_id in
  let? target := ET_parse libs apath in
  let? ipath := py_format (_imgpath self) img_id in
  let? opened := Image_open libs ipath in
  let? img := Image_convert libs opened "RGB" in
  let? st := fold_res (show_object painter) (ET_iter "object" target)
               (img, 0) in
  display painter st.1.

(** ** [VOCSegmentation]

    The attributes have the names of those of [VOCDetection] in the
    source; here they carry the prefix [seg_]. *)
Record VOCSegmentation := mkVOCSegmentation {
  seg_root : string;
  seg_image_set : string;
  seg_annopath : string;
  seg_imgpath : string;
  seg_imgsetpath : string;
  seg_ids : list string
}.

(** [VOCSegmentation.__init__], without the two hooks. *)
Definition VOCSegmentation_init (libs : Libs) (root image_set : string)
    (dataset_name : string) : result VOCSegmentation :=
  let annopath :=
    os_path_join root [dataset_name; "SegmentationClass"; "%s.png"] in
  let imgpath := os_path_join root [dataset_name; "JPEGImages"; "%s.jpg"] in
  let imgsetpath :=
    os_path_join root [dataset_name; "ImageSets"; "Segmentation"; "%s.txt"] in
  let? manifest := py_format imgsetpath image_set in
  let? content := read_text libs manifest in
  Ok (mkVOCSegmentation root image_set annopath imgpath imgsetpath
                        (read_ids content)).

Record seg_world := mkSegWorld {
  seg_dataset : VOCSegmentation;
  seg_next_oid : nat
}.

Definition seg_bump (w : seg_world) : seg_world :=
  mkSegWorld (seg_dataset w) (S (seg_next_oid w)).

Definition seg_alloc (v : pyval) : M seg_world object :=
  alloc_with seg_next_oid seg_bump v.

(** The caller-supplied [input_transform] and [target_transform]. *)
Record SegHooks := mkSegHooks {
  input_transform : option (object -> M seg_world object);
  seg_target_transform : option (object -> M seg_world object)
}.

(** [VOCSegmentation.__getitem__] *)
Definition VOCSegmentation_getitem (libs : Libs) (hooks : SegHooks)
    (index : Z) : M seg_world (object * object) :=
  (do all_ids <- gets (fun w => seg_ids (seg_dataset w));
   do img_id <- lift (list_getitem all_ids index);
   do annopath <- gets (fun w => seg_annopath (seg_dataset w));
   do tpath <- lift (py_format annopath img_id);
   do topened <- lift (Image_open libs tpath);
   do trgb <- lift (Image_convert libs topened "RGB");
   do target <- seg_alloc (VImage trgb);
   do imgpath <- gets (fun w => seg_imgpath (seg_dataset w));
   do ipath <- lift (py_format imgpath img_id);
   do opened <- lift (Image_open libs ipath);
   do rgb <- lift (Image_convert libs opened "RGB");
   do img <- seg_alloc (VImage rgb);
   do img <- match input_transform hooks with
             | Some f => f img
             | None => mret img
             end;
   do target <- match seg_target_transform hooks with
                | Some g => g target
                | None => mret target
                end;
   mret (img, target))%m.

(** [VOCSegmentation.__len__] *)
Definition VOCSegmentation_len (self : VOCSegmentation) : Z :=
  Z.of_nat (length (seg_ids self)).

End Voc.

(** * src/data/voc.py *)
Module DataVoc.

Definition VOC_CLASSES : list string :=
  ["aeroplane"; "bicycle"; "bird"; "boat";
   "bottle"; "bus"; "car"; "cat"; "chair";
   "cow"; "diningtable"; "dog"; "horse";
   "motorbike"; "person"; "pottedplant";
   "sheep"; "sofa"; "train"; "tvmonitor"].

Record AnnotationTransform := mkAnnotationTransform {
  class_to_index : gmap string Z;
  keep_difficult : bool
}.

(** [AnnotationTransform.__init__] *)
Definition AnnotationTransform_init (class_to_index : option (gmap string Z))
    (keep_difficult : bool) : AnnotationTransform :=
  mkAnnotationTransform
    (dict_or class_to_index (index_by_position VOC_CLASSES)) keep_difficult.

(** The body of the loop over the children of [bndbox]: the value that is
    appended for the child [bb] at position [i]. *)
Definition coord (H W : Z) (i : nat) (bb : Element) : result pyval :=
  let? v := py_int (text bb) in
  let? q := int_truediv (v - 1) (if Nat.even i then W else H) in
  Ok (VFloat q).

(** [for i, bb in enumerate(bbox)]; iterating over [None] (no [bndbox]
    child) is a TypeError. *)
Definition fraction_coords (H W : Z) (bbox : option Element)
  : result (list pyval) :=
  match bbox with
  | Some b => map_res_i (coord H W) 0%nat (children b)
  | None => Err TypeError
  end.

(** One turn of the loop over the object nodes; [None] is [continue]. *)
Definition call_object (self : AnnotationTransform) (H W : Z) (obj : Element)
  : result (option (list pyval)) :=
  let? d := find_text obj "difficult" in
  let? dz := py_int d in
  let difficult := dz =? 1 in
  if negb (keep_difficult self) && difficult then Ok None
  else
    let? t := find_text obj "name" in
    let? name := lower_strip t in
    let bbox := ET_find "bndbox" obj in
    let? bndbox := fraction_coords H W bbox in
    let? label_ind := dict_getitem (class_to_index self) name in
    Ok (Some (bndbox ++ [VInt label_ind])).

Definition call_step (self : AnnotationTransform) (H W : Z)
    (res : list (list pyval)) (obj : Element) : result (list (list pyval)) :=
  let? r := call_object self H W obj in
  Ok (match r with
      | None => res
      | Some record => res ++ [record]
      end).

(** [AnnotationTransform.__call__] *)
Definition AnnotationTransform_call (self : AnnotationTransform)
    (target : Element) (C H W : Z) : result (list (list pyval)) :=
  fold_res (call_step self H W) (ET_iter "object" target) [].

Record VOCDetection := mkVOCDetection {
  root : string;
  image_set : string;
  _annopath : string;
  _imgpath : string;
  _imgsetpath : string;
  ids : list string
}.

(** [VOCDetection.__init__], without the two hooks, which are kept apart
    (see [Hooks]). *)
Definition VOCDetection_init (libs : Libs) (root image_set : string)
    (dataset_name : string) : result VOCDetection :=
  let annopath := os_path_join root [dataset_name; "Annotations"; "%s.xml"] in
  let imgpath := os_path_join root [dataset_name; "JPEGImages"; "%s.jpg"] in
  let imgsetpath :=
    os_path_join root [dataset_name; "ImageSets"; "Main"; "%s.txt"] in
  let? manifest := py_format imgsetpath image_set in
  let? content := read_text libs manifest in
  Ok (mkVOCDetection root image_set annopath imgpath imgsetpath
                     (read_ids content)).

Record world := mkWorld {
  dataset : VOCDetection;
  annotation_transform : AnnotationTransform;
  next_oid : nat
}.

(** One more object has been created. *)
Definition bump (w : world) : world :=
  mkWorld (dataset w) (annotation_transform w) (S (next_oid w)).

Definition alloc (v : pyval) : M world object :=
  alloc_with next_oid bump v.

(** The caller-supplied [transform] and [target_transform]; the latter is
    called with the target and the unpacked size of the image. *)
Record Hooks := mkHooks {
  transform : option (object -> M world object);
  target_transform : option (object -> list Z -> M world object)
}.

(** An [AnnotationTransform] instance used as [target_transform]: the
    call takes exactly the three sizes [C, H, W] after the target. *)
Definition annotation_hook (target : object) (sizes : list Z)
  : M world object :=
  match sizes with
  | [C; H; W] =>
      (do self <- gets annotation_transform;
       do tree <- match oval target with
                  | VElement e => mret e
                  | _ => raise AttributeError
                  end;
       do res <- lift (AnnotationTransform_call self tree C H W);
       alloc (VList (VList <$> res)))%m
  | _ => raise TypeError
  end.

(** [self.transform(img).squeeze_(0)]: the tensor the hook returned is
    squeezed in place, it stays the same object. *)
Definition transform_squeeze (f : object -> M world object) (img : object)
  : M world object :=
  (do t <- f img;
   do v <- lift (py_squeeze_0 (oval t));
   mret (mkObject (oid t) v))%m.

(** [VOCDetection.__getitem__] *)
Definition VOCDetection_getitem (libs : Libs) (hooks : Hooks) (index : Z)
  : M world (object * object) :=
  (do all_ids <- gets (fun w => ids (dataset w));
   do img_id <- lift (list_getitem all_ids index);
   do annopath <- gets (fun w => _annopath (dataset w));
   do apath <- lift (py_format annopath img_id);
   do tree <- lift (ET_parse libs apath);
   do target <- alloc (VElement tree);
   do imgpath <- gets (fun w => _imgpath (dataset w));
   do ipath <- lift (py_format imgpath img_id);
   do opened <- lift (Image_open libs ipath);
   do rgb <- lift (Image_convert libs opened "RGB");
   do img <- alloc (VImage rgb);
   do img <- match transform hooks with
             | Some f => transform_squeeze f img
             | None => mret img
             end;
   do target <- match target_transform hooks with
                | Some g =>
                    do sizes <- lift (py_call_size (oval img));
                    g target sizes
                | None => mret target
                end;
   mret (img, target))%m.

(** [VOCDetection.__len__] *)
Definition VOCDetection_len (self : VOCDetection) : Z :=
  Z.of_nat (length (ids self)).

(** One component [tup] of a sample, in the inner loop of
    [detection_collate]: tensors go to [imgs], lists are converted record
    by record, stacked and go to [targets]; anything else is skipped. *)
Definition collate_item (acc : list Tensor * list Tensor) (tup : pyval)
  : result (list Tensor * list Tensor) :=
  match tup with
  | VTensor t => Ok (acc.1 ++ [t], acc.2)
  | VList items =>
      let? annos := map_res torch_Tensor items in
      let? stacked := torch_stack annos in
      Ok (acc.1, acc.2 ++ [stacked])
  | _ => Ok acc
  end.

Definition collate_sample (acc : list Tensor * list Tensor)
    (sample : list pyval) : result (list Tensor * list Tensor) :=
  fold_res collate_item sample acc.

(** [detection_collate(batch)]: a sample is the sequence of its
    components, normally the pair (image, annotation list). *)
Definition detection_collate (batch : list (list pyval))
  : result (Tensor * list Tensor) :=
  let? acc := fold_res collate_sample batch ([], []) in
  let? images := torch_stack acc.1 in
  Ok (images, acc.2).

(** ** [VOCDetection.show] *)

Definition COLORS : list color :=
  [(255, 0, 0, 128); (0, 255, 0, 128); (0, 0, 255, 128);
   (0, 255, 255, 128); (255, 0, 255, 128); (255, 255, 0, 128)].

(** [COLORS\[i % len(COLORS)\]] *)
Definition color_at (i : Z) : result color :=
  list_getitem COLORS (i mod Z.of_nat (length COLORS)).

(** The name and the box of a part, appended to [bndboxs]. *)
Definition add_part (bndboxs : list (string * list Z)) (part : Element)
  : result (list (string * list Z)) :=
  let? t := find_text part "name" in
  let? name := lower_strip t in
  let bbox := ET_find "bndbox" part in
  let? box := int_coords bbox in
  Ok (bndboxs ++ [(name, box)]).

(** The loop over [bndboxs]: the rectangle, then the label, on the image
    [st.1] with the counter [st.2]. *)
Definition draw_labelled (painter : Painter) (st : PILImage * Z)
    (nb : string * list Z) : result (PILImage * Z) :=
  let? outline := color_at st.2 in
  let? img := draw painter st.1 (Rectangle nb.2 outline) in
  let? fill := color_at (st.2 + 3) in
  let? img := draw painter img (Text (take 2 nb.2) (Some nb.1) fill) in
  Ok (img, st.2 + 1).

(** One turn of the loop of [show] over the object nodes. *)
Definition show_object (painter : Painter) (subparts : bool)
    (st : PILImage * Z) (obj : Element) : result (PILImage * Z) :=
  let bbox := ET_find "bndbox" obj in
  let? t := find_text obj "name" in
  let? name := lower_strip t in
  let? box := int_coords bbox in
  let bndboxs := [(name, box)] in
  let? bndboxs :=
    if subparts && negb (bool_decide (ET_find "part" obj = None))
    then fold_res add_part (ET_iter "part" obj) bndboxs
    else Ok bndboxs in
  fold_res (draw_labelled painter) bndboxs st.

(** [VOCDetection.show]: returns the image it drew on. *)
Definition VOCDetection_show (libs : Libs) (painter : Painter)
    (self : VOCDetection) (index : Z) (subparts : bool)
  : result PILImage :=
  let? img_id := list_getitem (ids self) index in
  let? apath := py_format (_annopath self) img_id in
  let? target := ET_parse libs apath in
  let? ipath := py_format (_imgpath self) img_id in
  let? opened := Image_open libs ipath in
  let? img := Image_convert libs opened "RGB" in
  let? st := fold_res (show_object painter subparts)
               (ET_iter "object" target) (img, 0) in
  let? _ := display painter st.1 in
  Ok st.1.

(** ** [VOCSegmentation]

    The attributes have the names of those of [VOCDetection] in the
    source; here they carry the prefix [seg_]. *)
Record VOCSegmentation := mkVOCSegmentation {
  seg_root : string;
  seg_image_set : string;
  seg_annopath : string;
  seg_imgpath : string;
  seg_imgsetpath : string;
  seg_ids : list string
}.

(** [VOCSegmentation.__init__], without the two hooks. *)
Definition VOCSegmentation_init (libs : Libs) (root image_set : string)
    (dataset_name : string) : result VOCSegmentation :=
  let annopath :=
    os_path_join root [dataset_name; "SegmentationClass"; "%s.png"] in
  let imgpath := os_path_join root [dataset_name; "JPEGImages"; "%s.jpg"] in
  let imgsetpath :=
    os_path_join root [dataset_name; "ImageSets"; "Segmentation"; "%s.txt"] in
  let? manifest := py_format imgsetpath image_set in
  let? content := read_text libs manifest in
  Ok (mkVOCSegmentation root image_set annopath imgpath imgsetpath
                        (read_ids content)).

Record seg_world := mkSegWorld {
  seg_dataset : VOCSegmentation;
  seg_next_oid : nat
}.

Definition seg_bump (w : seg_world) : seg_world :=
  mkSegWorld (seg_dataset w) (S (seg_next_oid w)).

Definition seg_alloc (v : pyval) : M seg_world object :=
  alloc_with seg_next_oid seg_bump v.

(** The caller-supplied [transform] and [target_transform]. *)
Record SegHooks := mkSegHooks {
  seg_transform : option (object -> M seg_world object);
  seg_target_transform : option (object -> M seg_world object)
}.

(** [VOCSegmentation.__getitem__] *)
Definition VOCSegmentation_getitem (libs : Libs) (hooks : SegHooks)
    (index : Z) : M seg_world (object * object) :=
  (do all_ids <- gets (fun w => seg_ids (seg_dataset w));
   do img_id <- lift (list_getitem all_ids index);
   do annopath <- gets (fun w => seg_annopath (seg_dataset w));
   do tpath <- lift (py_format annopath img_id);
   do topened <- lift (Image_open libs tpath);
   do trgb <- lift (Image_convert libs topened "RGB");
   do target <- seg_alloc (VImage trgb);
   do imgpath <- gets (fun w => seg_imgpath (seg_dataset w));
   do ipath <- lift (py_format imgpath img_id);
   do opened <- lift (Image_open libs ipath);
   do rgb <- lift (Image_convert libs opened "RGB");
   do img <- seg_alloc (VImage rgb);
   do img <- match seg_transform hooks with
             | Some f => f img
             | None => mret img
             end;
   do target <- match seg_target_transform hooks with
                | Some g => g target
                | None => mret target
                end;
   mret (img, target))%m.

(** [VOCSegmentation.__len__] *)
Definition VOCSegmentation_len (self : VOCSegmentation) : Z :=
  Z.of_nat (length (seg_ids self)).

End DataVoc.

(** * Notions the statements are written with *)

(** ** Lines of a manifest *)

(** The lines of a manifest text, without their newline: the text is cut
    at every newline, [cur] being the line under construction; the piece
    after the last newline counts when it is not empty. *)
Fixpoint lines_from (cur s : string) : list string :=
  match s with
  | EmptyString => if String.eqb cur EmptyString then [] else [cur]
  | String c r =>
      if Ascii.eqb c newline then cur :: lines_from EmptyString r
      else lines_from (cur +:+ String c EmptyString) r
  end.

Definition manifest_lines (content : string) : list string :=
  lines_from EmptyString content.

Fixpoint has_char (c : ascii) (s : string) : bool :=
  match s with
  | EmptyString => false
  | String d r => Ascii.eqb d c || has_char c r
  end.

Fixpoint count_char (c : ascii) (s : string) : nat :=
  match s with
  | EmptyString => 0
  | String d r => ((if Ascii.eqb d c then 1 else 0) + count_char c r)%nat
  end.

Fixpoint last_char (s : string) : option ascii :=
  match s with
  | EmptyString => None
  | String c EmptyString => Some c
  | String _ r => last_char r
  end.

Definition open_line (last : option ascii) : nat :=
  match last with
  | Some c => if Ascii.eqb c newline then 0 else 1
  | None => 0
  end.

(** The number of lines of a text, counted on its characters: one per
    newline, and one more when the text does not end with a newline. *)
Definition line_count (s : string) : nat :=
  (count_char newline s + open_line (last_char s))%nat.

(** ** Object nodes *)

(** The value of the [difficult] flag of an object node. *)
Definition difficult_flag (obj : Element) : result Z :=
  let? d := find_text obj "difficult" in py_int d.

(** The class name of an object node as [src/data/voc.py] reads it. *)
Definition class_name (obj : Element) : result string :=
  let? t := find_text obj "name" in lower_strip t.

(** The integers the children of a box hold, as [int(bb.text)] reads
    them. *)
Definition box_ints (bbox : Element) : result (list Z) :=
  map_res (fun bb => py_int (text bb)) (children bbox).

(** ** Batches *)

(** The tensors among the components of the samples of a batch, in
    order. *)
Definition as_tensor (v : pyval) : option Tensor :=
  match v with VTensor t => Some t | _ => None end.

Definition batch_images (batch : list (list pyval)) : list Tensor :=
  omap as_tensor (concat batch).

(** The shapes of a collated batch: the image batch and every annotation
    array. *)
Definition collated_shapes (r : result (Tensor * list Tensor))
  : result (list Z * list (list Z)) :=
  let? b := r in Ok (shape b.1, map shape b.2).

(** ** Hooks that behave as functions

    A hook is well behaved when it leaves the attributes [attrs] of the
    live objects alone, only creates objects, and returns either its
    argument or an object it created. *)
Section Frame.
Context {S T : Type} (next : S -> nat) (attrs : S -> T).

Definition created_between (s s' : S) (o : object) : Prop :=
  (next s <= oid o < next s')%nat.

Definition well_behaved (f : object -> M S object) : Prop :=
  forall o s r s', f o s = (r, s') ->
    attrs s' = attrs s
    /\ (next s <= next s')%nat
    /\ forall o', r = Ok o' -> oid o' = oid o \/ created_between s s' o'.

End Frame.

Definition voc_attrs (w : Voc.world) :=
  (Voc.dataset w, Voc.annotation_transform w).
Definition data_attrs (w : DataVoc.world) :=
  (DataVoc.dataset w, DataVoc.annotation_transform w).

(** A run of the accessor returns the annotation [v]. *)
Definition returns_annotation {W} (run : result (object * object) * W)
    (v : pyval) : Prop :=
  exists img target, run.1 = Ok (img, target) /\ oval target = v.

(** The annotation list [[9, 19, 109, 219, i]]. *)
Definition expected_annotation (i : Z) : pyval :=
  VList [VList [VInt 9; VInt 19; VInt 109; VInt 219; VInt i]].

(** * Sample annotations, files and batches *)

Definition leaf (t s : string) : Element := mkElement t (Some s) [].

Definition bndbox (xmin ymin xmax ymax : string) : Element :=
  mkElement "bndbox" None
    [leaf "xmin" xmin; leaf "ymin" ymin; leaf "xmax" xmax; leaf "ymax" ymax].

(** An object node in the child order of the VOC files. *)
Definition voc_object (name difficult : string) (box : Element) : Element :=
  mkElement "object" None
    [leaf "name" name; leaf "pose" "Left"; leaf "truncated" "0";
     leaf "difficult" difficult; box].

Definition annotation_of (objects : list Element) : Element :=
  mkElement "annotation" None
    (leaf "folder" "VOC2007" :: leaf "filename" "000001.jpg" :: objects).

Definition cat_object : Element :=
  voc_object "cat" "0" (bndbox "10" "20" "110" "220").
Definition cat_tree : Element := annotation_of [cat_object].

(** An object of a class that is in no vocabulary. *)
Definition unicorn_object : Element :=
  voc_object "Unicorn" "0" (bndbox "10" "20" "110" "220").
Definition unicorn_tree : Element := annotation_of [unicorn_object].

(** An object node whose [name] child is not the first one. *)
Definition shuffled_object : Element :=
  mkElement "object" None
    [leaf "pose" " Left"; leaf "name" "cat"; leaf "truncated" "0";
     leaf "difficult" "0"; bndbox "10" "20" "110" "220"].

(** Two objects flagged difficult; the second has a box that is not
    numeric. *)
Definition difficult_tree : Element :=
  annotation_of [voc_object "cat" "1" (bndbox "1" "2" "3" "4");
                 voc_object "Dog" " 1 " (bndbox "x" "2" "3" "4")].

Definition raw_image : PILImage := mkImage "P" (300, 300) [].
Definition rgb_image : PILImage := mkImage "RGB" (300, 300) [].

(** A file system with the manifest [trainval.txt] holding the single
    identifier 000001, its annotation and its image. *)
Definition cat_libs : Libs :=
  mkLibs
    (fun p => if String.eqb p "/data/VOC2007/ImageSets/Main/trainval.txt"
              then Ok ("000001" +:+ nl) else Err (FileNotFoundError p))
    (fun p => if String.eqb p "/data/VOC2007/Annotations/000001.xml"
              then Ok cat_tree else Err (FileNotFoundError p))
    (fun p => if String.eqb p "/data/VOC2007/JPEGImages/000001.jpg"
              then Ok raw_image else Err (FileNotFoundError p))
    (fun im m => Ok (mkImage m (im_size im) (pixels im))).

Definition voc_default : Voc.AnnotationTransform :=
  Voc.AnnotationTransform_init None false.
Definition data_default : DataVoc.AnnotationTransform :=
  DataVoc.AnnotationTransform_init None false.

(** The datasets built on [cat_libs], with the default annotation
    transform and no object created yet. *)
Definition voc_cat_dataset : Voc.VOCDetection :=
  Voc.mkVOCDetection "/data" "trainval"
    "/data/VOC2007/Annotations/%s.xml" "/data/VOC2007/JPEGImages/%s.jpg"
    "/data/VOC2007/ImageSets/Main/%s.txt" ["000001"].
Definition voc_cat_world : Voc.world :=
  Voc.mkWorld voc_cat_dataset voc_default 0.

Definition data_cat_dataset : DataVoc.VOCDetection :=
  DataVoc.mkVOCDetection "/data" "trainval"
    "/data/VOC2007/Annotations/%s.xml" "/data/VOC2007/JPEGImages/%s.jpg"
    "/data/VOC2007/ImageSets/Main/%s.txt" ["000001"].
Definition data_cat_world : DataVoc.world :=
  DataVoc.mkWorld data_cat_dataset data_default 0.

(** A 1x3x300x300 tensor, and the image-to-tensor transform that creates
    it. *)
Definition image_tensor : Tensor := mkTensor [1; 3; 300; 300] [].
Definition data_to_tensor (img : object) : M DataVoc.world object :=
  DataVoc.alloc (VTensor image_tensor).

Definition voc_cat_hooks : Voc.Hooks :=
  Voc.mkHooks None (Some Voc.annotation_hook).
Definition data_cat_hooks : DataVoc.Hooks :=
  DataVoc.mkHooks (Some data_to_tensor) (Some DataVoc.annotation_hook).
Definition data_bare_hooks : DataVoc.Hooks :=
  DataVoc.mkHooks None (Some DataVoc.annotation_hook).

(** A 3x2x2 image tensor and lists of five-element box records. *)
Definition small_image : Tensor :=
  mkTensor [3; 2; 2] (replicate 12 (S754_zero false)).
Definition box_record : pyval :=
  VList [VFloat half; VFloat half; VFloat half; VFloat half; VInt 7].
Definition records (n : nat) : list pyval := replicate n box_record.

(** * Further notions *)

(** ** Kept objects and their records *)

(** Whether the parser keeps an object node. *)
Definition kept (keep : bool) (obj : Element) : bool :=
  match difficult_flag obj with
  | Ok dz => keep || negb (dz =? 1)
  | Err _ => false
  end.

(** The record [src/data/voc.py] builds for an object node: one fraction
    per child of its [bndbox], then the index of its name. *)
Definition data_record_of (self : DataVoc.AnnotationTransform) (H W : Z)
    (obj : Element) (r : list pyval) : Prop :=
  exists name b fs i,
    class_name obj = Ok name
    /\ ET_find "bndbox" obj = Some b
    /\ DataVoc.fraction_coords H W (Some b) = Ok (VFloat <$> fs)
    /\ length fs = length (children b)
    /\ DataVoc.class_to_index self !! name = Some i
    /\ r = (VFloat <$> fs) ++ [VInt i].

(** The record [src/voc.py] builds for an object node: the integers of
    child 4 less one, then the normalised text of child 0. *)
Definition voc_record_of (obj : Element) (r : list pyval) : Prop :=
  exists c0 t c4 vs,
    children obj !! 0%nat = Some c0
    /\ text c0 = Some t
    /\ children obj !! 4%nat = Some c4
    /\ box_ints c4 = Ok vs
    /\ r = (VInt <$> ((fun v => v - 1) <$> vs))
           ++ [VStr (str_strip (str_lower t))].

(** A cat, a difficult dog and a person. *)
Definition mixed_tree : Element :=
  annotation_of [voc_object "cat" "0" (bndbox "10" "20" "110" "220");
                 voc_object "dog" "1" (bndbox "1" "2" "3" "4");
                 voc_object "Person " "0" (bndbox "5" "6" "7" "8")].

(** ** Well-formed samples *)

(** A sample made of an image tensor of shape [sh] and of [n] >= 1
    records that all convert to tensors of shape [rsh]. *)
Definition sample_of (sh rsh : list Z) (n : nat) (sample : list pyval)
  : Prop :=
  exists t recs trs,
    sample = [VTensor t; VList recs]
    /\ shape t = sh
    /\ length recs = n
    /\ n <> 0%nat
    /\ map_res torch_Tensor recs = Ok trs
    /\ Forall (fun tr => shape tr = rsh) trs.

(** The components [detection_collate] looks at. *)
Definition collated (v : pyval) : bool :=
  match v with
  | VTensor _ | VList _ => true
  | _ => false
  end.

(** An image-to-tensor transform that forgets the channels: a new
    300x300 tensor. *)
Definition data_to_flat (img : object) : M DataVoc.world object :=
  DataVoc.alloc (VTensor (mkTensor [300; 300] [])).

(** The file system of [cat_libs] without the image. *)
Definition missing_image_libs : Libs :=
  mkLibs (read_text cat_libs) (ET_parse cat_libs)
    (fun p => Err (FileNotFoundError p)) (Image_convert cat_libs).

(** ** Writing a manifest *)

(** The identifiers, one per line. *)
Fixpoint unlines (ids : list string) : string :=
  match ids with
  | [] => EmptyString
  | id :: rest => id +:+ nl +:+ unlines rest
  end.

Definition percent : ascii := "%"%char.
Definition slash : ascii := "/"%char.

(** A path component that [os.path.join] appends after a separator: not
    empty, not starting and not ending with a slash. *)
Definition plain_component (s : string) : Prop :=
  s <> EmptyString /\ starts_with_slash s = false
  /\ ends_with_slash s = false.

(** ** What [show] draws *)

(** The colour for the counter [i]: the palette has six colours. *)
Definition palette (i : Z) : color :=
  nth (Z.to_nat (i mod 6)) DataVoc.COLORS (0, 0, 0, 0).

(** The drawing calls for a list of labelled boxes, the first one with
    the counter [i]: for each box its rectangle, then its label at the
    first two coordinates. *)
Fixpoint drawing_plan (i : Z) (boxes : list (option string * list Z))
  : list DrawOp :=
  match boxes with
  | [] => []
  | lb :: rest =>
      Rectangle lb.2 (palette i)
      :: Text (take 2 lb.2) lb.1 (palette (i + 3))
      :: drawing_plan (i + 1) rest
  end.

(** The name and the box of an object or part node as [show] of
    [src/data/voc.py] reads them. *)
Definition labelled_box (e : Element) : result (string * list Z) :=
  let? name := class_name e in
  let? box := int_coords (ET_find "bndbox" e) in
  Ok (name, box).

(** The boxes of an object node: its own, then, when parts are asked
    for and the node has a part child, those of every part below it. *)
Definition data_boxes_of (subparts : bool) (obj : Element)
  : result (list (string * list Z)) :=
  let? own := labelled_box obj in
  let? parts :=
    if subparts && negb (bool_decide (ET_find "part" obj = None))
    then map_res labelled_box (ET_iter "part" obj)
    else Ok [] in
  Ok (own :: parts).

Definition with_label (nb : string * list Z) : option string * list Z :=
  (Some nb.1, nb.2).

(** The label and the box of an object node as [show] of [src/voc.py]
    reads them: the text of the name as it is. *)
Definition voc_box_of (obj : Element) : result (option string * list Z) :=
  let? box := int_coords (ET_find "bndbox" obj) in
  let? label := find_text obj "name" in
  Ok (label, box).

(** A part node, and a person with two parts. *)
Definition part_node (name : string) (box : Element) : Element :=
  mkElement "part" None [leaf "name" name; box].

Definition person_object : Element :=
  mkElement "object" None
    [leaf "name" " Person"; leaf "pose" "Left"; leaf "truncated" "0";
     leaf "difficult" "1"; bndbox "10" "20" "110" "220";
     part_node "Head" (bndbox "30" "21" "60" "50");
     part_node "hand" (bndbox "15" "100" "25" "110")].

Definition person_tree : Element := annotation_of [cat_object; person_object].

(** The file system of [cat_libs] with [person_tree] as the annotation. *)
Definition person_libs : Libs :=
  mkLibs (read_text cat_libs)
    (fun p => if String.eqb p "/data/VOC2007/Annotations/000001.xml"
              then Ok person_tree else Err (FileNotFoundError p))
    (Image_open cat_libs) (Image_convert cat_libs).

(** A drawing library that writes the coordinates of each call and the
    first channel of its colour into the pixel list, and a viewer that
    accepts every image. *)
Definition op_pixels (op : DrawOp) : list Z :=
  match op with
  | Rectangle xy c => xy ++ [c.1.1.1]
  | Text xy _ c => xy ++ [c.1.1.1]
  end.

Definition sample_painter : Painter :=
  mkPainter
    (fun img op =>
       Ok (mkImage (mode img) (im_size img) (pixels img ++ op_pixels op)))
    (fun _ => Ok tt).

(** ** Segmentation fixtures *)

Definition mask_image : PILImage := mkImage "P" (300, 300) [1; 2].
Definition rgb_mask : PILImage := mkImage "RGB" (300, 300) [1; 2].

(** A file system with the segmentation manifest holding two
    identifiers, and the mask and the image of the first one only. *)
Definition seg_libs : Libs :=
  mkLibs
    (fun p =>
       if String.eqb p "/data/VOC2007/ImageSets/Segmentation/trainval.txt"
       then Ok ("000001" +:+ nl +:+ "000002")
       else Err (FileNotFoundError p))
    (fun p => Err (FileNotFoundError p))
    (fun p =>
       if String.eqb p "/data/VOC2007/SegmentationClass/000001.png"
       then Ok mask_image
       else if String.eqb p "/data/VOC2007/JPEGImages/000001.jpg"
            then Ok raw_image
            else Err (FileNotFoundError p))
    (fun im m => Ok (mkImage m (im_size im) (pixels im))).

Definition voc_seg_dataset : Voc.VOCSegmentation :=
  Voc.mkVOCSegmentation "/data" "trainval"
    "/data/VOC2007/SegmentationClass/%s.png"
    "/data/VOC2007/JPEGImages/%s.jpg"
    "/data/VOC2007/ImageSets/Segmentation/%s.txt" ["000001"; "000002"].
Definition voc_seg_world : Voc.seg_world := Voc.mkSegWorld voc_seg_dataset 0.

Definition data_seg_dataset : DataVoc.VOCSegmentation :=
  DataVoc.mkVOCSegmentation "/data" "trainval"
    "/data/VOC2007/SegmentationClass/%s.png"
    "/data/VOC2007/JPEGImages/%s.jpg"
    "/data/VOC2007/ImageSets/Segmentation/%s.txt" ["000001"; "000002"].
Definition data_seg_world : DataVoc.seg_world :=
  DataVoc.mkSegWorld data_seg_dataset 0.

(** A target transform that makes a new object of the class indices. *)
Definition voc_to_indices (target : object) : M Voc.seg_world object :=
  Voc.seg_alloc (VList [VInt 1; VInt 2]).
Definition data_to_indices (target : object) : M DataVoc.seg_world object :=
  DataVoc.seg_alloc (VList [VInt 1; VInt 2]).

(** ** Notions of the end-to-end sample *)

(** An object node as [find] reads it: not flagged difficult, named cat
    once lowercased and trimmed, with a box holding (10,20,110,220). *)
Definition cat_node (obj : Element) : Prop :=
  (exists dz, difficult_flag obj = Ok dz /\ dz <> 1)
  /\ class_name obj = Ok "cat"
  /\ exists b, ET_find "bndbox" obj = Some b
               /\ box_ints b = Ok [10; 20; 110; 220].

(** The child order of the VOC files, on which [src/voc.py] relies: the
    name is the first child of the object node and the box its fifth. *)
Definition name_first_box_fifth (obj : Element) : Prop :=
  ET_find "name" obj = children obj !! 0%nat
  /\ ET_find "bndbox" obj = children obj !! 4%nat.

(** A cat written differently: the name in capitals with blanks around,
    the difficult flag and the coordinates written with blanks, a sign
    or an underscore, other children around; the name is still the
    first child of the object and the box its fifth. *)
Definition loud_cat_object : Element :=
  mkElement "object" None
    [leaf "name" " CAT "; leaf "pose" "Unspecified"; leaf "occluded" "1";
     leaf "difficult" " 0 "; bndbox "+10" "20" " 110" "2_20";
     leaf "truncated" "0"].
Definition loud_cat_tree : Element :=
  mkElement "annotation" None
    [leaf "folder" "VOC2012";
     mkElement "size" None [leaf "width" "500"; leaf "height" "375"];
     loud_cat_object].

(** The file system of [cat_libs] with [loud_cat_tree] as the
    annotation. *)
Definition loud_cat_libs : Libs :=
  mkLibs (read_text cat_libs)
    (fun p => if String.eqb p "/data/VOC2007/Annotations/000001.xml"
              then Ok loud_cat_tree else Err (FileNotFoundError p))
    (Image_open cat_libs) (Image_convert cat_libs).

(** ** Notions of the collation and frame statements *)


(** A hook that writes none of the attributes [attrs]. *)
Definition keeps_attrs {S T : Type} (attrs : S -> T)
    (f : object -> M S object) : Prop :=
  forall o s r s', f o s = (r, s') -> attrs s' = attrs s.

(** Worlds in which five objects exist already, and input transforms
    that hand out the first of them, a tensor made earlier, instead of a
    new one. *)
Definition voc_old_world : Voc.world :=
  Voc.mkWorld voc_cat_dataset voc_default 5.
Definition data_old_world : DataVoc.world :=
  DataVoc.mkWorld data_cat_dataset data_default 5.
Definition voc_cached (img : object) : M Voc.world object :=
  mret (mkObject 0 (VTensor image_tensor)).
Definition data_cached (img : object) : M DataVoc.world object :=
  mret (mkObject 0 (VTensor image_tensor)).

(** * Properties *)

(** ** The Python primitives on small inputs *)

Lemma ex_strip : str_strip "  Cat " = "Cat".
Proof. reflexivity. Qed.
Lemma ex_lower : str_lower "Dining Table" = "dining table".
Proof. reflexivity. Qed.
Lemma ex_int1 : py_int (Some " 1_000 ") = Ok 1000.
Proof. reflexivity. Qed.
Lemma ex_int2 : py_int (Some "1__0") = Err ValueError.
Proof. reflexivity. Qed.
Lemma ex_int3 : py_int (Some "-007") = Ok (-7).
Proof. reflexivity. Qed.
Lemma ex_int4 :
  str_strip (String (ascii_of_nat 28) "1") = "1"
  /\ py_int (Some (String (ascii_of_nat 28) "1")) = Err ValueError.
Proof. split; reflexivity. Qed.
Lemma ex_div1 : int_truediv 100 200 = Ok half.
Proof. reflexivity. Qed.
Lemma ex_div2 : int_truediv 1 0 = Err ZeroDivisionError.
Proof. reflexivity. Qed.
Lemma ex_div3 : int_truediv 0 (-5) = Ok (S754_zero true).
Proof. reflexivity. Qed.
Lemma ex_div4 :
  int_truediv 1 3 = Ok (S754_finite false 6004799503160661 (-54)).
Proof. reflexivity. Qed.
Lemma ex_join : os_path_join "/data" ["VOC2007"; "Annotations"; "%s.xml"]
                  = "/data/VOC2007/Annotations/%s.xml".
Proof. reflexivity. Qed.
Lemma ex_format : py_format "/data/VOC2007/Annotations/%s.xml" "000001"
                    = Ok "/data/VOC2007/Annotations/000001.xml".
Proof. reflexivity. Qed.
Lemma ex_format_number : py_format "/data/%d.xml" "000001" = Err TypeError.
Proof. reflexivity. Qed.
Lemma ex_readlines :
  readlines ("a" +:+ nl +:+ nl +:+ "b") = ["a" +:+ nl; nl; "b"].
Proof. reflexivity. Qed.
Lemma ex_getitem_neg : list_getitem [1; 2; 3] (-1) = Ok 3.
Proof. reflexivity. Qed.
Lemma ex_stack_empty : torch_stack [] = Err (RuntimeError EmptyTensorList).
Proof. reflexivity. Qed.

(** ** Manifest lines *)

Lemma mem_char_nl c : mem_char c nl = Ascii.eqb c newline.
Proof. simpl. apply orb_false_r. Qed.

Lemma append_cons c s t : String c s +:+ t = String c (s +:+ t).
Proof. reflexivity. Qed.

Lemma append_empty_r s : s +:+ EmptyString = s.
Proof.
  induction s as [|c s IH]; [done |]. by rewrite append_cons, IH.
Qed.

Lemma append_assoc s t u : (s +:+ t) +:+ u = s +:+ (t +:+ u).
Proof.
  induction s as [|c s IH]; [done |]. by rewrite !append_cons, IH.
Qed.

Lemma has_char_app c s t :
  has_char c (s +:+ t) = has_char c s || has_char c t.
Proof.
  induction s as [|d s IH]; [done |].
  rewrite append_cons. simpl. by rewrite IH, orb_assoc.
Qed.

Lemma rstrip_clean s :
  has_char newline s = false -> rstrip_by (fun c => mem_char c nl) s = s.
Proof.
  induction s as [|c s IH]; [done |].
  cbn [rstrip_by has_char].
  intros [Hc Hs]%orb_false_elim. rewrite (IH Hs).
  destruct s; [| done].
  by rewrite mem_char_nl, Hc.
Qed.

Lemma rstrip_line s :
  has_char newline s = false ->
  rstrip_by (fun c => mem_char c nl) (s +:+ nl) = s.
Proof.
  induction s as [|c s IH]; [done |].
  rewrite append_cons. cbn [rstrip_by has_char].
  intros [Hc Hs]%orb_false_elim. rewrite (IH Hs).
  destruct s; [| done].
  by rewrite mem_char_nl, Hc.
Qed.

Lemma strip_clean s :
  has_char newline s = false -> str_strip_chars nl s = s.
Proof.
  intros H. unfold str_strip_chars, strip_by.
  destruct s as [|c s]; [done |].
  simpl in H. apply orb_false_elim in H as [Hc Hs].
  cbn [lstrip_by]. rewrite mem_char_nl, Hc.
  apply rstrip_clean. simpl. by rewrite Hc, Hs.
Qed.

Lemma strip_line s :
  has_char newline s = false -> str_strip_chars nl (s +:+ nl) = s.
Proof.
  intros H. unfold str_strip_chars, strip_by.
  destruct s as [|c s]; [done |].
  pose proof H as H'. simpl in H. apply orb_false_elim in H as [Hc Hs].
  rewrite append_cons. cbn [lstrip_by]. rewrite mem_char_nl, Hc.
  apply (rstrip_line (String c s) H').
Qed.

Lemma readlines_clean s :
  has_char newline s = false ->
  readlines s = if String.eqb s EmptyString then [] else [s].
Proof.
  induction s as [|c s IH]; simpl; [done |].
  intros [Hc Hs]%orb_false_elim. rewrite Hc, (IH Hs).
  by destruct s.
Qed.

Lemma readlines_line s r :
  has_char newline s = false ->
  readlines (s +:+ String newline r) = (s +:+ nl) :: readlines r.
Proof.
  induction s as [|c s IH]; [done |].
  rewrite !append_cons. simpl.
  intros [Hc Hs]%orb_false_elim. by rewrite Hc, (IH Hs).
Qed.

Lemma lines_from_readlines s : forall cur,
  has_char newline cur = false ->
  lines_from cur s = str_strip_chars nl <$> readlines (cur +:+ s).
Proof.
  induction s as [|c r IH]; intros cur Hcur.
  - rewrite append_empty_r, (readlines_clean _ Hcur). simpl.
    destruct (String.eqb cur EmptyString); [done |].
    simpl. by rewrite (strip_clean _ Hcur).
  - simpl. destruct (Ascii.eqb c newline) eqn:Hc.
    + apply Ascii.eqb_eq in Hc as ->.
      rewrite (readlines_line _ _ Hcur). simpl.
      rewrite (strip_line _ Hcur). f_equal.
      by rewrite (IH EmptyString eq_refl).
    + rewrite IH, append_assoc; [done |].
      rewrite has_char_app, Hcur. simpl. by rewrite Hc.
Qed.

(** The identifiers the constructor stores are the lines of the manifest
    without their newline. *)
Lemma read_ids_lines content : read_ids content = manifest_lines content.
Proof.
  unfold read_ids, manifest_lines.
  by rewrite (lines_from_readlines content EmptyString eq_refl).
Qed.

(** ** Counting lines *)

Lemma last_char_app s t :
  t <> EmptyString -> last_char (s +:+ t) = last_char t.
Proof.
  intros Ht. induction s as [|c s IH]; [done |].
  rewrite append_cons. cbn [last_char]. rewrite IH.
  destruct (s +:+ t) eqn:E; [| done].
  destruct s; [by destruct t | done].
Qed.

Lemma last_char_clean s :
  has_char newline s = false ->
  open_line (last_char s) = if String.eqb s EmptyString then 0%nat else 1%nat.
Proof.
  induction s as [|c s IH]; [done |].
  cbn [has_char]. intros [Hc Hs]%orb_false_elim.
  cbn [last_char]. destruct s as [|d s]; [simpl; by rewrite Hc |].
  by rewrite (IH Hs).
Qed.

Lemma lines_from_count s : forall cur,
  has_char newline cur = false ->
  length (lines_from cur s)
  = (count_char newline s + open_line (last_char (cur +:+ s)))%nat.
Proof.
  induction s as [|c r IH]; intros cur Hcur.
  - rewrite append_empty_r, (last_char_clean _ Hcur). simpl.
    by destruct (String.eqb cur EmptyString).
  - cbn [lines_from count_char]. destruct (Ascii.eqb c newline) eqn:Hc.
    + apply Ascii.eqb_eq in Hc as ->. cbn [length].
      rewrite (IH EmptyString eq_refl).
      change (EmptyString +:+ r) with r.
      rewrite (last_char_app cur (String newline r)); [| done].
      cbn [last_char]. destruct r; [reflexivity |]. simpl. lia.
    + rewrite IH, append_assoc; [done |].
      rewrite has_char_app, Hcur. simpl. by rewrite Hc.
Qed.

(** The number of lines of a manifest: one per newline, and one more for
    a last line without newline. *)
Lemma manifest_lines_count content :
  length (manifest_lines content) = line_count content.
Proof. apply (lines_from_count content EmptyString eq_refl). Qed.

(** ** Loops that may raise *)

Section Loops.
Context {A B : Type} (body : A -> B -> result A).

Lemma fold_res_app l1 l2 a :
  fold_res body (l1 ++ l2) a
  = (let? a' := fold_res body l1 a in fold_res body l2 a').
Proof.
  revert a. induction l1 as [|x l1 IH]; intros a; simpl; [done |].
  destruct (body a x); simpl; [apply IH | done].
Qed.

(** An element on which the body always raises makes the loop raise. *)
Lemma fold_res_raises l x :
  x ∈ l -> (forall a, exists e, body a x = Err e) ->
  forall a, exists e, fold_res body l a = Err e.
Proof.
  intros Hin Hx. induction l as [|y l IH]; intros a.
  - by apply elem_of_nil in Hin.
  - simpl. apply elem_of_cons in Hin as [<- | Hin].
    + destruct (Hx a) as [e ->]. by exists e.
    + destruct (body a y) as [a' | e]; simpl; [by apply IH | by exists e].
Qed.

(** Elements the body passes over leave the accumulator alone. *)
Lemma fold_res_skips l a :
  (forall x, x ∈ l -> forall a', body a' x = Ok a') ->
  fold_res body l a = Ok a.
Proof.
  induction l as [|y l IH]; intros H; simpl; [done |].
  rewrite (H y); [| by left]. simpl. apply IH.
  intros x Hx. apply H. by right.
Qed.

End Loops.

(** ** The annotation parser *)

Lemma voc_call_object_flag self obj :
  Voc.call_object self obj
  = (let? dz := difficult_flag obj in
     if negb (Voc.keep_difficult self) && (dz =? 1) then Ok None
     else
       let? c0 := ET_getitem obj 0 in
       let? name := lower_strip (text c0) in
       let? bbox := ET_getitem obj 4 in
       let? coords := Voc.pixel_coords bbox in
       Ok (Some (coords ++ [VStr name]))).
Proof.
  unfold Voc.call_object, difficult_flag.
  destruct (find_text obj "difficult") as [d|]; simpl; [| done].
  by destruct (py_int d).
Qed.

Lemma data_call_object_flag self H W obj :
  DataVoc.call_object self H W obj
  = (let? dz := difficult_flag obj in
     if negb (DataVoc.keep_difficult self) && (dz =? 1) then Ok None
     else
       let? name := class_name obj in
       let? coords := DataVoc.fraction_coords H W (ET_find "bndbox" obj) in
       let? label_ind := dict_getitem (DataVoc.class_to_index self) name in
       Ok (Some (coords ++ [VInt label_ind]))).
Proof.
  unfold DataVoc.call_object, difficult_flag, class_name.
  destruct (find_text obj "difficult") as [d|]; simpl; [| done].
  destruct (py_int d) as [dz|]; simpl; [| done].
  destruct (negb _ && _); [done |].
  by destruct (find_text obj "name").
Qed.

(** C5: when every object node of a tree is dropped (the parser does not
    keep difficult objects and the node's [difficult] flag is 1), both
    parsers return the empty list and raise nothing.  A tree without
    object nodes is the special case with nothing to drop. *)
Theorem all_difficult_gives_empty_list
    (target : Element) (keep : bool)
    (m1 m2 : gmap string Z) (C H W : Z)
    (Hdrop : forall obj, obj ∈ ET_iter "object" target ->
               keep = false /\ difficult_flag obj = Ok 1) :
  Voc.AnnotationTransform_call (Voc.mkAnnotationTransform m1 keep) target
  = Ok []
  /\ DataVoc.AnnotationTransform_call
       (DataVoc.mkAnnotationTransform m2 keep) target C H W
     = Ok [].
Proof.
  split.
  - unfold Voc.AnnotationTransform_call. apply fold_res_skips.
    intros obj Hobj res. destruct (Hdrop obj Hobj) as [-> Hflag].
    unfold Voc.call_step. rewrite voc_call_object_flag, Hflag. done.
  - unfold DataVoc.AnnotationTransform_call. apply fold_res_skips.
    intros obj Hobj res. destruct (Hdrop obj Hobj) as [-> Hflag].
    unfold DataVoc.call_step. rewrite data_call_object_flag, Hflag. done.
Qed.

Lemma all_difficult_witness :
  DataVoc.AnnotationTransform_call
    (DataVoc.mkAnnotationTransform (index_by_position DataVoc.VOC_CLASSES)
       false) difficult_tree 3 300 300
  = Ok []
  /\ Voc.AnnotationTransform_call
       (Voc.mkAnnotationTransform (index_by_position Voc.VOC_CLASSES) false)
       difficult_tree
     = Ok [].
Proof.
  assert (Hdrop : forall obj, obj ∈ ET_iter "object" difficult_tree ->
                    false = false /\ difficult_flag obj = Ok 1).
  { intros obj Hobj. split; [reflexivity |].
    change (ET_iter "object" difficult_tree)
      with [voc_object "cat" "1" (bndbox "1" "2" "3" "4");
            voc_object "Dog" " 1 " (bndbox "x" "2" "3" "4")] in Hobj.
    apply elem_of_cons in Hobj as [-> | Hobj]; [reflexivity |].
    apply elem_of_cons in Hobj as [-> | Hobj]; [reflexivity |].
    by apply elem_of_nil in Hobj. }
  destruct (all_difficult_gives_empty_list difficult_tree false
              (index_by_position Voc.VOC_CLASSES)
              (index_by_position DataVoc.VOC_CLASSES) 3 300 300 Hdrop)
    as [Hvoc Hdata].
  split; [exact Hdata | exact Hvoc].
Defined.

(** C3 as it stands fails on [src/voc.py]: an object whose name is in no
    vocabulary gets a record, the mapping is never looked at. *)
Lemma unknown_class_gets_a_record :
  Voc.class_to_ind voc_default !! "unicorn" = None
  /\ ET_iter "object" unicorn_tree = [unicorn_object]
  /\ difficult_flag unicorn_object = Ok 0
  /\ Voc.AnnotationTransform_call voc_default unicorn_tree
     = Ok [[VInt 9; VInt 19; VInt 109; VInt 219; VStr "unicorn"]]
  /\ ~ (exists e, Voc.AnnotationTransform_call voc_default unicorn_tree
                  = Err e).
Proof.
  repeat split; try (vm_compute; reflexivity).
  intros [e He]. vm_compute in He. discriminate.
Qed.

(** C3, amended: in [src/data/voc.py], an object node that is not
    difficult and whose lowercased, trimmed name is not a key of the
    mapping makes the parser raise, so no record list is returned at all;
    the exception is the KeyError for that name as soon as the nodes
    before it are processed and its own box is converted without error. *)
Theorem unknown_class_raises
    (self : DataVoc.AnnotationTransform) (target : Element) (C H W : Z)
    (obj : Element) (dz : Z) (name : string)
    (Hobj : obj ∈ ET_iter "object" target)
    (Hflag : difficult_flag obj = Ok dz)
    (Hnot : dz <> 1)
    (Hname : class_name obj = Ok name)
    (Hkey : DataVoc.class_to_index self !! name = None) :
  (exists e, DataVoc.AnnotationTransform_call self target C H W = Err e)
  /\ (forall before after res coords,
        ET_iter "object" target = before ++ obj :: after ->
        fold_res (DataVoc.call_step self H W) before [] = Ok res ->
        DataVoc.fraction_coords H W (ET_find "bndbox" obj) = Ok coords ->
        DataVoc.AnnotationTransform_call self target C H W
        = Err (KeyError name)).
Proof.
  assert (Hbody : forall coords,
             DataVoc.fraction_coords H W (ET_find "bndbox" obj) = Ok coords ->
             DataVoc.call_object self H W obj = Err (KeyError name)).
  { intros coords Hc. rewrite data_call_object_flag, Hflag. simpl.
    apply Z.eqb_neq in Hnot. rewrite Hnot, andb_false_r, Hname. simpl.
    rewrite Hc. simpl. unfold dict_getitem. by rewrite Hkey. }
  split.
  - unfold DataVoc.AnnotationTransform_call.
    apply (fold_res_raises _ _ obj Hobj). intros res.
    unfold DataVoc.call_step.
    destruct (DataVoc.fraction_coords H W (ET_find "bndbox" obj))
      as [coords | e] eqn:Hc.
    + rewrite (Hbody coords eq_refl). by eexists.
    + rewrite data_call_object_flag, Hflag. simpl.
      apply Z.eqb_neq in Hnot. rewrite Hnot, andb_false_r, Hname. simpl.
      rewrite Hc. by eexists.
  - intros before after res coords Hsplit Hbefore Hc.
    unfold DataVoc.AnnotationTransform_call.
    rewrite Hsplit, fold_res_app, Hbefore. simpl.
    unfold DataVoc.call_step at 1. by rewrite (Hbody coords Hc).
Qed.

Lemma unknown_class_raises_witness :
  (exists e, DataVoc.AnnotationTransform_call data_default unicorn_tree
               3 300 300 = Err e)
  /\ DataVoc.AnnotationTransform_call data_default unicorn_tree 3 300 300
     = Err (KeyError "unicorn").
Proof.
  assert (Hobj : unicorn_object ∈ ET_iter "object" unicorn_tree)
    by (vm_compute; left).
  assert (Hkey : DataVoc.class_to_index data_default !! "unicorn" = None)
    by (vm_compute; reflexivity).
  destruct (unknown_class_raises data_default unicorn_tree 3 300 300
              unicorn_object 0 "unicorn" Hobj eq_refl ltac:(lia) eq_refl Hkey)
    as [Hraise Hkeyerr].
  split; [exact Hraise |].
  eapply (Hkeyerr [] []); vm_compute; reflexivity.
Defined.

Lemma pixel_coords_ints bbox vs :
  box_ints bbox = Ok vs ->
  Voc.pixel_coords bbox = Ok (VInt <$> ((fun v => v - 1) <$> vs)).
Proof.
  unfold box_ints, Voc.pixel_coords.
  generalize (children bbox) as l. intros l. revert vs.
  induction l as [|bb l IH]; intros vs; simpl.
  - by intros [= <-].
  - destruct (py_int (text bb)) as [v|]; simpl; [| done].
    destruct (map_res _ l) as [vs'|] eqn:Hvs; simpl; [| done].
    intros [= <-]. by rewrite (IH vs' eq_refl).
Qed.

Lemma fraction_coords_ints H W bbox vs :
  box_ints bbox = Ok vs ->
  DataVoc.fraction_coords H W (Some bbox)
  = map_res_i (fun i v =>
                 let? q := int_truediv (v - 1) (if Nat.even i then W else H) in
                 Ok (VFloat q)) 0%nat vs.
Proof.
  unfold box_ints, DataVoc.fraction_coords.
  generalize (children bbox) as l. generalize 0%nat as i.
  intros i l. revert i vs.
  induction l as [|bb l IH]; intros i vs; simpl.
  - by intros [= <-].
  - unfold DataVoc.coord at 1.
    destruct (py_int (text bb)) as [v|]; simpl; [| done].
    destruct (map_res _ l) as [vs'|] eqn:Hvs; simpl; [| done].
    intros [= <-]. simpl. by rewrite (IH (S i) vs' eq_refl).
Qed.

Lemma truediv_zero W : W <> 0 -> int_truediv 0 W = Ok (S754_zero (W <? 0)).
Proof.
  intros HW. unfold int_truediv.
  apply Z.eqb_neq in HW. rewrite HW. by destruct W.
Qed.

Lemma list_getitem_lookup {A} (l : list A) (i : Z) (x : A) :
  0 <= i -> l !! Z.to_nat i = Some x -> list_getitem l i = Ok x.
Proof.
  intros Hi Hx. unfold list_getitem.
  pose proof (lookup_lt_Some _ _ _ Hx) as Hlt.
  destruct (i <? 0) eqn:Hneg; [lia |].
  replace ((0 <=? i) && (i <? Z.of_nat (length l))) with true
    by (symmetry; apply andb_true_iff; split; lia).
  by rewrite Hx.
Qed.

(** C9: the parser of [src/voc.py] never consults its mapping (its result
    is the same whatever the mapping), takes the name from the child at
    position 0 and the box from the child at position 4 whatever their
    tags, and ends every record with the name itself. *)
Theorem positional_access_and_class_names :
  (forall m1 m2 keep target,
     Voc.AnnotationTransform_call (Voc.mkAnnotationTransform m1 keep) target
     = Voc.AnnotationTransform_call (Voc.mkAnnotationTransform m2 keep) target)
  /\ (forall self obj dz c0 t c4 vs,
        difficult_flag obj = Ok dz ->
        Voc.keep_difficult self = true \/ dz <> 1 ->
        children obj !! 0%nat = Some c0 -> text c0 = Some t ->
        children obj !! 4%nat = Some c4 -> box_ints c4 = Ok vs ->
        Voc.call_object self obj
        = Ok (Some ((VInt <$> ((fun v => v - 1) <$> vs))
                    ++ [VStr (str_strip (str_lower t))])))
  /\ Voc.AnnotationTransform_call (Voc.AnnotationTransform_init None false)
       (annotation_of [shuffled_object])
     = Ok [[VInt 9; VInt 19; VInt 109; VInt 219; VStr "left"]].
Proof.
  split; [reflexivity |].
  split; [| reflexivity].
  intros self obj dz c0 t c4 vs Hflag Hkept H0 Ht H4 Hvs.
  rewrite voc_call_object_flag, Hflag. simpl.
  replace (negb (Voc.keep_difficult self) && (dz =? 1)) with false.
  2:{ symmetry. destruct Hkept as [-> | Hdz]; [done |].
      apply Z.eqb_neq in Hdz. by rewrite Hdz, andb_false_r. }
  unfold ET_getitem.
  rewrite (list_getitem_lookup _ 0 c0), (list_getitem_lookup _ 4 c4);
    [| lia | done | lia | done].
  simpl. rewrite Ht. simpl.
  by rewrite (pixel_coords_ints c4 vs Hvs).
Qed.

Lemma positional_access_witness :
  difficult_flag shuffled_object = Ok 0
  /\ Voc.call_object (Voc.AnnotationTransform_init None false) shuffled_object
     = Ok (Some [VInt 9; VInt 19; VInt 109; VInt 219; VStr "left"]).
Proof.
  destruct positional_access_and_class_names as (_ & Hpos & _).
  split; [reflexivity |].
  apply (Hpos (Voc.AnnotationTransform_init None false) shuffled_object 0
              (leaf "pose" " Left") " Left"
              (bndbox "10" "20" "110" "220") [10; 20; 110; 220]);
    try reflexivity.
  right. lia.
Defined.

(** ** Batch collation *)

Lemma collate_item_images acc tup acc' :
  DataVoc.collate_item acc tup = Ok acc' ->
  acc'.1 = acc.1 ++ omap as_tensor [tup].
Proof.
  unfold DataVoc.collate_item.
  destruct tup; simpl; try (intros [= <-]; by rewrite ?app_nil_r).
  destruct (map_res torch_Tensor items) as [annos|]; simpl; [| done].
  destruct (torch_stack annos); simpl; [| done].
  intros [= <-]. by rewrite app_nil_r.
Qed.

Lemma collate_sample_images sample : forall acc acc',
  DataVoc.collate_sample acc sample = Ok acc' ->
  acc'.1 = acc.1 ++ omap as_tensor sample.
Proof.
  unfold DataVoc.collate_sample.
  induction sample as [|tup sample IH]; intros acc acc'; cbn [fold_res].
  - intros [= <-]. by rewrite app_nil_r.
  - destruct (DataVoc.collate_item acc tup) as [acc1|] eqn:H1;
      cbn [rbind]; [| done].
    intros H2. rewrite (IH _ _ H2), (collate_item_images _ _ _ H1).
    rewrite <- app_assoc. f_equal.
    change (tup :: sample) with ([tup] ++ sample). by rewrite omap_app.
Qed.

Lemma collate_batch_images batch : forall acc acc',
  fold_res DataVoc.collate_sample batch acc = Ok acc' ->
  acc'.1 = acc.1 ++ batch_images batch.
Proof.
  unfold batch_images.
  induction batch as [|sample batch IH]; intros acc acc'; cbn [fold_res].
  - intros [= <-]. by rewrite app_nil_r.
  - destruct (DataVoc.collate_sample acc sample) as [acc1|] eqn:H1;
      cbn [rbind]; [| done].
    intros H2. rewrite (IH _ _ H2), (collate_sample_images _ _ _ H1).
    cbn [concat]. by rewrite <- app_assoc, omap_app.
Qed.







(** A list without records, anywhere in a batch, makes the collation
    raise. *)
Lemma collate_empty_list_raises batch sample :
  sample ∈ batch -> VList [] ∈ sample ->
  exists e, DataVoc.detection_collate batch = Err e.
Proof.
  intros Hs Hv.
  assert (exists e, fold_res DataVoc.collate_sample batch ([], []) = Err e)
    as [e He].
  { apply (fold_res_raises _ _ sample Hs). intros acc.
    apply (fold_res_raises _ _ (VList []) Hv). intros acc'.
    by eexists. }
  unfold DataVoc.detection_collate. rewrite He. by eexists.
Qed.

(** C2: on three samples with 2, 0 and 5 records the collation does not
    return: whatever the images and the records of the first and the last
    sample are, [detection_collate] raises, and on well-formed records the
    exception is that of stacking the empty list of the second sample. *)
Theorem collate_2_0_5_raises :
  (forall t1 t2 t3 r1 r3,
      exists e,
        DataVoc.detection_collate
          [[VTensor t1; VList r1]; [VTensor t2; VList []];
           [VTensor t3; VList r3]]
        = Err e)
  /\ length <$> [records 2; records 0; records 5] = [2; 0; 5]%nat
  /\ DataVoc.detection_collate
       [[VTensor small_image; VList (records 2)];
        [VTensor small_image; VList (records 0)];
        [VTensor small_image; VList (records 5)]]
     = Err (RuntimeError EmptyTensorList).
Proof.
  split; [| split; reflexivity].
  intros t1 t2 t3 r1 r3.
  apply (collate_empty_list_raises _ [VTensor t2; VList []]).
  - right. left.
  - right. left.
Qed.

(** With at least one record in every sample the same batch is collated:
    three images under a new leading axis and three stacked arrays. *)
Lemma collate_2_1_5_shapes :
  collated_shapes
    (DataVoc.detection_collate
       [[VTensor small_image; VList (records 2)];
        [VTensor small_image; VList (records 1)];
        [VTensor small_image; VList (records 5)]])
  = Ok ([3; 3; 2; 2], [[2; 5]; [1; 5]; [5; 5]]).
Proof. reflexivity. Qed.

(** ** The dataset accessor *)

Lemma voc_cat_dataset_built :
  Voc.VOCDetection_init cat_libs "/data" "trainval" "VOC2007"
  = Ok voc_cat_dataset.
Proof. reflexivity. Qed.

Lemma data_cat_dataset_built :
  DataVoc.VOCDetection_init cat_libs "/data" "trainval" "VOC2007"
  = Ok data_cat_dataset.
Proof. reflexivity. Qed.

(** What remains of [__getitem__] once the annotation tree and the image
    are loaded: the two hooks. *)
Lemma voc_getitem_loaded libs hooks index w id apath tree ipath im0 im :
  list_getitem (Voc.ids (Voc.dataset w)) index = Ok id ->
  py_format (Voc._annopath (Voc.dataset w)) id = Ok apath ->
  ET_parse libs apath = Ok tree ->
  py_format (Voc._imgpath (Voc.dataset w)) id = Ok ipath ->
  Image_open libs ipath = Ok im0 ->
  Image_convert libs im0 "RGB" = Ok im ->
  Voc.VOCDetection_getitem libs hooks index w
  = (do img <- match Voc.transform hooks with
               | Some f => f (mkObject (S (Voc.next_oid w)) (VImage im))
               | None => mret (mkObject (S (Voc.next_oid w)) (VImage im))
               end;
     do target <- match Voc.target_transform hooks with
                  | Some g => g (mkObject (Voc.next_oid w) (VElement tree))
                  | None => mret (mkObject (Voc.next_oid w) (VElement tree))
                  end;
     mret (img, target))%m (Voc.bump (Voc.bump w)).
Proof.
  intros Hid Hap Htree Hip Him0 Him.
  unfold Voc.VOCDetection_getitem, mbind at 1 2 3 4 5 6 7 8 9 10 11.
  unfold gets, lift, Voc.alloc, alloc_with. simpl.
  rewrite Hid, Hap, Htree. simpl. rewrite Hip, Him0, Him. done.
Qed.

Lemma data_getitem_loaded libs hooks index w id apath tree ipath im0 im :
  list_getitem (DataVoc.ids (DataVoc.dataset w)) index = Ok id ->
  py_format (DataVoc._annopath (DataVoc.dataset w)) id = Ok apath ->
  ET_parse libs apath = Ok tree ->
  py_format (DataVoc._imgpath (DataVoc.dataset w)) id = Ok ipath ->
  Image_open libs ipath = Ok im0 ->
  Image_convert libs im0 "RGB" = Ok im ->
  DataVoc.VOCDetection_getitem libs hooks index w
  = (do img <- match DataVoc.transform hooks with
               | Some f =>
                   DataVoc.transform_squeeze f
                     (mkObject (S (DataVoc.next_oid w)) (VImage im))
               | None => mret (mkObject (S (DataVoc.next_oid w)) (VImage im))
               end;
     do target <- match DataVoc.target_transform hooks with
                  | Some g =>
                      do sizes <- lift (py_call_size (oval img));
                      g (mkObject (DataVoc.next_oid w) (VElement tree)) sizes
                  | None =>
                      mret (mkObject (DataVoc.next_oid w) (VElement tree))
                  end;
     mret (img, target))%m (DataVoc.bump (DataVoc.bump w)).
Proof.
  intros Hid Hap Htree Hip Him0 Him.
  unfold DataVoc.VOCDetection_getitem, mbind at 1 2 3 4 5 6 7 8 9 10 11.
  unfold gets, lift, DataVoc.alloc, alloc_with. simpl.
  rewrite Hid, Hap, Htree. simpl. rewrite Hip, Him0, Him. done.
Qed.

(** Loading stopped with [e] in the world [w1]: the equations found so
    far rewrite the accessor down to that exception. *)
Ltac loading_stops e w1 :=
  left; exists e, w1;
  split; [done |]; split; [simpl; lia |];
  intros ?;
  unfold Voc.VOCDetection_getitem, DataVoc.VOCDetection_getitem,
    mbind, gets, lift, Voc.alloc, DataVoc.alloc, alloc_with;
  simpl;
  repeat match goal with
         | H : ?x = _ |- context [?x] => rewrite H; simpl
         end;
  done.

(** Either loading fails, with the same exception whatever the hooks and
    with no attribute changed, or the tree and the image are there. *)
Lemma voc_getitem_load_cases libs index w :
  (exists e w1,
      voc_attrs w1 = voc_attrs w
      /\ (Voc.next_oid w <= Voc.next_oid w1)%nat
      /\ forall hooks,
           Voc.VOCDetection_getitem libs hooks index w = (Err e, w1))
  \/ (exists id apath tree ipath im0 im,
        list_getitem (Voc.ids (Voc.dataset w)) index = Ok id
        /\ py_format (Voc._annopath (Voc.dataset w)) id = Ok apath
        /\ ET_parse libs apath = Ok tree
        /\ py_format (Voc._imgpath (Voc.dataset w)) id = Ok ipath
        /\ Image_open libs ipath = Ok im0
        /\ Image_convert libs im0 "RGB" = Ok im).
Proof.
  destruct (list_getitem (Voc.ids (Voc.dataset w)) index) as [id|e] eqn:Hid;
    [| loading_stops e w].
  destruct (py_format (Voc._annopath (Voc.dataset w)) id)
    as [apath|e] eqn:Hap; [| loading_stops e w].
  destruct (ET_parse libs apath) as [tree|e] eqn:Htree;
    [| loading_stops e w].
  destruct (py_format (Voc._imgpath (Voc.dataset w)) id)
    as [ipath|e] eqn:Hip; [| loading_stops e (Voc.bump w)].
  destruct (Image_open libs ipath) as [im0|e] eqn:Him0;
    [| loading_stops e (Voc.bump w)].
  destruct (Image_convert libs im0 "RGB") as [im|e] eqn:Him;
    [| loading_stops e (Voc.bump w)].
  right. by exists id, apath, tree, ipath, im0, im.
Qed.

Lemma data_getitem_load_cases libs index w :
  (exists e w1,
      data_attrs w1 = data_attrs w
      /\ (DataVoc.next_oid w <= DataVoc.next_oid w1)%nat
      /\ forall hooks,
           DataVoc.VOCDetection_getitem libs hooks index w = (Err e, w1))
  \/ (exists id apath tree ipath im0 im,
        list_getitem (DataVoc.ids (DataVoc.dataset w)) index = Ok id
        /\ py_format (DataVoc._annopath (DataVoc.dataset w)) id = Ok apath
        /\ ET_parse libs apath = Ok tree
        /\ py_format (DataVoc._imgpath (DataVoc.dataset w)) id = Ok ipath
        /\ Image_open libs ipath = Ok im0
        /\ Image_convert libs im0 "RGB" = Ok im).
Proof.
  destruct (list_getitem (DataVoc.ids (DataVoc.dataset w)) index)
    as [id|e] eqn:Hid; [| loading_stops e w].
  destruct (py_format (DataVoc._annopath (DataVoc.dataset w)) id)
    as [apath|e] eqn:Hap; [| loading_stops e w].
  destruct (ET_parse libs apath) as [tree|e] eqn:Htree;
    [| loading_stops e w].
  destruct (py_format (DataVoc._imgpath (DataVoc.dataset w)) id)
    as [ipath|e] eqn:Hip; [| loading_stops e (DataVoc.bump w)].
  destruct (Image_open libs ipath) as [im0|e] eqn:Him0;
    [| loading_stops e (DataVoc.bump w)].
  destruct (Image_convert libs im0 "RGB") as [im|e] eqn:Him;
    [| loading_stops e (DataVoc.bump w)].
  right. by exists id, apath, tree, ipath, im0, im.
Qed.

(** C10: in [src/data/voc.py], with a target transform and no input
    transform, [__getitem__] always raises: the outcome does not depend on
    the target transform, which is never called, and when the files load
    the exception is the TypeError of calling the [size] tuple of the PIL
    image. *)
Theorem getitem_without_transform_raises
    (libs : Libs) (g : object -> list Z -> M DataVoc.world object)
    (index : Z) (w : DataVoc.world) :
  (exists e,
      (DataVoc.VOCDetection_getitem libs
         (DataVoc.mkHooks None (Some g)) index w).1 = Err e)
  /\ (forall g',
        DataVoc.VOCDetection_getitem libs
          (DataVoc.mkHooks None (Some g')) index w
        = DataVoc.VOCDetection_getitem libs
            (DataVoc.mkHooks None (Some g)) index w)
  /\ (forall r w',
        DataVoc.VOCDetection_getitem libs
          (DataVoc.mkHooks None None) index w = (Ok r, w') ->
        DataVoc.VOCDetection_getitem libs
          (DataVoc.mkHooks None (Some g)) index w = (Err TypeError, w')).
Proof.
  destruct (data_getitem_load_cases libs index w)
    as [(e & w1 & _ & _ & Hfail)
       |(id & ap & tree & ip & im0 & im & Hid & Hap & Ht & Hip & H0 & Hi)].
  - split; [| split].
    + exists e. by rewrite Hfail.
    + intros g'. by rewrite !Hfail.
    + intros r w'. by rewrite Hfail.
  - split; [| split].
    + exists TypeError.
      by rewrite (data_getitem_loaded _ _ _ _ _ _ _ _ _ _ Hid Hap Ht Hip H0 Hi).
    + intros g'.
      by rewrite !(data_getitem_loaded _ _ _ _ _ _ _ _ _ _
                     Hid Hap Ht Hip H0 Hi).
    + intros r w'.
      rewrite !(data_getitem_loaded _ _ _ _ _ _ _ _ _ _ Hid Hap Ht Hip H0 Hi).
      unfold mbind, mret, lift. simpl. by intros [= <- <-].
Qed.

Lemma getitem_without_transform_witness :
  (DataVoc.VOCDetection_getitem cat_libs data_bare_hooks 0 data_cat_world).1
  = Err TypeError.
Proof.
  destruct (getitem_without_transform_raises cat_libs
              DataVoc.annotation_hook 0 data_cat_world) as (_ & _ & Hsize).
  unfold data_bare_hooks.
  rewrite (Hsize (mkObject 1 (VImage rgb_image),
                  mkObject 0 (VElement cat_tree))
             (DataVoc.bump (DataVoc.bump data_cat_world)));
    reflexivity.
Defined.

(** ** Frame: what a call leaves alone *)

Section FrameLemmas.
Context {S T : Type} (next : S -> nat) (attrs : S -> T).

Lemma well_behaved_ret : well_behaved next attrs mret.
Proof.
  intros o s r s' [= <- <-]. split; [done |]. split; [done |].
  intros o' [= <-]. by left.
Qed.

Lemma well_behaved_optional (h : option (object -> M S object)) :
  (forall f, h = Some f -> well_behaved next attrs f) ->
  well_behaved next attrs
    (fun o => match h with Some f => f o | None => mret o end).
Proof.
  intros Hh. destruct h as [f|]; [by apply Hh | apply well_behaved_ret].
Qed.

(** The input hook, then the target hook (which may look at the image),
    then the pair. *)
Lemma two_hooks_frame (h1 : object -> M S object)
    (h2 : object -> object -> M S object) img0 target0 s r s' :
  well_behaved next attrs h1 ->
  (forall img, well_behaved next attrs (h2 img)) ->
  (do img <- h1 img0;
   do target <- h2 img target0;
   mret (img, target))%m s = (r, s') ->
  attrs s' = attrs s
  /\ (next s <= next s')%nat
  /\ forall img target, r = Ok (img, target) ->
       (oid img = oid img0 \/ created_between next s s' img)
       /\ (oid target = oid target0 \/ created_between next s s' target).
Proof.
  intros H1 H2. unfold mbind, mret.
  destruct (h1 img0 s) as [[img|e1] s1] eqn:E1.
  2:{ intros [= <- <-]. destruct (H1 _ _ _ _ E1) as (Ha & Hn & _).
      by repeat split. }
  destruct (H1 _ _ _ _ E1) as (Ha1 & Hn1 & Ho1).
  destruct (h2 img target0 s1) as [[target|e2] s2] eqn:E2.
  2:{ intros [= <- <-]. destruct (H2 _ _ _ _ _ E2) as (Ha & Hn & _).
      split; [congruence |]. split; [lia | done]. }
  destruct (H2 _ _ _ _ _ E2) as (Ha2 & Hn2 & Ho2).
  intros [= <- <-]. split; [congruence |]. split; [lia |].
  intros img' target' [= <- <-]. unfold created_between in *. split.
  - destruct (Ho1 img eq_refl) as [? | ?]; [by left | right; lia].
  - destruct (Ho2 target eq_refl) as [? | ?]; [by left | right; lia].
Qed.

End FrameLemmas.

Lemma squeeze_well_behaved f :
  well_behaved DataVoc.next_oid data_attrs f ->
  well_behaved DataVoc.next_oid data_attrs (DataVoc.transform_squeeze f).
Proof.
  intros Hf o s r s'. unfold DataVoc.transform_squeeze, mbind, lift, mret.
  destruct (f o s) as [[t|e] s1] eqn:E.
  2:{ intros [= <- <-]. destruct (Hf _ _ _ _ E) as (? & ? & _). done. }
  destruct (Hf _ _ _ _ E) as (Ha & Hn & Ho).
  destruct (py_squeeze_0 (oval t)) as [v|e]; intros [= <- <-].
  - split; [done |]. split; [done |]. intros o' [= <-]. simpl.
    apply (Ho t eq_refl).
  - done.
Qed.

Lemma sized_call_well_behaved (g : object -> list Z -> M DataVoc.world object)
    (img : object) :
  (forall sizes,
      well_behaved DataVoc.next_oid data_attrs (fun o => g o sizes)) ->
  well_behaved DataVoc.next_oid data_attrs
    (fun target =>
       (do sizes <- lift (py_call_size (oval img)); g target sizes)%m).
Proof.
  intros Hg o s r s'. unfold mbind, lift.
  destruct (py_call_size (oval img)) as [sizes|e].
  - apply (Hg sizes).
  - intros [= <- <-]. done.
Qed.

Lemma voc_annotation_hook_well_behaved :
  well_behaved Voc.next_oid voc_attrs Voc.annotation_hook.
Proof.
  intros o s r s'.
  unfold Voc.annotation_hook, mbind, gets, lift, raise, mret, Voc.alloc,
    alloc_with.
  destruct (oval o); try (intros [= <- <-]; done).
  destruct (Voc.AnnotationTransform_call _ e); intros [= <- <-]; [| done].
  split; [done |]. split; [simpl; lia |].
  intros o' [= <-]. right. unfold created_between. simpl. lia.
Qed.

Lemma data_annotation_hook_well_behaved sizes :
  well_behaved DataVoc.next_oid data_attrs
    (fun o => DataVoc.annotation_hook o sizes).
Proof.
  intros o s r s'.
  unfold DataVoc.annotation_hook, mbind, gets, lift, raise, mret,
    DataVoc.alloc, alloc_with.
  destruct sizes as [|C [|H [|W [|]]]]; try (intros [= <- <-]; done).
  destruct (oval o); try (intros [= <- <-]; done).
  destruct (DataVoc.AnnotationTransform_call _ e C H W);
    intros [= <- <-]; [| done].
  split; [done |]. split; [simpl; lia |].
  intros o' [= <-]. right. unfold created_between. simpl. lia.
Qed.

Lemma data_to_tensor_well_behaved :
  well_behaved DataVoc.next_oid data_attrs data_to_tensor.
Proof.
  intros o s r s' [= <- <-].
  split; [done |]. split; [simpl; lia |].
  intros o' [= <-]. right. unfold created_between. simpl. lia.
Qed.

Lemma well_behaved_keeps_attrs {S T} (next : S -> nat) (attrs : S -> T) f :
  well_behaved next attrs f -> keeps_attrs attrs f.
Proof. intros Hf o s r s' Hrun. by destruct (Hf o s r s' Hrun). Qed.

Lemma keeps_attrs_optional {S T} (attrs : S -> T)
    (h : option (object -> M S object)) :
  (forall f, h = Some f -> keeps_attrs attrs f) ->
  keeps_attrs attrs (fun o => match h with Some f => f o | None => mret o end).
Proof.
  intros Hh. destruct h as [f|]; [by apply Hh |].
  by intros o s r s' [= <- <-].
Qed.

(** The input hook, then the target hook, then the pair: no attribute is
    written when neither hook writes one. *)
Lemma two_hooks_attrs {S T} (attrs : S -> T) (h1 : object -> M S object)
    (h2 : object -> object -> M S object) img0 target0 s r s' :
  keeps_attrs attrs h1 ->
  (forall img, keeps_attrs attrs (h2 img)) ->
  (do img <- h1 img0;
   do target <- h2 img target0;
   mret (img, target))%m s = (r, s') ->
  attrs s' = attrs s.
Proof.
  intros H1 H2. unfold mbind, mret.
  destruct (h1 img0 s) as [[img|e1] s1] eqn:E1.
  2:{ intros [= <- <-]. by apply (H1 _ _ _ _ E1). }
  pose proof (H1 _ _ _ _ E1) as Ha1.
  destruct (h2 img target0 s1) as [[target|e2] s2] eqn:E2.
  - intros [= <- <-]. rewrite <- Ha1. by apply (H2 _ _ _ _ _ E2).
  - intros [= <- <-]. rewrite <- Ha1. by apply (H2 _ _ _ _ _ E2).
Qed.

Lemma squeeze_keeps_attrs f :
  keeps_attrs data_attrs f ->
  keeps_attrs data_attrs (DataVoc.transform_squeeze f).
Proof.
  intros Hf o s r s'. unfold DataVoc.transform_squeeze, mbind, lift, mret.
  destruct (f o s) as [[t|e] s1] eqn:E.
  - destruct (py_squeeze_0 (oval t)); intros [= <- <-];
      by apply (Hf _ _ _ _ E).
  - intros [= <- <-]. by apply (Hf _ _ _ _ E).
Qed.

Lemma sized_call_keeps_attrs (g : object -> list Z -> M DataVoc.world object)
    (img : object) :
  (forall sizes, keeps_attrs data_attrs (fun o => g o sizes)) ->
  keeps_attrs data_attrs
    (fun target =>
       (do sizes <- lift (py_call_size (oval img)); g target sizes)%m).
Proof.
  intros Hg o s r s'. unfold mbind, lift.
  destruct (py_call_size (oval img)) as [sizes|e].
  - apply (Hg sizes).
  - by intros [= <- <-].
Qed.

(** C8 as it stands fails for the returned image: the accessor returns
    what the input transform returns, and a transform may hand out an
    object that was made before the call. *)
Lemma getitem_returns_old_object :
  (exists target w',
      Voc.VOCDetection_getitem cat_libs (Voc.mkHooks (Some voc_cached) None)
        0 voc_old_world
      = (Ok (mkObject 0 (VTensor image_tensor), target), w')
      /\ ~ created_between Voc.next_oid voc_old_world w'
             (mkObject 0 (VTensor image_tensor)))
  /\ (exists target w',
        DataVoc.VOCDetection_getitem cat_libs
          (DataVoc.mkHooks (Some data_cached) None) 0 data_old_world
        = (Ok (mkObject 0 (VTensor (squeeze_0 image_tensor)), target), w')
        /\ ~ created_between DataVoc.next_oid data_old_world w'
               (mkObject 0 (VTensor (squeeze_0 image_tensor)))).
Proof.
  split; eexists _, _; (split; [reflexivity |]);
    unfold created_between; simpl; lia.
Qed.

(** C8, amended: a call of [__getitem__] leaves the dataset (identifier
    list, the three path templates) and the annotation transform
    (class-to-index mapping) as they were, whether it returns or raises,
    provided the caller-supplied hooks write none of these attributes;
    and the image and the annotation it returns are objects created
    during the call provided each hook, in addition, returns its
    argument or an object it created.  This holds in both files. *)
Theorem getitem_frame :
  (forall libs hooks index w r w',
      (forall f, Voc.transform hooks = Some f -> keeps_attrs voc_attrs f) ->
      (forall g, Voc.target_transform hooks = Some g ->
                 keeps_attrs voc_attrs g) ->
      Voc.VOCDetection_getitem libs hooks index w = (r, w') ->
      Voc.dataset w' = Voc.dataset w
      /\ Voc.annotation_transform w' = Voc.annotation_transform w)
  /\ (forall libs hooks index w r w',
        (forall f, Voc.transform hooks = Some f ->
                   well_behaved Voc.next_oid voc_attrs f) ->
        (forall g, Voc.target_transform hooks = Some g ->
                   well_behaved Voc.next_oid voc_attrs g) ->
        Voc.VOCDetection_getitem libs hooks index w = (r, w') ->
        forall img target, r = Ok (img, target) ->
          created_between Voc.next_oid w w' img
          /\ created_between Voc.next_oid w w' target)
  /\ (forall libs hooks index w r w',
        (forall f, DataVoc.transform hooks = Some f ->
                   keeps_attrs data_attrs f) ->
        (forall g, DataVoc.target_transform hooks = Some g ->
                   forall sizes, keeps_attrs data_attrs (fun o => g o sizes)) ->
        DataVoc.VOCDetection_getitem libs hooks index w = (r, w') ->
        DataVoc.dataset w' = DataVoc.dataset w
        /\ DataVoc.annotation_transform w' = DataVoc.annotation_transform w)
  /\ (forall libs hooks index w r w',
        (forall f, DataVoc.transform hooks = Some f ->
                   well_behaved DataVoc.next_oid data_attrs f) ->
        (forall g, DataVoc.target_transform hooks = Some g ->
                   forall sizes,
                     well_behaved DataVoc.next_oid data_attrs
                       (fun o => g o sizes)) ->
        DataVoc.VOCDetection_getitem libs hooks index w = (r, w') ->
        forall img target, r = Ok (img, target) ->
          created_between DataVoc.next_oid w w' img
          /\ created_between DataVoc.next_oid w w' target).
Proof.
  split; [| split; [| split]].
  - intros libs hooks index w r w' Hf Hg.
    destruct (voc_getitem_load_cases libs index w)
      as [(e & w1 & Ha & _ & Hfail)
         |(id & ap & tree & ip & im0 & im & Hid & Hap & Ht & Hip & H0 & Hi)].
    + rewrite Hfail. intros [= <- <-].
      unfold voc_attrs in Ha. by injection Ha as -> ->.
    + rewrite (voc_getitem_loaded _ _ _ _ _ _ _ _ _ _ Hid Hap Ht Hip H0 Hi).
      intros Hrun.
      apply (two_hooks_attrs voc_attrs
               (fun o => match Voc.transform hooks with
                         | Some f => f o | None => mret o end)
               (fun _ o => match Voc.target_transform hooks with
                           | Some g => g o | None => mret o end))
        in Hrun as Ha.
      * unfold voc_attrs in Ha. simpl in Ha. by injection Ha as -> ->.
      * by apply keeps_attrs_optional.
      * intros _. by apply keeps_attrs_optional.
  - intros libs hooks index w r w' Hf Hg.
    destruct (voc_getitem_load_cases libs index w)
      as [(e & w1 & Ha & _ & Hfail)
         |(id & ap & tree & ip & im0 & im & Hid & Hap & Ht & Hip & H0 & Hi)].
    + rewrite Hfail. by intros [= <- <-].
    + rewrite (voc_getitem_loaded _ _ _ _ _ _ _ _ _ _ Hid Hap Ht Hip H0 Hi).
      intros Hrun.
      apply (two_hooks_frame Voc.next_oid voc_attrs
               (fun o => match Voc.transform hooks with
                         | Some f => f o | None => mret o end)
               (fun _ o => match Voc.target_transform hooks with
                           | Some g => g o | None => mret o end))
        in Hrun as (Ha & Hn & Hfresh).
      * intros img target Hr. destruct (Hfresh _ _ Hr) as [Hi1 Ht1].
        unfold created_between in *. simpl in *. lia.
      * by apply well_behaved_optional.
      * intros _. by apply well_behaved_optional.
  - intros libs hooks index w r w' Hf Hg.
    destruct (data_getitem_load_cases libs index w)
      as [(e & w1 & Ha & _ & Hfail)
         |(id & ap & tree & ip & im0 & im & Hid & Hap & Ht & Hip & H0 & Hi)].
    + rewrite Hfail. intros [= <- <-].
      unfold data_attrs in Ha. by injection Ha as -> ->.
    + rewrite (data_getitem_loaded _ _ _ _ _ _ _ _ _ _ Hid Hap Ht Hip H0 Hi).
      intros Hrun.
      apply (two_hooks_attrs data_attrs
               (fun o => match DataVoc.transform hooks with
                         | Some f => DataVoc.transform_squeeze f o
                         | None => mret o end)
               (fun img o =>
                  match DataVoc.target_transform hooks with
                  | Some g =>
                      (do sizes <- lift (py_call_size (oval img));
                       g o sizes)%m
                  | None => mret o end))
        in Hrun as Ha.
      * unfold data_attrs in Ha. simpl in Ha. by injection Ha as -> ->.
      * destruct (DataVoc.transform hooks) as [f|].
        -- apply squeeze_keeps_attrs. by apply Hf.
        -- by intros o s1 r1 s2 [= <- <-].
      * intros img. destruct (DataVoc.target_transform hooks) as [g|].
        -- apply sized_call_keeps_attrs. by apply Hg.
        -- by intros o s1 r1 s2 [= <- <-].
  - intros libs hooks index w r w' Hf Hg.
    destruct (data_getitem_load_cases libs index w)
      as [(e & w1 & Ha & _ & Hfail)
         |(id & ap & tree & ip & im0 & im & Hid & Hap & Ht & Hip & H0 & Hi)].
    + rewrite Hfail. by intros [= <- <-].
    + rewrite (data_getitem_loaded _ _ _ _ _ _ _ _ _ _ Hid Hap Ht Hip H0 Hi).
      intros Hrun.
      apply (two_hooks_frame DataVoc.next_oid data_attrs
               (fun o => match DataVoc.transform hooks with
                         | Some f => DataVoc.transform_squeeze f o
                         | None => mret o end)
               (fun img o =>
                  match DataVoc.target_transform hooks with
                  | Some g =>
                      (do sizes <- lift (py_call_size (oval img));
                       g o sizes)%m
                  | None => mret o end))
        in Hrun as (Ha & Hn & Hfresh).
      * intros img target Hr. destruct (Hfresh _ _ Hr) as [Hi1 Ht1].
        unfold created_between in *. simpl in *. lia.
      * destruct (DataVoc.transform hooks) as [f|];
          [| apply well_behaved_ret].
        apply squeeze_well_behaved. by apply Hf.
      * intros img. destruct (DataVoc.target_transform hooks) as [g|];
          [| apply well_behaved_ret].
        apply sized_call_well_behaved. by apply Hg.
Qed.

Lemma getitem_frame_witness :
  Voc.dataset
    (Voc.VOCDetection_getitem cat_libs voc_cat_hooks 0 voc_cat_world).2
  = voc_cat_dataset
  /\ (forall img target,
        (DataVoc.VOCDetection_getitem cat_libs data_cat_hooks 0
           data_cat_world).1 = Ok (img, target) ->
        (0 <= oid img < 4)%nat /\ (0 <= oid target < 4)%nat).
Proof.
  destruct getitem_frame as (Hvoc & _ & _ & Hdata). split.
  - destruct (Hvoc cat_libs voc_cat_hooks 0 voc_cat_world
                (Voc.VOCDetection_getitem cat_libs voc_cat_hooks 0
                   voc_cat_world).1
                (Voc.VOCDetection_getitem cat_libs voc_cat_hooks 0
                   voc_cat_world).2) as (Hds & _).
    + intros f [=].
    + intros g [= <-].
      apply (well_behaved_keeps_attrs Voc.next_oid).
      apply voc_annotation_hook_well_behaved.
    + apply surjective_pairing.
    + exact Hds.
  - intros img target Hr.
    apply (Hdata cat_libs data_cat_hooks 0 data_cat_world
             (DataVoc.VOCDetection_getitem cat_libs data_cat_hooks 0
                data_cat_world).1
             (DataVoc.VOCDetection_getitem cat_libs data_cat_hooks 0
                data_cat_world).2).
    + intros f [= <-]. apply data_to_tensor_well_behaved.
    + intros g [= <-]. apply data_annotation_hook_well_behaved.
    + apply surjective_pairing.
    + exact Hr.
Defined.

(** ** One sample, end to end *)

Lemma voc_call_single self tree obj :
  ET_iter "object" tree = [obj] ->
  cat_node obj -> name_first_box_fifth obj ->
  Voc.AnnotationTransform_call self tree
  = Ok [[VInt 9; VInt 19; VInt 109; VInt 219; VStr "cat"]].
Proof.
  intros Hobj ((dz & Hflag & Hdz) & Hname & b & Hb & Hvs) [Hn0 Hb4].
  unfold Voc.AnnotationTransform_call. rewrite Hobj.
  cbn [fold_res]. unfold Voc.call_step.
  rewrite voc_call_object_flag, Hflag. cbn [rbind].
  apply Z.eqb_neq in Hdz. rewrite Hdz, andb_false_r.
  unfold class_name, find_text in Hname.
  destruct (ET_find "name" obj) as [c0|] eqn:Hc0; [| done].
  cbn [rbind] in Hname. unfold ET_getitem.
  assert (H0 : children obj !! 0%nat = Some c0) by (by rewrite <- Hn0).
  assert (H4 : children obj !! 4%nat = Some b) by (by rewrite <- Hb4).
  rewrite (list_getitem_lookup _ 0 c0), (list_getitem_lookup _ 4 b);
    [| lia | exact H4 | lia | exact H0].
  cbn [rbind]. rewrite Hname. cbn [rbind].
  by rewrite (pixel_coords_ints b _ Hvs).
Qed.

Lemma data_call_single self tree obj C H W q1 q2 q3 q4 i :
  ET_iter "object" tree = [obj] -> cat_node obj ->
  int_truediv 9 W = Ok q1 -> int_truediv 19 H = Ok q2 ->
  int_truediv 109 W = Ok q3 -> int_truediv 219 H = Ok q4 ->
  DataVoc.class_to_index self !! "cat" = Some i ->
  DataVoc.AnnotationTransform_call self tree C H W
  = Ok [[VFloat q1; VFloat q2; VFloat q3; VFloat q4; VInt i]].
Proof.
  intros Hobj ((dz & Hflag & Hdz) & Hname & b & Hb & Hvs) H1 H2 H3 H4 Hi.
  unfold DataVoc.AnnotationTransform_call.
  rewrite Hobj. cbn [fold_res]. unfold DataVoc.call_step.
  rewrite data_call_object_flag, Hflag. cbn [rbind].
  apply Z.eqb_neq in Hdz. rewrite Hdz, andb_false_r.
  rewrite Hname, Hb. cbn [rbind].
  rewrite (fraction_coords_ints H W b [10; 20; 110; 220] Hvs).
  cbn [map_res_i Nat.even].
  change (10 - 1) with 9. change (20 - 1) with 19.
  change (110 - 1) with 109. change (220 - 1) with 219.
  rewrite H1, H2, H3, H4. cbn [rbind].
  unfold dict_getitem. rewrite Hi. reflexivity.
Qed.

(** C1 as it stands fails in both files: [src/voc.py] ends the record
    with the name, not with an index; [src/data/voc.py] raises when no
    input transform is configured and returns fractions of the image size
    when one is. *)
Lemma get_cat_sample_not_as_expected :
  ~ (exists i, returns_annotation
                 (Voc.VOCDetection_getitem cat_libs voc_cat_hooks 0
                    voc_cat_world)
                 (expected_annotation i))
  /\ ~ (exists i, returns_annotation
                    (DataVoc.VOCDetection_getitem cat_libs data_bare_hooks 0
                       data_cat_world)
                    (expected_annotation i))
  /\ ~ (exists i, returns_annotation
                    (DataVoc.VOCDetection_getitem cat_libs data_cat_hooks 0
                       data_cat_world)
                    (expected_annotation i)).
Proof.
  repeat split; intros (i & img & target & Hrun & Hval);
    vm_compute in Hrun; try discriminate;
    injection Hrun as <- <-; discriminate.
Qed.

Lemma sole_id_lookup (l : list string) :
  l = ["000001"] -> list_getitem l 0 = Ok "000001".
Proof. by intros ->. Qed.

(** C1, amended: for a dataset whose only identifier is 000001, whose
    annotation and image load, and whose annotation has exactly one
    object node, not flagged difficult, named cat (once lowercased and
    trimmed) and with the box (10,20,110,220), [get(0)] with an
    [AnnotationTransform] as target transform returns
    - in [src/voc.py], when the name is the first child of the object
      and the box its fifth (that parser reads them by position): the
      image, as the input transform returned it if there is one, and
      [[9,19,109,219,"cat"]];
    - in [src/data/voc.py], with an input transform whose tensor has
      size (C,H,W) after the squeeze and that leaves the annotation
      transform alone: the tensor and [[9/W, 19/H, 109/W, 219/H, i]],
      [i] being the index of "cat" in the mapping. *)
Theorem get_cat_sample :
  (forall libs w tr tree obj apath ipath im0 im img w3,
      Voc.ids (Voc.dataset w) = ["000001"] ->
      py_format (Voc._annopath (Voc.dataset w)) "000001" = Ok apath ->
      ET_parse libs apath = Ok tree ->
      py_format (Voc._imgpath (Voc.dataset w)) "000001" = Ok ipath ->
      Image_open libs ipath = Ok im0 ->
      Image_convert libs im0 "RGB" = Ok im ->
      ET_iter "object" tree = [obj] ->
      cat_node obj -> name_first_box_fifth obj ->
      match tr with
      | Some f => f (mkObject (S (Voc.next_oid w)) (VImage im))
      | None => mret (mkObject (S (Voc.next_oid w)) (VImage im))
      end (Voc.bump (Voc.bump w)) = (Ok img, w3) ->
      Voc.VOCDetection_getitem libs
        (Voc.mkHooks tr (Some Voc.annotation_hook)) 0 w
      = (Ok (img,
             mkObject (Voc.next_oid w3)
               (VList [VList [VInt 9; VInt 19; VInt 109; VInt 219;
                              VStr "cat"]])),
         Voc.bump w3))
  /\ (forall libs w tree obj apath ipath im0 im f tid t w3 C H W
             q1 q2 q3 q4 i,
        DataVoc.ids (DataVoc.dataset w) = ["000001"] ->
        py_format (DataVoc._annopath (DataVoc.dataset w)) "000001"
        = Ok apath ->
        ET_parse libs apath = Ok tree ->
        py_format (DataVoc._imgpath (DataVoc.dataset w)) "000001"
        = Ok ipath ->
        Image_open libs ipath = Ok im0 ->
        Image_convert libs im0 "RGB" = Ok im ->
        ET_iter "object" tree = [obj] ->
        cat_node obj ->
        f (mkObject (S (DataVoc.next_oid w)) (VImage im))
          (DataVoc.bump (DataVoc.bump w))
        = (Ok (mkObject tid (VTensor t)), w3) ->
        DataVoc.annotation_transform w3 = DataVoc.annotation_transform w ->
        shape (squeeze_0 t) = [C; H; W] ->
        int_truediv 9 W = Ok q1 -> int_truediv 19 H = Ok q2 ->
        int_truediv 109 W = Ok q3 -> int_truediv 219 H = Ok q4 ->
        DataVoc.class_to_index (DataVoc.annotation_transform w) !! "cat"
        = Some i ->
        DataVoc.VOCDetection_getitem libs
          (DataVoc.mkHooks (Some f) (Some DataVoc.annotation_hook)) 0 w
        = (Ok (mkObject tid (VTensor (squeeze_0 t)),
               mkObject (DataVoc.next_oid w3)
                 (VList [VList [VFloat q1; VFloat q2; VFloat q3; VFloat q4;
                                VInt i]])),
           DataVoc.bump w3)).
Proof.
  split.
  - intros libs w tr tree obj apath ipath im0 im img w3
      Hids Hap Ht Hip H0 Hi Hobj Hcat Hlay Htr.
    rewrite (voc_getitem_loaded _ _ _ _ _ _ _ _ _ _
               (sole_id_lookup _ Hids) Hap Ht Hip H0 Hi).
    unfold mbind at 1. cbn [Voc.transform Voc.target_transform].
    rewrite Htr.
    unfold Voc.annotation_hook, mbind, gets, lift, mret, Voc.alloc, alloc_with.
    cbn [oval]. by rewrite (voc_call_single _ _ _ Hobj Hcat Hlay).
  - intros libs w tree obj apath ipath im0 im f tid t w3 C H W q1 q2 q3 q4 i
      Hids Hap Ht Hip H0 Hi Hobj Hcat Hf Hat Hshape H1 H2 H3 H4 Hi7.
    rewrite (data_getitem_loaded _ _ _ _ _ _ _ _ _ _
               (sole_id_lookup _ Hids) Hap Ht Hip H0 Hi).
    unfold mbind at 1. cbn [DataVoc.transform DataVoc.target_transform].
    unfold DataVoc.transform_squeeze, mbind at 1. rewrite Hf.
    unfold mbind, lift, mret. cbn [oval py_squeeze_0 py_call_size oid].
    rewrite Hshape.
    unfold DataVoc.annotation_hook, mbind, gets, lift, mret, DataVoc.alloc,
      alloc_with.
    cbn [oval]. rewrite Hat in *.
    by rewrite (data_call_single _ _ _ C H W q1 q2 q3 q4 i Hobj Hcat
                  H1 H2 H3 H4 Hi7).
Qed.

Lemma loud_cat_node : cat_node loud_cat_object.
Proof.
  split; [exists 0; by split |]. split; [reflexivity |].
  exists (bndbox "+10" "20" " 110" "2_20"). by split.
Qed.

Lemma get_cat_sample_witness :
  Voc.VOCDetection_getitem loud_cat_libs voc_cat_hooks 0 voc_cat_world
  = (Ok (mkObject 1 (VImage rgb_image),
         mkObject 2
           (VList [VList [VInt 9; VInt 19; VInt 109; VInt 219;
                          VStr "cat"]])),
     Voc.mkWorld voc_cat_dataset voc_default 3)
  /\ DataVoc.VOCDetection_getitem cat_libs data_cat_hooks 0 data_cat_world
     = (Ok (mkObject 2 (VTensor (mkTensor [3; 300; 300] [])),
            mkObject 3
              (VList
                 [VList [VFloat (S754_finite false 8646911284551352 (-58));
                         VFloat (S754_finite false 4563647622402103 (-56));
                         VFloat (S754_finite false 6545231458445121 (-54));
                         VFloat (S754_finite false 6575255455960924 (-53));
                         VInt 7]])),
        DataVoc.mkWorld data_cat_dataset data_default 4).
Proof.
  destruct get_cat_sample as [Hvoc Hdata]. split.
  - apply (Hvoc loud_cat_libs voc_cat_world None loud_cat_tree
             loud_cat_object
             "/data/VOC2007/Annotations/000001.xml"
             "/data/VOC2007/JPEGImages/000001.jpg" raw_image rgb_image
             (mkObject 1 (VImage rgb_image))
             (Voc.bump (Voc.bump voc_cat_world)));
      try reflexivity.
    + apply loud_cat_node.
    + by split.
  - apply (Hdata cat_libs data_cat_world cat_tree cat_object
             "/data/VOC2007/Annotations/000001.xml"
             "/data/VOC2007/JPEGImages/000001.jpg" raw_image rgb_image
             data_to_tensor 2%nat image_tensor
             (DataVoc.bump (DataVoc.bump (DataVoc.bump data_cat_world)))
             3 300 300);
      try reflexivity.
    split; [exists 0; by split |]. split; [reflexivity |].
    exists (bndbox "10" "20" "110" "220"). by split.
Defined.

(** ** Manifest, length and identifiers *)

(** C7: a dataset built from a manifest of K lines ([line_count]: one
    line per newline, one more for an unterminated last line) has length
    K, its i-th identifier is the i-th line without its newline, and for
    every i from 0 below K [__getitem__] finds the identifier; with no
    hooks, it returns the image and the tree as soon as the two files
    load.  This holds in both files. *)
Theorem manifest_defines_length_and_ids :
  (forall libs root image_set name ds,
      Voc.VOCDetection_init libs root image_set name = Ok ds ->
      exists manifest content,
        py_format (Voc._imgsetpath ds) image_set = Ok manifest
        /\ read_text libs manifest = Ok content
        /\ Voc.ids ds = manifest_lines content
        /\ Voc.VOCDetection_len ds = Z.of_nat (line_count content)
        /\ length (manifest_lines content) = line_count content
        /\ forall i, 0 <= i < Z.of_nat (line_count content) ->
             exists id,
               manifest_lines content !! Z.to_nat i = Some id
               /\ list_getitem (Voc.ids ds) i = Ok id
               /\ forall w apath tree ipath im0 im,
                    Voc.dataset w = ds ->
                    py_format (Voc._annopath ds) id = Ok apath ->
                    ET_parse libs apath = Ok tree ->
                    py_format (Voc._imgpath ds) id = Ok ipath ->
                    Image_open libs ipath = Ok im0 ->
                    Image_convert libs im0 "RGB" = Ok im ->
                    (Voc.VOCDetection_getitem libs (Voc.mkHooks None None)
                       i w).1
                    = Ok (mkObject (S (Voc.next_oid w)) (VImage im),
                          mkObject (Voc.next_oid w) (VElement tree)))
  /\ (forall libs root image_set name ds,
        DataVoc.VOCDetection_init libs root image_set name = Ok ds ->
        exists manifest content,
          py_format (DataVoc._imgsetpath ds) image_set = Ok manifest
          /\ read_text libs manifest = Ok content
          /\ DataVoc.ids ds = manifest_lines content
          /\ DataVoc.VOCDetection_len ds = Z.of_nat (line_count content)
          /\ length (manifest_lines content) = line_count content
          /\ forall i, 0 <= i < Z.of_nat (line_count content) ->
               exists id,
                 manifest_lines content !! Z.to_nat i = Some id
                 /\ list_getitem (DataVoc.ids ds) i = Ok id
                 /\ forall w apath tree ipath im0 im,
                      DataVoc.dataset w = ds ->
                      py_format (DataVoc._annopath ds) id = Ok apath ->
                      ET_parse libs apath = Ok tree ->
                      py_format (DataVoc._imgpath ds) id = Ok ipath ->
                      Image_open libs ipath = Ok im0 ->
                      Image_convert libs im0 "RGB" = Ok im ->
                      (DataVoc.VOCDetection_getitem libs
                         (DataVoc.mkHooks None None) i w).1
                      = Ok (mkObject (S (DataVoc.next_oid w)) (VImage im),
                            mkObject (DataVoc.next_oid w) (VElement tree))).
Proof.
  split.
  - intros libs root image_set name ds. unfold Voc.VOCDetection_init.
    destruct (py_format _ image_set) as [manifest|] eqn:Hm; simpl; [| done].
    destruct (read_text libs manifest) as [content|] eqn:Hc; simpl; [| done].
    intros [= <-]. exists manifest, content. simpl.
    rewrite read_ids_lines.
    pose proof (manifest_lines_count content) as Hcount.
    repeat split; try done.
    { unfold Voc.VOCDetection_len. simpl. by rewrite Hcount. }
    intros i Hi.
    destruct (lookup_lt_is_Some_2 (manifest_lines content) (Z.to_nat i))
      as [id Hid]; [lia |].
    exists id. split; [done |].
    assert (Hget : list_getitem (manifest_lines content) i = Ok id)
      by (apply list_getitem_lookup; [lia | done]).
    split; [done |].
    intros w apath tree ipath im0 im Hw Hap Ht Hip H0 Him.
    rewrite (voc_getitem_loaded libs _ i w id apath tree ipath im0 im);
      rewrite ?Hw; simpl; try done.
  - intros libs root image_set name ds. unfold DataVoc.VOCDetection_init.
    destruct (py_format _ image_set) as [manifest|] eqn:Hm; simpl; [| done].
    destruct (read_text libs manifest) as [content|] eqn:Hc; simpl; [| done].
    intros [= <-]. exists manifest, content. simpl.
    rewrite read_ids_lines.
    pose proof (manifest_lines_count content) as Hcount.
    repeat split; try done.
    { unfold DataVoc.VOCDetection_len. simpl. by rewrite Hcount. }
    intros i Hi.
    destruct (lookup_lt_is_Some_2 (manifest_lines content) (Z.to_nat i))
      as [id Hid]; [lia |].
    exists id. split; [done |].
    assert (Hget : list_getitem (manifest_lines content) i = Ok id)
      by (apply list_getitem_lookup; [lia | done]).
    split; [done |].
    intros w apath tree ipath im0 im Hw Hap Ht Hip H0 Him.
    rewrite (data_getitem_loaded libs _ i w id apath tree ipath im0 im);
      rewrite ?Hw; simpl; try done.
Qed.

Lemma manifest_witness :
  Voc.VOCDetection_len voc_cat_dataset = 1
  /\ DataVoc.VOCDetection_len data_cat_dataset = 1.
Proof.
  destruct manifest_defines_length_and_ids as [Hvoc Hdata]. split.
  - destruct (Hvoc cat_libs "/data" "trainval" "VOC2007" voc_cat_dataset
                eq_refl) as (manifest & content & _ & _ & Hids & _ & Hlen & _).
    unfold Voc.VOCDetection_len, DataVoc.VOCDetection_len.
    rewrite Hids, Hlen, <- Hlen, <- Hids. reflexivity.
  - destruct (Hdata cat_libs "/data" "trainval" "VOC2007" data_cat_dataset
                eq_refl) as (manifest & content & _ & _ & Hids & _ & Hlen & _).
    unfold Voc.VOCDetection_len, DataVoc.VOCDetection_len.
    rewrite Hids, Hlen, <- Hlen, <- Hids. reflexivity.
Defined.

(** * Further properties *)

(** ** The default vocabulary *)

Lemma dict_of_pairs_fresh (l : list (string * Z)) :
  forall (m : gmap string Z) k,
  k ∉ l.*1 ->
  fold_left (fun m kv => <[kv.1 := kv.2]> m) l m !! k = m !! k.
Proof.
  induction l as [|[k' v'] l IH]; intros m k Hk; [done |].
  cbn [fold_left fst snd]. rewrite IH.
  - apply lookup_insert_ne. intros ->. apply Hk. simpl. left.
  - intros Hin. apply Hk. simpl. by right.
Qed.

Lemma dict_of_pairs_member (l : list (string * Z)) :
  forall (m : gmap string Z) k v,
  NoDup l.*1 -> (k, v) ∈ l ->
  fold_left (fun m kv => <[kv.1 := kv.2]> m) l m !! k = Some v.
Proof.
  induction l as [|[k' v'] l IH]; intros m k v Hnd Hin.
  { by apply elem_of_nil in Hin. }
  simpl in Hnd. apply NoDup_cons in Hnd as [Hk' Hnd].
  cbn [fold_left fst snd]. apply elem_of_cons in Hin as [[= -> ->] | Hin].
  - rewrite dict_of_pairs_fresh; [| done]. apply lookup_insert_eq.
  - by apply IH.
Qed.

Lemma positions_fst (names : list string) :
  (zip names (Z.of_nat <$> seq 0 (length names))).*1 = names.
Proof. apply fst_zip. by rewrite length_fmap, length_seq. Qed.

Lemma index_by_position_at names i n :
  NoDup names -> names !! i = Some n ->
  index_by_position names !! n = Some (Z.of_nat i).
Proof.
  intros Hnd Hi. unfold index_by_position, dict_of_pairs.
  apply dict_of_pairs_member; [by rewrite positions_fst |].
  apply list_elem_of_lookup. exists i.
  apply lookup_zip_with_Some. exists n, (Z.of_nat i).
  split; [done |]. split; [done |].
  rewrite list_lookup_fmap, lookup_seq_lt; [done |].
  by apply lookup_lt_Some in Hi.
Qed.

Lemma index_by_position_absent names n :
  n ∉ names -> index_by_position names !! n = None.
Proof.
  intros Hn. unfold index_by_position, dict_of_pairs.
  rewrite dict_of_pairs_fresh; [done |]. by rewrite positions_fst.
Qed.

(** X1: the mapping [dict(zip(names, range(len(names))))] that
    [AnnotationTransform.__init__] builds from a duplicate-free vocabulary
    sends every name to its position and knows no other name. *)
Theorem default_mapping_is_position (names : list string)
    (Hnd : NoDup names) :
  (forall i n, names !! i = Some n ->
     index_by_position names !! n = Some (Z.of_nat i))
  /\ (forall n, n ∉ names -> index_by_position names !! n = None).
Proof.
  split.
  - intros i n. by apply index_by_position_at.
  - apply index_by_position_absent.
Qed.

Lemma voc_classes_nodup : NoDup Voc.VOC_CLASSES.
Proof. apply (bool_decide_unpack _). vm_compute. exact I. Qed.

Lemma data_classes_nodup : NoDup DataVoc.VOC_CLASSES.
Proof. apply (bool_decide_unpack _). vm_compute. exact I. Qed.

Lemma default_mapping_witness :
  DataVoc.class_to_index data_default !! "tvmonitor" = Some 19
  /\ Voc.class_to_ind voc_default !! "__background__" = Some 0
  /\ Voc.class_to_ind voc_default !! "tvmonitor" = Some 20.
Proof.
  destruct (default_mapping_is_position DataVoc.VOC_CLASSES
              data_classes_nodup) as [Hdata _].
  destruct (default_mapping_is_position Voc.VOC_CLASSES
              voc_classes_nodup) as [Hvoc _].
  split; [apply (Hdata 19%nat); reflexivity |].
  split; [apply (Hvoc 0%nat); reflexivity |].
  apply (Hvoc 20%nat); reflexivity.
Defined.

(** ** Records and kept objects *)

(** A loop that appends what its body yields collects, in order, what the
    body yields on every element. *)
Lemma fold_res_collect {A B} (f : B -> result (option A)) (l : list B) :
  forall acc,
  fold_res (fun res x =>
              let? r := f x in
              Ok (match r with
                  | None => res
                  | Some y => res ++ [y]
                  end)) l acc
  = (let? rs := map_res f l in Ok (acc ++ omap id rs)).
Proof.
  induction l as [|x l IH]; intros acc; simpl.
  - by rewrite app_nil_r.
  - destruct (f x) as [[y|]|e]; simpl; [| |done].
    + rewrite IH. destruct (map_res f l); simpl; [| done].
      by rewrite <- app_assoc.
    + rewrite IH. by destruct (map_res f l).
Qed.

Lemma map_res_Forall2 {A B} (f : A -> result B) (l : list A) :
  forall rs, map_res f l = Ok rs -> Forall2 (fun x r => f x = Ok r) l rs.
Proof.
  induction l as [|x l IH]; intros rs; simpl.
  - intros [= <-]. constructor.
  - destruct (f x) as [y|] eqn:Hx; simpl; [| done].
    destruct (map_res f l) as [ys|]; simpl; [| done].
    intros [= <-]. constructor; [done | by apply IH].
Qed.

(** Keeping the elements on which the body yields something. *)
Lemma Forall2_kept {A B} (k : A -> bool) (P : A -> B -> Prop)
    (l : list A) (rs : list (option B)) :
  Forall2 (fun x r => (k x = true /\ exists y, r = Some y /\ P x y)
                      \/ (k x = false /\ r = None)) l rs ->
  Forall2 P (List.filter k l) (omap id rs).
Proof.
  induction 1 as [|x r l rs [(Hk & y & -> & Hy) | [Hk ->]] _ IH]; simpl.
  - constructor.
  - rewrite Hk. by constructor.
  - by rewrite Hk.
Qed.

Lemma voc_call_collect self target :
  Voc.AnnotationTransform_call self target
  = (let? rs := map_res (Voc.call_object self) (ET_iter "object" target) in
     Ok (omap id rs)).
Proof.
  unfold Voc.AnnotationTransform_call, Voc.call_step.
  by rewrite fold_res_collect.
Qed.

Lemma data_call_collect self target C H W :
  DataVoc.AnnotationTransform_call self target C H W
  = (let? rs := map_res (DataVoc.call_object self H W)
                  (ET_iter "object" target) in
     Ok (omap id rs)).
Proof.
  unfold DataVoc.AnnotationTransform_call, DataVoc.call_step.
  by rewrite fold_res_collect.
Qed.

Lemma list_getitem_inv {A} (l : list A) (i : Z) (x : A) :
  0 <= i -> list_getitem l i = Ok x -> l !! Z.to_nat i = Some x.
Proof.
  intros Hi. unfold list_getitem.
  destruct (i <? 0) eqn:Hneg; [lia |].
  destruct (_ && _); [| done].
  by destruct (l !! Z.to_nat i); intros [= <-].
Qed.

Lemma pixel_coords_eq bbox :
  Voc.pixel_coords bbox
  = (let? vs := box_ints bbox in
     Ok (VInt <$> ((fun v => v - 1) <$> vs))).
Proof.
  unfold box_ints, Voc.pixel_coords.
  induction (children bbox) as [|bb l IH]; simpl; [done |].
  destruct (py_int (text bb)) as [v|]; simpl; [| done].
  rewrite IH. clear IH.
  by destruct (map_res (fun bb0 => py_int (text bb0)) l).
Qed.

Lemma fraction_coords_floats H W (l : list Element) : forall i coords,
  map_res_i (DataVoc.coord H W) i l = Ok coords ->
  exists fs, coords = VFloat <$> fs /\ length fs = length l.
Proof.
  induction l as [|bb l IH]; intros i coords; simpl.
  - intros [= <-]. by exists [].
  - unfold DataVoc.coord at 1.
    destruct (py_int (text bb)) as [v|]; simpl; [| done].
    destruct (int_truediv _ _) as [q|]; simpl; [| done].
    destruct (map_res_i _ _ l) as [cs|] eqn:Hcs; simpl; [| done].
    intros [= <-]. destruct (IH _ _ Hcs) as (fs & -> & Hlen).
    exists (q :: fs). simpl. by rewrite Hlen.
Qed.

Lemma voc_call_object_kept self obj r :
  Voc.call_object self obj = Ok r ->
  (kept (Voc.keep_difficult self) obj = true
   /\ exists y, r = Some y /\ voc_record_of obj y)
  \/ (kept (Voc.keep_difficult self) obj = false /\ r = None).
Proof.
  rewrite voc_call_object_flag. unfold kept.
  destruct (difficult_flag obj) as [dz|]; simpl; [| done].
  destruct (Voc.keep_difficult self), (dz =? 1); simpl;
    try (intros [= <-]; by right).
  all: destruct (ET_getitem obj 0) as [c0|] eqn:H0; simpl; [| done].
  all: destruct (text c0) as [t|] eqn:Ht; simpl; [| done].
  all: destruct (ET_getitem obj 4) as [c4|] eqn:H4; simpl; [| done].
  all: rewrite pixel_coords_eq.
  all: destruct (box_ints c4) as [vs|] eqn:Hvs; simpl; [| done].
  all: intros [= <-]; left; split; [done |]; eexists; split; [done |].
  all: exists c0, t, c4, vs.
  all: apply list_getitem_inv in H0; [| lia].
  all: apply list_getitem_inv in H4; [| lia].
  all: done.
Qed.

Lemma data_call_object_kept self H W obj r :
  DataVoc.call_object self H W obj = Ok r ->
  (kept (DataVoc.keep_difficult self) obj = true
   /\ exists y, r = Some y /\ data_record_of self H W obj y)
  \/ (kept (DataVoc.keep_difficult self) obj = false /\ r = None).
Proof.
  rewrite data_call_object_flag. unfold kept.
  destruct (difficult_flag obj) as [dz|]; simpl; [| done].
  destruct (DataVoc.keep_difficult self), (dz =? 1); simpl;
    try (intros [= <-]; by right).
  all: destruct (class_name obj) as [name|] eqn:Hname; simpl; [| done].
  all: destruct (ET_find "bndbox" obj) as [b|] eqn:Hb; simpl; [| done].
  all: destruct (map_res_i _ _ (children b)) as [coords|] eqn:Hc; simpl;
         [| done].
  all: unfold dict_getitem.
  all: destruct (DataVoc.class_to_index self !! name) as [i|] eqn:Hi; simpl;
         [| done].
  all: intros [= <-]; left; split; [done |]; eexists; split; [done |].
  all: destruct (fraction_coords_floats _ _ _ _ _ Hc) as (fs & -> & Hlen).
  all: by exists name, b, fs, i.
Qed.

Lemma voc_call_structure self target res :
  Voc.AnnotationTransform_call self target = Ok res ->
  Forall2 voc_record_of
    (List.filter (kept (Voc.keep_difficult self)) (ET_iter "object" target))
    res.
Proof.
  rewrite voc_call_collect.
  destruct (map_res _ _) as [rs|] eqn:Hrs; simpl; [| done].
  intros [= <-]. apply Forall2_kept.
  apply map_res_Forall2 in Hrs.
  eapply Forall2_impl; [exact Hrs |].
  intros obj r. apply voc_call_object_kept.
Qed.

Lemma data_call_structure self target C H W res :
  DataVoc.AnnotationTransform_call self target C H W = Ok res ->
  Forall2 (data_record_of self H W)
    (List.filter (kept (DataVoc.keep_difficult self))
       (ET_iter "object" target))
    res.
Proof.
  rewrite data_call_collect.
  destruct (map_res _ _) as [rs|] eqn:Hrs; simpl; [| done].
  intros [= <-]. apply Forall2_kept.
  apply map_res_Forall2 in Hrs.
  eapply Forall2_impl; [exact Hrs |].
  intros obj r. apply data_call_object_kept.
Qed.

(** X2: when the parser of [src/data/voc.py] returns, its records are
    those of the kept object nodes, one each and in document order; the
    record of a node holds one fraction per child of its [bndbox],
    followed by the index its normalised name has in the mapping. *)
Theorem data_records_follow_kept_objects
    (self : DataVoc.AnnotationTransform) (target : Element) (C H W : Z)
    (res : list (list pyval))
    (Hres : DataVoc.AnnotationTransform_call self target C H W = Ok res) :
  Forall2 (data_record_of self H W)
    (List.filter (kept (DataVoc.keep_difficult self))
       (ET_iter "object" target))
    res
  /\ length res
     = length (List.filter (kept (DataVoc.keep_difficult self))
                 (ET_iter "object" target)).
Proof.
  pose proof (data_call_structure _ _ _ _ _ _ Hres) as Hall.
  split; [done |]. symmetry. by eapply Forall2_length.
Qed.

Lemma data_records_witness :
  exists r1 r2,
    DataVoc.AnnotationTransform_call data_default mixed_tree 3 300 300
    = Ok [r1; r2]
    /\ data_record_of data_default 300 300
         (voc_object "cat" "0" (bndbox "10" "20" "110" "220")) r1
    /\ data_record_of data_default 300 300
         (voc_object "Person " "0" (bndbox "5" "6" "7" "8")) r2.
Proof.
  destruct (DataVoc.AnnotationTransform_call data_default mixed_tree
              3 300 300) as [res|] eqn:Hres; [| by vm_compute in Hres].
  destruct (data_records_follow_kept_objects data_default mixed_tree
              3 300 300 res Hres) as [Hall _].
  change (List.filter _ _)
    with [voc_object "cat" "0" (bndbox "10" "20" "110" "220");
          voc_object "Person " "0" (bndbox "5" "6" "7" "8")] in Hall.
  apply Forall2_cons_inv_l in Hall as (r1 & rest & H1 & Hall & ->).
  apply Forall2_cons_inv_l in Hall as (r2 & rest' & H2 & Hall & ->).
  apply Forall2_nil_inv_l in Hall as ->.
  by exists r1, r2.
Defined.

(** X3: when the parser of [src/voc.py] returns, its records are those
    of the kept object nodes, one each and in document order; the record
    of a node holds the integers of its child 4, each less one, followed
    by the lowercased, trimmed text of its child 0. *)
Theorem voc_records_follow_kept_objects
    (self : Voc.AnnotationTransform) (target : Element)
    (res : list (list pyval))
    (Hres : Voc.AnnotationTransform_call self target = Ok res) :
  Forall2 voc_record_of
    (List.filter (kept (Voc.keep_difficult self)) (ET_iter "object" target))
    res
  /\ length res
     = length (List.filter (kept (Voc.keep_difficult self))
                 (ET_iter "object" target)).
Proof.
  pose proof (voc_call_structure _ _ _ Hres) as Hall.
  split; [done |]. symmetry. by eapply Forall2_length.
Qed.

Lemma voc_records_witness :
  Forall2 voc_record_of
    [voc_object "cat" "0" (bndbox "10" "20" "110" "220");
     voc_object "Person " "0" (bndbox "5" "6" "7" "8")]
    [[VInt 9; VInt 19; VInt 109; VInt 219; VStr "cat"];
     [VInt 4; VInt 5; VInt 6; VInt 7; VStr "person"]].
Proof.
  apply (voc_records_follow_kept_objects voc_default mixed_tree).
  reflexivity.
Defined.

(** ** Keeping or dropping difficult objects *)

Lemma map_res_weaken {A B} (f g : A -> result (option B)) (l : list A) :
  (forall x r, f x = Ok r ->
     exists r', g x = Ok r' /\ (r' = r \/ r' = None)) ->
  forall rs, map_res f l = Ok rs ->
  exists rs', map_res g l = Ok rs' /\ sublist (omap id rs') (omap id rs).
Proof.
  intros Hfg. induction l as [|x l IH]; intros rs; simpl.
  - intros [= <-]. by exists [].
  - destruct (f x) as [r|] eqn:Hx; simpl; [| done].
    destruct (map_res f l) as [rs0|]; simpl; [| done].
    intros [= <-].
    destruct (Hfg x r Hx) as (r' & -> & Hr').
    destruct (IH rs0 eq_refl) as (rs' & -> & Hsub). simpl.
    exists (r' :: rs'). split; [done |].
    destruct Hr' as [-> | ->]; simpl.
    + destruct r; simpl; [by apply sublist_skip | done].
    + destruct r; simpl; [by apply sublist_cons | done].
Qed.

Lemma voc_call_object_drop m obj r :
  Voc.call_object (Voc.mkAnnotationTransform m true) obj = Ok r ->
  exists r', Voc.call_object (Voc.mkAnnotationTransform m false) obj = Ok r'
             /\ (r' = r \/ r' = None).
Proof.
  rewrite !voc_call_object_flag.
  destruct (difficult_flag obj) as [dz|]; simpl; [| done].
  destruct (dz =? 1); simpl; intros Hr.
  - exists None. by split; [| right].
  - exists r. by split; [| left].
Qed.

Lemma data_call_object_drop m H W obj r :
  DataVoc.call_object (DataVoc.mkAnnotationTransform m true) H W obj = Ok r ->
  exists r',
    DataVoc.call_object (DataVoc.mkAnnotationTransform m false) H W obj
    = Ok r'
    /\ (r' = r \/ r' = None).
Proof.
  rewrite !data_call_object_flag.
  destruct (difficult_flag obj) as [dz|]; simpl; [| done].
  destruct (dz =? 1); simpl; intros Hr.
  - exists None. by split; [| right].
  - exists r. by split; [| left].
Qed.

(** X4: dropping difficult objects only removes records.  Whenever a
    parser returns with [keep_difficult=True], it also returns with
    [keep_difficult=False] on the same annotation, and the records it
    then returns are some of the former ones, in the same order.  This
    holds in both files. *)
Theorem dropping_difficult_removes_records :
  (forall m target res,
      Voc.AnnotationTransform_call (Voc.mkAnnotationTransform m true) target
      = Ok res ->
      exists res',
        Voc.AnnotationTransform_call (Voc.mkAnnotationTransform m false)
          target = Ok res'
        /\ sublist res' res)
  /\ (forall m target C H W res,
        DataVoc.AnnotationTransform_call
          (DataVoc.mkAnnotationTransform m true) target C H W = Ok res ->
        exists res',
          DataVoc.AnnotationTransform_call
            (DataVoc.mkAnnotationTransform m false) target C H W = Ok res'
          /\ sublist res' res).
Proof.
  split.
  - intros m target res. rewrite !voc_call_collect.
    destruct (map_res _ _) as [rs|] eqn:Hrs; simpl; [| done].
    intros [= <-].
    destruct (map_res_weaken _
                (Voc.call_object (Voc.mkAnnotationTransform m false))
                _ (voc_call_object_drop m) rs Hrs) as (rs' & -> & Hsub).
    by eexists.
  - intros m target C H W res. rewrite !data_call_collect.
    destruct (map_res _ _) as [rs|] eqn:Hrs; simpl; [| done].
    intros [= <-].
    destruct (map_res_weaken _
                (DataVoc.call_object (DataVoc.mkAnnotationTransform m false)
                   H W)
                _ (data_call_object_drop m H W) rs Hrs) as (rs' & -> & Hsub).
    by eexists.
Qed.

Lemma dropping_difficult_witness :
  exists res',
    Voc.AnnotationTransform_call
      (Voc.mkAnnotationTransform (index_by_position Voc.VOC_CLASSES) false)
      mixed_tree = Ok res'
    /\ sublist res'
         [[VInt 9; VInt 19; VInt 109; VInt 219; VStr "cat"];
          [VInt 0; VInt 1; VInt 2; VInt 3; VStr "dog"];
          [VInt 4; VInt 5; VInt 6; VInt 7; VStr "person"]].
Proof.
  destruct dropping_difficult_removes_records as [Hvoc _].
  apply (Hvoc (index_by_position Voc.VOC_CLASSES) mixed_tree).
  reflexivity.
Defined.

(** ** Collating well-formed batches *)

Lemma map_res_length {A B} (f : A -> result B) (l : list A) :
  forall rs, map_res f l = Ok rs -> length rs = length l.
Proof.
  induction l as [|x l IH]; intros rs; simpl.
  - by intros [= <-].
  - destruct (f x); simpl; [| done].
    destruct (map_res f l) as [ys|]; simpl; [| done].
    intros [= <-]. simpl. by rewrite (IH ys).
Qed.

Lemma stack_uniform (ts : list Tensor) (sh : list Z) :
  ts <> [] -> Forall (fun t => shape t = sh) ts ->
  torch_stack ts
  = Ok (mkTensor (Z.of_nat (length ts) :: sh) (concat (map data ts))).
Proof.
  intros Hne Hall. destruct ts as [|t rest]; [done |].
  apply Forall_cons in Hall as [Ht Hrest]. unfold torch_stack.
  replace (forallb _ rest) with true; [by rewrite Ht |].
  symmetry. apply forallb_forall. intros u Hu.
  apply list_elem_of_In in Hu.
  rewrite Forall_forall in Hrest.
  unfold shape_eqb. apply bool_decide_eq_true. by rewrite Ht, (Hrest u Hu).
Qed.

Lemma collate_sample_of sh rsh n sample acc :
  sample_of sh rsh n sample ->
  exists t st,
    DataVoc.collate_sample acc sample = Ok (acc.1 ++ [t], acc.2 ++ [st])
    /\ omap as_tensor sample = [t]
    /\ shape t = sh
    /\ shape st = Z.of_nat n :: rsh.
Proof.
  intros (t & recs & trs & -> & Ht & Hn & Hpos & Htrs & Hshapes).
  assert (Hlen : length trs = n) by (by rewrite (map_res_length _ _ _ Htrs)).
  exists t, (mkTensor (Z.of_nat n :: rsh) (concat (map data trs))).
  split; [| done].
  unfold DataVoc.collate_sample. cbn [fold_res DataVoc.collate_item rbind].
  rewrite Htrs. cbn [rbind fst snd].
  rewrite (stack_uniform trs rsh); [by rewrite Hlen | | done].
  intros ->. simpl in Hlen. lia.
Qed.

Lemma collate_batch_of sh rsh counts batch :
  Forall2 (sample_of sh rsh) counts batch ->
  forall acc,
  exists acc',
    fold_res DataVoc.collate_sample batch acc = Ok acc'
    /\ Forall (fun t => shape t = sh) (batch_images batch)
    /\ length (batch_images batch) = length batch
    /\ map shape acc'.2
       = map shape acc.2 ++ map (fun n => Z.of_nat n :: rsh) counts.
Proof.
  induction 1 as [|n sample counts batch Hs _ IH]; intros acc.
  - exists acc. simpl. by rewrite app_nil_r.
  - destruct (collate_sample_of _ _ _ _ acc Hs)
      as (t & st & Hstep & Himg & Ht & Hst).
    destruct (IH (acc.1 ++ [t], acc.2 ++ [st]))
      as (acc' & Hfold & Hall & Hlen & Hshapes).
    exists acc'. cbn [fold_res]. rewrite Hstep. cbn [rbind].
    split; [done |].
    unfold batch_images in *. cbn [concat]. rewrite omap_app, Himg.
    split; [by constructor |]. split; [simpl; by rewrite Hlen |].
    rewrite Hshapes. cbn [snd]. rewrite map_app, <- app_assoc. simpl.
    by rewrite Hst.
Qed.

(** X5: a non-empty batch of samples (image tensor, list of at least one
    record), whose images have one shape [sh] and whose records convert
    to tensors of one shape [rsh], is collated: the image batch has shape
    (N, *sh) and holds the images' data in batch order, and the i-th
    annotation array has shape (n_i, *rsh), [n_i] being the number of
    records of the i-th sample. *)
Theorem collate_shapes (sh rsh : list Z) (counts : list nat)
    (batch : list (list pyval))
    (Hne : batch <> [])
    (Hbatch : Forall2 (sample_of sh rsh) counts batch) :
  exists images targets,
    DataVoc.detection_collate batch = Ok (images, targets)
    /\ shape images = Z.of_nat (length batch) :: sh
    /\ data images = concat (map data (batch_images batch))
    /\ map shape targets = map (fun n => Z.of_nat n :: rsh) counts.
Proof.
  destruct (collate_batch_of _ _ _ _ Hbatch ([], []))
    as (acc & Hfold & Hall & Hlen & Hshapes).
  pose proof (collate_batch_images _ _ _ Hfold) as Himgs. simpl in Himgs.
  unfold DataVoc.detection_collate. rewrite Hfold. cbn [rbind].
  rewrite Himgs, (stack_uniform _ sh); [| | done].
  - eexists _, _. split; [done |]. cbn [shape data]. by rewrite Hlen.
  - intros Hnil. rewrite Hnil in Hlen.
    destruct batch; [done | simpl in Hlen; lia].
Qed.

Lemma collate_shapes_witness :
  collated_shapes
    (DataVoc.detection_collate
       [[VTensor small_image; VList (records 2)];
        [VTensor small_image; VList (records 1)]])
  = Ok ([2; 3; 2; 2], [[2; 5]; [1; 5]]).
Proof.
  destruct (collate_shapes [3; 2; 2] [5] [2; 1]%nat
              [[VTensor small_image; VList (records 2)];
               [VTensor small_image; VList (records 1)]])
    as (images & targets & -> & Hi & _ & Ht).
  - done.
  - constructor; [| constructor; [| constructor]].
    + exists small_image, (records 2). eexists.
      split; [reflexivity |]. split; [reflexivity |].
      split; [reflexivity |]. split; [done |].
      split; [vm_compute; reflexivity |].
      constructor; [reflexivity |]. constructor; [reflexivity |]. constructor.
    + exists small_image, (records 1). eexists.
      split; [reflexivity |]. split; [reflexivity |].
      split; [reflexivity |]. split; [done |].
      split; [vm_compute; reflexivity |].
      constructor; [reflexivity |]. constructor.
  - unfold collated_shapes. cbn [rbind fst snd]. by rewrite Hi, Ht.
Defined.

(** X6: a batch none of whose sample components is a tensor (an empty
    batch, or images that were not turned into tensors) is never
    collated: [detection_collate] raises, and once the loop over the
    samples has completed the exception is that of stacking no image. *)
Theorem collate_needs_a_tensor (batch : list (list pyval))
    (Hnone : batch_images batch = []) :
  (exists e, DataVoc.detection_collate batch = Err e)
  /\ (forall acc,
        fold_res DataVoc.collate_sample batch ([], []) = Ok acc ->
        DataVoc.detection_collate batch
        = Err (RuntimeError EmptyTensorList)).
Proof.
  assert (Hstack : forall acc,
             fold_res DataVoc.collate_sample batch ([], []) = Ok acc ->
             DataVoc.detection_collate batch
             = Err (RuntimeError EmptyTensorList)).
  { intros acc Hacc. unfold DataVoc.detection_collate. rewrite Hacc.
    apply collate_batch_images in Hacc. simpl in Hacc.
    cbn [rbind]. by rewrite Hacc, Hnone. }
  split; [| exact Hstack].
  destruct (fold_res DataVoc.collate_sample batch ([], [])) as [acc|e] eqn:Hacc.
  - rewrite (Hstack acc eq_refl). by eexists.
  - unfold DataVoc.detection_collate. rewrite Hacc. by eexists.
Qed.

Lemma collate_needs_a_tensor_witness :
  DataVoc.detection_collate [] = Err (RuntimeError EmptyTensorList)
  /\ DataVoc.detection_collate [[VImage rgb_image; VList (records 2)]]
     = Err (RuntimeError EmptyTensorList).
Proof.
  split.
  - destruct (collate_needs_a_tensor [] eq_refl) as [_ Hstack].
    by apply (Hstack ([], [])).
  - destruct (collate_needs_a_tensor
                [[VImage rgb_image; VList (records 2)]] eq_refl)
      as [_ Hstack].
    eapply Hstack. vm_compute. reflexivity.
Defined.

Lemma collate_sample_filter sample : forall acc,
  DataVoc.collate_sample acc (List.filter collated sample)
  = DataVoc.collate_sample acc sample.
Proof.
  unfold DataVoc.collate_sample.
  induction sample as [|v sample IH]; intros acc; [done |].
  destruct v; cbn [List.filter collated fold_res DataVoc.collate_item rbind];
    try apply IH.
  destruct (map_res torch_Tensor items) as [annos|]; cbn [rbind]; [| done].
  destruct (torch_stack annos); cbn [rbind]; [apply IH | done].
Qed.

(** X7: [detection_collate] only looks at the components of a sample
    that are tensors or lists; any other component (a string, [None], a
    PIL image, ...) can be removed without changing the outcome. *)
Theorem collate_ignores_other_components (batch : list (list pyval)) :
  DataVoc.detection_collate (map (List.filter collated) batch)
  = DataVoc.detection_collate batch.
Proof.
  unfold DataVoc.detection_collate. f_equal.
  generalize (@nil Tensor, @nil Tensor).
  induction batch as [|sample batch IH]; intros acc; [done |].
  cbn [map fold_res]. rewrite collate_sample_filter.
  destruct (DataVoc.collate_sample acc sample); cbn [rbind]; [apply IH | done].
Qed.

(** ** From the parser to the collation *)

Lemma map_res_app {A B} (f : A -> result B) (l1 l2 : list A) :
  map_res f (l1 ++ l2)
  = (let? r1 := map_res f l1 in
     let? r2 := map_res f l2 in
     Ok (r1 ++ r2)).
Proof.
  induction l1 as [|x l1 IH]; simpl.
  - by destruct (map_res f l2).
  - destruct (f x); simpl; [| done]. rewrite IH.
    destruct (map_res f l1); simpl; [| done].
    by destruct (map_res f l2).
Qed.

Lemma floats_convert (fs : list spec_float) :
  map_res number_to_float (VFloat <$> fs) = Ok (to_binary32 <$> fs).
Proof.
  induction fs as [|f fs IH]; [done |].
  cbn [fmap list_fmap map_res number_to_float rbind].
  change (list_fmap _ _ VFloat fs) with (VFloat <$> fs).
  by rewrite IH.
Qed.

Lemma record_converts (fs : list spec_float) (i : Z) (x : spec_float) :
  number_to_float (VInt i) = Ok x ->
  torch_Tensor (VList ((VFloat <$> fs) ++ [VInt i]))
  = Ok (mkTensor [Z.of_nat (S (length fs))] ((to_binary32 <$> fs) ++ [x])).
Proof.
  intros Hx. unfold torch_Tensor.
  rewrite map_res_app, floats_convert. cbn [rbind map_res]. rewrite Hx.
  cbn [rbind]. rewrite length_app, length_fmap. simpl.
  by replace (length fs + 1)%nat with (S (length fs)) by lia.
Qed.

Lemma records_convert (res : list (list pyval)) (k : nat) :
  Forall (fun r => exists fs i x,
            r = (VFloat <$> fs) ++ [VInt i]
            /\ length fs = k
            /\ number_to_float (VInt i) = Ok x) res ->
  exists trs,
    map_res torch_Tensor (VList <$> res) = Ok trs
    /\ Forall (fun tr => shape tr = [Z.of_nat (S k)]) trs.
Proof.
  induction 1 as [|r res (fs & i & x & -> & Hk & Hx) _ (trs & Htrs & Hall)].
  - by exists [].
  - eexists. cbn [fmap list_fmap map_res].
    change (list_fmap _ _ VList res) with (VList <$> res).
    rewrite (record_converts fs i x Hx), Htrs. cbn [rbind].
    split; [done |]. constructor; [| done]. simpl. by rewrite Hk.
Qed.

Lemma Forall2_Forall_right {A B} (P : A -> B -> Prop) (Q : B -> Prop)
    (l : list A) (k : list B) :
  (forall x y, x ∈ l -> P x y -> Q y) -> Forall2 P l k -> Forall Q k.
Proof.
  intros HPQ H. induction H as [|x y l k Hxy _ IH]; constructor.
  - apply (HPQ x y); [left | done].
  - apply IH. intros x' y' Hx'. apply HPQ. by right.
Qed.

Lemma collate_one_sample (t : Tensor) (recs : list pyval) (rsh : list Z) :
  sample_of (shape t) rsh (length recs) [VTensor t; VList recs] ->
  exists images st,
    DataVoc.detection_collate [[VTensor t; VList recs]] = Ok (images, [st])
    /\ shape images = 1 :: shape t
    /\ shape st = Z.of_nat (length recs) :: rsh.
Proof.
  intros Hs.
  destruct (collate_sample_of _ _ _ _ ([], []) Hs)
    as (t' & st & Hstep & Himg & Ht & Hst).
  injection Himg as <-.
  unfold DataVoc.detection_collate. cbn [fold_res]. rewrite Hstep.
  cbn [rbind fst snd app torch_stack forallb].
  by eexists _, _.
Qed.

(** X8: what the parser of [src/data/voc.py] returns can be collated.
    When it returns at least one record, every [bndbox] has four
    children and every class index fits a float, the sample made of an
    image tensor and of these records is collated into the image under a
    new leading axis of size 1 and one annotation array of shape
    (number of records, 5). *)
Theorem parsed_annotation_collates
    (self : DataVoc.AnnotationTransform) (target : Element) (C H W : Z)
    (res : list (list pyval)) (t : Tensor)
    (Hres : DataVoc.AnnotationTransform_call self target C H W = Ok res)
    (Hne : res <> [])
    (Hfour : forall obj b, obj ∈ ET_iter "object" target ->
               ET_find "bndbox" obj = Some b ->
               length (children b) = 4%nat)
    (Hfits : forall name i,
               DataVoc.class_to_index self !! name = Some i ->
               exists x, number_to_float (VInt i) = Ok x) :
  exists images st,
    DataVoc.detection_collate [[VTensor t; VList (VList <$> res)]]
    = Ok (images, [st])
    /\ shape images = 1 :: shape t
    /\ shape st = [Z.of_nat (length res); 5].
Proof.
  pose proof (data_call_structure _ _ _ _ _ _ Hres) as Hall.
  assert (Hrecs : Forall (fun r => exists fs i x,
                            r = (VFloat <$> fs) ++ [VInt i]
                            /\ length fs = 4%nat
                            /\ number_to_float (VInt i) = Ok x) res).
  { eapply Forall2_Forall_right; [| exact Hall].
    intros obj r Hobj (name & b & fs & i & _ & Hb & _ & Hlen & Hi & ->).
    destruct (Hfits name i Hi) as [x Hx].
    exists fs, i, x. split; [done |]. split; [| done].
    rewrite Hlen. apply (Hfour obj); [| done].
    apply list_elem_of_In. apply list_elem_of_In in Hobj.
    by apply filter_In in Hobj as [Hobj _]. }
  destruct (records_convert res 4 Hrecs) as (trs & Htrs & Hshapes).
  destruct (collate_one_sample t (VList <$> res) [5])
    as (images & st & Hc & Hi & Hst).
  - exists t, (VList <$> res), trs.
    split; [done |]. split; [done |]. split; [done |].
    split; [| by split].
    rewrite length_fmap. by destruct res.
  - exists images, st. split; [done |]. split; [done |].
    by rewrite Hst, length_fmap.
Qed.

Lemma data_default_fits name i :
  DataVoc.class_to_index data_default !! name = Some i ->
  exists x, number_to_float (VInt i) = Ok x.
Proof.
  change (DataVoc.class_to_index data_default)
    with (index_by_position DataVoc.VOC_CLASSES).
  intros Hi. destruct (decide (name ∈ DataVoc.VOC_CLASSES)) as [Hin | Hout].
  - apply list_elem_of_lookup in Hin as [k Hk].
    rewrite (index_by_position_at _ _ _ data_classes_nodup Hk) in Hi.
    injection Hi as <-. apply lookup_lt_Some in Hk.
    do 20 (destruct k as [|k]; [eexists; vm_compute; reflexivity |]).
    simpl in Hk. lia.
  - by rewrite (index_by_position_absent _ _ Hout) in Hi.
Qed.

Lemma parsed_annotation_witness :
  exists images st,
    DataVoc.detection_collate
      [[VTensor small_image;
        VList [VList [VFloat (S754_finite false 8646911284551352 (-58));
                      VFloat (S754_finite false 4563647622402103 (-56));
                      VFloat (S754_finite false 6545231458445121 (-54));
                      VFloat (S754_finite false 6575255455960924 (-53));
                      VInt 7]]]]
    = Ok (images, [st])
    /\ shape images = [1; 3; 2; 2]
    /\ shape st = [1; 5].
Proof.
  apply (parsed_annotation_collates data_default cat_tree 3 300 300
           [[VFloat (S754_finite false 8646911284551352 (-58));
             VFloat (S754_finite false 4563647622402103 (-56));
             VFloat (S754_finite false 6545231458445121 (-54));
             VFloat (S754_finite false 6575255455960924 (-53));
             VInt 7]] small_image).
  - reflexivity.
  - done.
  - intros obj b Hobj.
    change (ET_iter "object" cat_tree) with [cat_object] in Hobj.
    apply list_elem_of_singleton in Hobj as ->. by intros [= <-].
  - apply data_default_fits.
Defined.

(** ** Indices, failures and sizes in the accessor *)

Lemma list_getitem_out {A} (l : list A) (i : Z) :
  i < - Z.of_nat (length l) \/ Z.of_nat (length l) <= i ->
  list_getitem l i = Err IndexError.
Proof.
  intros Hi. unfold list_getitem.
  destruct (i <? 0) eqn:Hneg.
  - replace (0 <=? i + Z.of_nat (length l)) with false; [done |].
    symmetry. apply Z.leb_gt. apply Z.ltb_lt in Hneg. lia.
  - replace (i <? Z.of_nat (length l)) with false; [by rewrite andb_false_r |].
    symmetry. apply Z.ltb_ge. apply Z.ltb_ge in Hneg. lia.
Qed.

Lemma list_getitem_wrap {A} (l : list A) (i : Z) :
  - Z.of_nat (length l) <= i < 0 ->
  list_getitem l i = list_getitem l (i + Z.of_nat (length l)).
Proof.
  intros Hi. unfold list_getitem.
  replace (i <? 0) with true by (symmetry; apply Z.ltb_lt; lia).
  by replace (i + Z.of_nat (length l) <? 0) with false
    by (symmetry; apply Z.ltb_ge; lia).
Qed.

(** The accessors use the index for the lookup of the identifier only. *)
Lemma voc_getitem_by_id libs hooks i j w :
  list_getitem (Voc.ids (Voc.dataset w)) i
  = list_getitem (Voc.ids (Voc.dataset w)) j ->
  Voc.VOCDetection_getitem libs hooks i w
  = Voc.VOCDetection_getitem libs hooks j w.
Proof.
  intros Hij. unfold Voc.VOCDetection_getitem.
  unfold mbind, gets, lift. by rewrite Hij.
Qed.

Lemma data_getitem_by_id libs hooks i j w :
  list_getitem (DataVoc.ids (DataVoc.dataset w)) i
  = list_getitem (DataVoc.ids (DataVoc.dataset w)) j ->
  DataVoc.VOCDetection_getitem libs hooks i w
  = DataVoc.VOCDetection_getitem libs hooks j w.
Proof.
  intros Hij. unfold DataVoc.VOCDetection_getitem.
  unfold mbind, gets, lift. by rewrite Hij.
Qed.

(** X9: [VOCDetection.__getitem__] indexes the identifiers as Python
    lists do, in both files: with K identifiers, an index below -K or
    from K on raises IndexError before any file is read, any object is
    created or any hook is called; an index i from -K to -1 gives what
    the index i + K gives. *)
Theorem getitem_index_bounds :
  (forall libs hooks index w,
      (index < - Z.of_nat (length (Voc.ids (Voc.dataset w)))
       \/ Z.of_nat (length (Voc.ids (Voc.dataset w))) <= index ->
       Voc.VOCDetection_getitem libs hooks index w = (Err IndexError, w))
      /\ (- Z.of_nat (length (Voc.ids (Voc.dataset w))) <= index < 0 ->
          Voc.VOCDetection_getitem libs hooks index w
          = Voc.VOCDetection_getitem libs hooks
              (index + Z.of_nat (length (Voc.ids (Voc.dataset w)))) w))
  /\ (forall libs hooks index w,
        (index < - Z.of_nat (length (DataVoc.ids (DataVoc.dataset w)))
         \/ Z.of_nat (length (DataVoc.ids (DataVoc.dataset w))) <= index ->
         DataVoc.VOCDetection_getitem libs hooks index w
         = (Err IndexError, w))
        /\ (- Z.of_nat (length (DataVoc.ids (DataVoc.dataset w))) <= index
            < 0 ->
            DataVoc.VOCDetection_getitem libs hooks index w
            = DataVoc.VOCDetection_getitem libs hooks
                (index + Z.of_nat (length (DataVoc.ids (DataVoc.dataset w))))
                w)).
Proof.
  split; intros libs hooks index w; split; intros Hi.
  - unfold Voc.VOCDetection_getitem, mbind, gets, lift.
    by rewrite (list_getitem_out _ _ Hi).
  - apply voc_getitem_by_id. by apply list_getitem_wrap.
  - unfold DataVoc.VOCDetection_getitem, mbind, gets, lift.
    by rewrite (list_getitem_out _ _ Hi).
  - apply data_getitem_by_id. by apply list_getitem_wrap.
Qed.

Lemma getitem_index_bounds_witness :
  DataVoc.VOCDetection_getitem cat_libs data_cat_hooks 1 data_cat_world
  = (Err IndexError, data_cat_world)
  /\ Voc.VOCDetection_getitem cat_libs voc_cat_hooks (-1) voc_cat_world
     = Voc.VOCDetection_getitem cat_libs voc_cat_hooks 0 voc_cat_world.
Proof.
  destruct getitem_index_bounds as [Hvoc Hdata]. split.
  - destruct (Hdata cat_libs data_cat_hooks 1 data_cat_world) as [Hout _].
    apply Hout. right. by vm_compute.
  - destruct (Hvoc cat_libs voc_cat_hooks (-1) voc_cat_world) as [_ Hwrap].
    apply Hwrap. split; by vm_compute.
Defined.

(** X10: failures of the XML parser and of the image decoder reach the
    caller of [VOCDetection.__getitem__] unchanged, in both files, and no
    hook is called: when the annotation does not parse the exception is
    that of the parser and no object has been created; when the image
    does not open or convert it is that of the image library, after the
    tree alone has been created. *)
Theorem loading_failures_propagate :
  (forall libs hooks index w id apath e,
      list_getitem (Voc.ids (Voc.dataset w)) index = Ok id ->
      py_format (Voc._annopath (Voc.dataset w)) id = Ok apath ->
      ET_parse libs apath = Err e ->
      Voc.VOCDetection_getitem libs hooks index w = (Err e, w))
  /\ (forall libs hooks index w id apath tree ipath e,
        list_getitem (Voc.ids (Voc.dataset w)) index = Ok id ->
        py_format (Voc._annopath (Voc.dataset w)) id = Ok apath ->
        ET_parse libs apath = Ok tree ->
        py_format (Voc._imgpath (Voc.dataset w)) id = Ok ipath ->
        (let? im := Image_open libs ipath in Image_convert libs im "RGB")
        = Err e ->
        Voc.VOCDetection_getitem libs hooks index w = (Err e, Voc.bump w))
  /\ (forall libs hooks index w id apath e,
        list_getitem (DataVoc.ids (DataVoc.dataset w)) index = Ok id ->
        py_format (DataVoc._annopath (DataVoc.dataset w)) id = Ok apath ->
        ET_parse libs apath = Err e ->
        DataVoc.VOCDetection_getitem libs hooks index w = (Err e, w))
  /\ (forall libs hooks index w id apath tree ipath e,
        list_getitem (DataVoc.ids (DataVoc.dataset w)) index = Ok id ->
        py_format (DataVoc._annopath (DataVoc.dataset w)) id = Ok apath ->
        ET_parse libs apath = Ok tree ->
        py_format (DataVoc._imgpath (DataVoc.dataset w)) id = Ok ipath ->
        (let? im := Image_open libs ipath in Image_convert libs im "RGB")
        = Err e ->
        DataVoc.VOCDetection_getitem libs hooks index w
        = (Err e, DataVoc.bump w)).
Proof.
  split; [| split; [| split]].
  - intros libs hooks index w id apath e Hid Hap Ht.
    unfold Voc.VOCDetection_getitem, mbind, gets, lift.
    by rewrite Hid, Hap, Ht.
  - intros libs hooks index w id apath tree ipath e Hid Hap Ht Hip Him.
    unfold Voc.VOCDetection_getitem, mbind, gets, lift, Voc.alloc, alloc_with.
    rewrite Hid, Hap, Ht. cbn [Voc.dataset Voc.bump]. rewrite Hip.
    destruct (Image_open libs ipath) as [im0|]; simpl in Him.
    + by rewrite Him.
    + by injection Him as ->.
  - intros libs hooks index w id apath e Hid Hap Ht.
    unfold DataVoc.VOCDetection_getitem, mbind, gets, lift.
    by rewrite Hid, Hap, Ht.
  - intros libs hooks index w id apath tree ipath e Hid Hap Ht Hip Him.
    unfold DataVoc.VOCDetection_getitem, mbind, gets, lift, DataVoc.alloc,
      alloc_with.
    rewrite Hid, Hap, Ht. cbn [DataVoc.dataset DataVoc.bump]. rewrite Hip.
    destruct (Image_open libs ipath) as [im0|]; simpl in Him.
    + by rewrite Him.
    + by injection Him as ->.
Qed.

Lemma loading_failures_witness :
  DataVoc.VOCDetection_getitem missing_image_libs data_cat_hooks 0
    data_cat_world
  = (Err (FileNotFoundError "/data/VOC2007/JPEGImages/000001.jpg"),
     DataVoc.bump data_cat_world).
Proof.
  destruct loading_failures_propagate as (_ & _ & _ & Himage).
  by apply (Himage missing_image_libs data_cat_hooks 0 data_cat_world
              "000001" "/data/VOC2007/Annotations/000001.xml" cat_tree
              "/data/VOC2007/JPEGImages/000001.jpg").
Defined.

(** X11: in [src/data/voc.py], an [AnnotationTransform] used as target
    transform takes exactly the three sizes of the image tensor: when the
    tensor the input transform returns does not have three axes after
    the squeeze, [__getitem__] raises TypeError. *)
Theorem getitem_needs_three_axes
    (libs : Libs) (w : DataVoc.world) (index : Z)
    (id apath ipath : string) (tree : Element) (im0 im : PILImage)
    (f : object -> M DataVoc.world object) (tobj : object) (t : Tensor)
    (w3 : DataVoc.world)
    (Hid : list_getitem (DataVoc.ids (DataVoc.dataset w)) index = Ok id)
    (Hap : py_format (DataVoc._annopath (DataVoc.dataset w)) id = Ok apath)
    (Htree : ET_parse libs apath = Ok tree)
    (Hip : py_format (DataVoc._imgpath (DataVoc.dataset w)) id = Ok ipath)
    (Him0 : Image_open libs ipath = Ok im0)
    (Him : Image_convert libs im0 "RGB" = Ok im)
    (Hf : f (mkObject (S (DataVoc.next_oid w)) (VImage im))
            (DataVoc.bump (DataVoc.bump w)) = (Ok tobj, w3))
    (Ht : oval tobj = VTensor t)
    (Haxes : length (shape (squeeze_0 t)) <> 3%nat) :
  DataVoc.VOCDetection_getitem libs
    (DataVoc.mkHooks (Some f) (Some DataVoc.annotation_hook)) index w
  = (Err TypeError, w3).
Proof.
  rewrite (data_getitem_loaded _ _ _ _ _ _ _ _ _ _ Hid Hap Htree Hip Him0 Him).
  unfold mbind at 1. cbn [DataVoc.transform DataVoc.target_transform].
  unfold DataVoc.transform_squeeze, mbind at 1. rewrite Hf.
  unfold mbind, lift, mret. rewrite Ht. cbn [py_squeeze_0 oval py_call_size].
  unfold DataVoc.annotation_hook.
  destruct (shape (squeeze_0 t)) as [|a [|b [|c [|d sh]]]]; done.
Qed.

Lemma getitem_needs_three_axes_witness :
  (DataVoc.VOCDetection_getitem cat_libs
     (DataVoc.mkHooks (Some data_to_flat) (Some DataVoc.annotation_hook))
     0 data_cat_world).1
  = Err TypeError.
Proof.
  by rewrite (getitem_needs_three_axes cat_libs data_cat_world 0
                "000001" "/data/VOC2007/Annotations/000001.xml"
                "/data/VOC2007/JPEGImages/000001.jpg" cat_tree raw_image
                rgb_image data_to_flat
                (mkObject 2 (VTensor (mkTensor [300; 300] [])))
                (mkTensor [300; 300] [])
                (DataVoc.bump (DataVoc.bump (DataVoc.bump data_cat_world)))).
Defined.

(** ** Paths *)

Lemma ends_with_slash_app s t :
  t <> EmptyString -> ends_with_slash (s +:+ t) = ends_with_slash t.
Proof.
  intros Ht. induction s as [|c s IH]; [done |].
  rewrite append_cons. cbn [ends_with_slash]. rewrite IH.
  destruct (s +:+ t) eqn:E; [| done].
  destruct s; [by destruct t | done].
Qed.

Lemma append_not_empty s t : t <> EmptyString -> s +:+ t <> EmptyString.
Proof. intros Ht. destruct s; [done |]. by rewrite append_cons. Qed.

(** Joining a component that does not start with a slash. *)
Lemma join2_relative path b :
  starts_with_slash b = false ->
  join2 path b
  = if String.eqb path EmptyString || ends_with_slash path
    then path +:+ b else path +:+ "/" +:+ b.
Proof. intros Hb. unfold join2. by rewrite Hb. Qed.

Lemma join2_ends path b :
  b <> EmptyString -> starts_with_slash b = false ->
  ends_with_slash b = false ->
  join2 path b <> EmptyString /\ ends_with_slash (join2 path b) = false.
Proof.
  intros Hne Hs He. rewrite (join2_relative _ _ Hs).
  destruct (_ || _).
  - split; [by apply append_not_empty |]. by rewrite ends_with_slash_app.
  - split; [apply append_not_empty; by apply append_not_empty |].
    rewrite !ends_with_slash_app; [done | done |].
    by apply append_not_empty.
Qed.

Lemma join2_file dir file :
  dir <> EmptyString -> ends_with_slash dir = false ->
  starts_with_slash file = false ->
  join2 dir file = dir +:+ "/" +:+ file.
Proof.
  intros Hne He Hs. rewrite (join2_relative _ _ Hs), He, orb_false_r.
  by destruct dir.
Qed.

Lemma join2_clean c a b :
  has_char c a = false -> has_char c b = false ->
  Ascii.eqb slash c = false ->
  has_char c (join2 a b) = false.
Proof.
  intros Ha Hb Hc. unfold join2.
  destruct (starts_with_slash b); [done |].
  destruct (_ || _); rewrite !has_char_app, Ha, Hb; [done |].
  cbn [has_char orb]. fold slash. by rewrite Hc.
Qed.

(** Formatting goes through a prefix without percent sign unchanged. *)
Lemma format_with_clean p rest arg used :
  has_char percent p = false ->
  format_with (p +:+ rest) arg used
  = (let? t := format_with rest arg used in Ok (p +:+ t)).
Proof.
  induction p as [|c p IH]; intros Hp.
  - change (EmptyString +:+ rest) with rest.
    destruct (format_with rest arg used); reflexivity.
  - cbn [has_char] in Hp. apply orb_false_elim in Hp as [Hc Hp].
    rewrite append_cons.
    assert (Hstep : format_with (String c (p +:+ rest)) arg used
                    = (let? t := format_with (p +:+ rest) arg used in
                       Ok (String c t))).
    { cbn [format_with]. unfold percent in Hc.
      destruct c as [[] [] [] [] [] [] [] []]; try done. }
    rewrite Hstep, (IH Hp).
    by destruct (format_with rest arg used).
Qed.

Lemma format_tail_clean ext arg :
  has_char percent ext = false -> format_with ext arg true = Ok ext.
Proof.
  intros He.
  pose proof (format_with_clean ext EmptyString arg true He) as H.
  rewrite append_empty_r in H. rewrite H. cbn [format_with rbind].
  by rewrite append_empty_r.
Qed.

Lemma format_template dir ext id :
  has_char percent dir = false -> has_char percent ext = false ->
  py_format (dir +:+ "/%s" +:+ ext) id = Ok (dir +:+ "/" +:+ id +:+ ext).
Proof.
  intros Hd He. unfold py_format. rewrite (format_with_clean _ _ _ _ Hd).
  change ("/%s" +:+ ext) with (String slash (String percent (String "s" ext))).
  cbn [format_with slash percent]. rewrite (format_tail_clean _ _ He).
  reflexivity.
Qed.

(** The directory of a kind of file under the root. *)
Lemma template_under_directory root name sub file :
  plain_component sub -> starts_with_slash file = false ->
  os_path_join root [name; sub; file]
  = os_path_join root [name; sub] +:+ "/" +:+ file.
Proof.
  intros (Hne & Hs & He) Hf. unfold os_path_join. cbn [fold_left].
  destruct (join2_ends (join2 root name) sub Hne Hs He) as [Hd1 Hd2].
  by apply join2_file.
Qed.

Lemma directory_clean root name sub :
  has_char percent root = false -> has_char percent name = false ->
  has_char percent sub = false ->
  has_char percent (os_path_join root [name; sub]) = false.
Proof.
  intros Hr Hn Hs. unfold os_path_join. cbn [fold_left].
  apply join2_clean; [| done | done]. by apply join2_clean.
Qed.

(** X12: the files of a [VOCDetection] dataset (same code in both
    files).  When the root and the dataset name hold no percent sign,
    the annotation of an identifier is [<dir>/<id>.xml] with [dir] =
    [os.path.join(root, dataset_name, 'Annotations')] and its image is
    [<dir'>/<id>.jpg] with [dir'] = [os.path.join(root, dataset_name,
    'JPEGImages')], the identifier being inserted as it is, whatever
    characters it holds; for a plain root and dataset name these are
    [<root>/<dataset_name>/Annotations/<id>.xml] and
    [<root>/<dataset_name>/JPEGImages/<id>.jpg]. *)
Theorem dataset_paths (libs : Libs) (root image_set name : string)
    (Hroot : has_char percent root = false)
    (Hname : has_char percent name = false) :
  (forall ds id,
      Voc.VOCDetection_init libs root image_set name = Ok ds ->
      py_format (Voc._annopath ds) id
      = Ok (os_path_join root [name; "Annotations"] +:+ "/" +:+ id +:+ ".xml")
      /\ py_format (Voc._imgpath ds) id
         = Ok (os_path_join root [name; "JPEGImages"] +:+ "/" +:+ id
               +:+ ".jpg"))
  /\ (forall ds id,
        DataVoc.VOCDetection_init libs root image_set name = Ok ds ->
        py_format (DataVoc._annopath ds) id
        = Ok (os_path_join root [name; "Annotations"] +:+ "/" +:+ id
              +:+ ".xml")
        /\ py_format (DataVoc._imgpath ds) id
           = Ok (os_path_join root [name; "JPEGImages"] +:+ "/" +:+ id
                 +:+ ".jpg"))
  /\ (root <> EmptyString -> ends_with_slash root = false ->
      plain_component name ->
      os_path_join root [name; "Annotations"]
      = root +:+ "/" +:+ name +:+ "/Annotations"
      /\ os_path_join root [name; "JPEGImages"]
         = root +:+ "/" +:+ name +:+ "/JPEGImages").
Proof.
  assert (Hxml : forall id,
             py_format (os_path_join root [name; "Annotations"; "%s.xml"]) id
             = Ok (os_path_join root [name; "Annotations"] +:+ "/" +:+ id
                   +:+ ".xml")).
  { intros id. rewrite template_under_directory; [| done | done].
    apply (format_template _ ".xml"); [| done].
    by apply directory_clean. }
  assert (Hjpg : forall id,
             py_format (os_path_join root [name; "JPEGImages"; "%s.jpg"]) id
             = Ok (os_path_join root [name; "JPEGImages"] +:+ "/" +:+ id
                   +:+ ".jpg")).
  { intros id. rewrite template_under_directory; [| done | done].
    apply (format_template _ ".jpg"); [| done].
    by apply directory_clean. }
  split; [| split].
  - intros ds id. unfold Voc.VOCDetection_init.
    destruct (py_format _ image_set); simpl; [| done].
    destruct (read_text libs _); simpl; [| done].
    intros [= <-]. simpl. by split.
  - intros ds id. unfold DataVoc.VOCDetection_init.
    destruct (py_format _ image_set); simpl; [| done].
    destruct (read_text libs _); simpl; [| done].
    intros [= <-]. simpl. by split.
  - intros Hr1 Hr2 (Hn1 & Hn2 & Hn3).
    unfold os_path_join. cbn [fold_left].
    assert (Hrn : join2 root name = root +:+ "/" +:+ name)
      by (by apply join2_file).
    destruct (join2_ends root name Hn1 Hn2 Hn3) as [Hd1 Hd2].
    rewrite Hrn. rewrite Hrn in Hd1, Hd2.
    rewrite !(join2_file (root +:+ "/" +:+ name)) by done.
    rewrite !append_assoc. by split.
Qed.

Lemma dataset_paths_witness :
  py_format (DataVoc._annopath data_cat_dataset) "2008_000008"
  = Ok "/data/VOC2007/Annotations/2008_000008.xml"
  /\ py_format (Voc._imgpath voc_cat_dataset) "a%b"
     = Ok "/data/VOC2007/JPEGImages/a%b.jpg".
Proof.
  destruct (dataset_paths cat_libs "/data" "trainval" "VOC2007"
              eq_refl eq_refl) as (Hvoc & Hdata & _).
  split.
  - by destruct (Hdata data_cat_dataset "2008_000008" eq_refl) as [-> _].
  - by destruct (Hvoc voc_cat_dataset "a%b" eq_refl) as [_ ->].
Defined.

(** ** Writing and reading a manifest *)

Lemma lines_from_line s : forall cur rest,
  has_char newline s = false ->
  lines_from cur (s +:+ String newline rest)
  = (cur +:+ s) :: lines_from EmptyString rest.
Proof.
  induction s as [|c s IH]; intros cur rest Hs.
  - change (EmptyString +:+ String newline rest) with (String newline rest).
    cbn [lines_from]. rewrite Ascii.eqb_refl. by rewrite append_empty_r.
  - cbn [has_char] in Hs. apply orb_false_elim in Hs as [Hc Hs].
    rewrite append_cons. cbn [lines_from]. rewrite Hc.
    rewrite (IH _ _ Hs), append_assoc. reflexivity.
Qed.

Lemma unlines_read ids :
  Forall (fun id => has_char newline id = false) ids ->
  manifest_lines (unlines ids) = ids.
Proof.
  unfold manifest_lines. induction 1 as [|id ids Hid _ IH]; [done |].
  cbn [unlines].
  change (nl +:+ unlines ids) with (String newline (unlines ids)).
  by rewrite (lines_from_line _ _ _ Hid), IH.
Qed.

(** X13: writing identifiers one per line and building the dataset on
    that manifest gives these identifiers back, in order, as long as no
    identifier holds a newline (same code in both files).  Empty
    identifiers (blank lines) are kept. *)
Theorem manifest_round_trip (ids : list string)
    (Hclean : Forall (fun id => has_char newline id = false) ids) :
  read_ids (unlines ids) = ids
  /\ (forall libs root image_set name manifest,
        py_format (os_path_join root [name; "ImageSets"; "Main"; "%s.txt"])
          image_set = Ok manifest ->
        read_text libs manifest = Ok (unlines ids) ->
        (exists ds, Voc.VOCDetection_init libs root image_set name = Ok ds
                    /\ Voc.ids ds = ids)
        /\ (exists ds,
              DataVoc.VOCDetection_init libs root image_set name = Ok ds
              /\ DataVoc.ids ds = ids)).
Proof.
  assert (Hread : read_ids (unlines ids) = ids)
    by (by rewrite read_ids_lines, unlines_read).
  split; [done |].
  intros libs root image_set name manifest Hm Hc.
  unfold Voc.VOCDetection_init, DataVoc.VOCDetection_init.
  rewrite Hm. cbn [rbind]. rewrite Hc. cbn [rbind].
  split; eexists; (split; [reflexivity |]); by simpl.
Qed.

Lemma manifest_round_trip_witness :
  read_ids ("2007_000027" +:+ nl +:+ nl +:+ "2007_000032" +:+ nl)
  = ["2007_000027"; EmptyString; "2007_000032"].
Proof.
  apply (manifest_round_trip ["2007_000027"; EmptyString; "2007_000032"]).
  repeat constructor.
Defined.

Lemma lines_from_clean s : forall cur,
  has_char newline cur = false ->
  Forall (fun id => has_char newline id = false) (lines_from cur s).
Proof.
  induction s as [|c s IH]; intros cur Hcur; cbn [lines_from].
  - destruct (String.eqb cur EmptyString); by repeat constructor.
  - destruct (Ascii.eqb c newline) eqn:Hc.
    + constructor; [done | by apply IH].
    + apply IH. rewrite has_char_app, Hcur. simpl. by rewrite Hc.
Qed.

Lemma unlines_lines_from s : forall cur,
  has_char newline cur = false ->
  unlines (lines_from cur s)
  = if Nat.eqb (open_line (last_char (cur +:+ s))) 0
    then cur +:+ s else cur +:+ s +:+ nl.
Proof.
  induction s as [|c s IH]; intros cur Hcur.
  - rewrite append_empty_r, (last_char_clean _ Hcur). cbn [lines_from].
    destruct (String.eqb cur EmptyString) eqn:E.
    + apply String.eqb_eq in E as ->. reflexivity.
    + cbn [unlines Nat.eqb]. by rewrite append_empty_r.
  - cbn [lines_from]. destruct (Ascii.eqb c newline) eqn:Hc.
    + apply Ascii.eqb_eq in Hc as ->. cbn [unlines].
      rewrite (IH EmptyString eq_refl).
      change (EmptyString +:+ s) with s.
      rewrite (last_char_app cur (String newline s)); [| done].
      cbn [last_char].
      destruct s as [|d s].
      * cbn [open_line]. rewrite Ascii.eqb_refl. reflexivity.
      * destruct (Nat.eqb _ 0); by rewrite ?append_assoc.
    + rewrite IH, !append_assoc; [done |].
      rewrite has_char_app, Hcur. simpl. by rewrite Hc.
Qed.

(** X14: the identifiers read from a manifest hold no newline, and
    writing them back one per line restores the manifest when it is
    empty or ends with a newline, and the manifest followed by a newline
    otherwise: reading loses nothing but the missing last newline. *)
Theorem manifest_lines_restore (content : string) :
  Forall (fun id => has_char newline id = false) (read_ids content)
  /\ unlines (read_ids content)
     = if Nat.eqb (open_line (last_char content)) 0
       then content else content +:+ nl.
Proof.
  rewrite read_ids_lines. unfold manifest_lines. split.
  - by apply lines_from_clean.
  - by rewrite (unlines_lines_from content EmptyString eq_refl).
Qed.

(** ** Showing the boxes of an image *)

Lemma colors_agree : Voc.COLORS = DataVoc.COLORS.
Proof. reflexivity. Qed.

Lemma palette_cases (i : Z) :
  exists r, 0 <= r < 6 /\ i mod 6 = r.
Proof. exists (i mod 6). split; [by apply Z.mod_pos_bound | done]. Qed.

Lemma data_color_at (i : Z) : DataVoc.color_at i = Ok (palette i).
Proof.
  unfold DataVoc.color_at, palette.
  change (Z.of_nat (length DataVoc.COLORS)) with 6.
  destruct (palette_cases i) as (r & Hr & ->).
  assert (Hc : r = 0 \/ r = 1 \/ r = 2 \/ r = 3 \/ r = 4 \/ r = 5) by lia.
  destruct Hc as [-> | [-> | [-> | [-> | [-> | ->]]]]]; reflexivity.
Qed.

Lemma voc_color_at (i : Z) : Voc.color_at i = Ok (palette i).
Proof. apply data_color_at. Qed.

Lemma palette_shift (i k r : Z) :
  i mod 6 = r -> (i + k) mod 6 = (r + k) mod 6.
Proof. intros <-. by rewrite Zplus_mod_idemp_l. Qed.

Lemma palette_period (i : Z) : palette (i + 6) = palette i.
Proof.
  unfold palette. replace (i + 6) with (i + 1 * 6) by lia.
  by rewrite Z_mod_plus_full.
Qed.

Lemma palette_differ (i k : Z) :
  0 < k < 6 -> palette i <> palette (i + k).
Proof.
  intros Hk. unfold palette.
  rewrite (palette_shift i k (i mod 6) eq_refl).
  destruct (palette_cases i) as (r & Hr & ->).
  assert (Hc : r = 0 \/ r = 1 \/ r = 2 \/ r = 3 \/ r = 4 \/ r = 5) by lia.
  assert (Hd : k = 1 \/ k = 2 \/ k = 3 \/ k = 4 \/ k = 5) by lia.
  destruct Hc as [-> | [-> | [-> | [-> | [-> | ->]]]]];
    destruct Hd as [-> | [-> | [-> | [-> | ->]]]]; by vm_compute.
Qed.

Lemma drawing_plan_app l1 : forall l2 j,
  drawing_plan j (l1 ++ l2)
  = drawing_plan j l1 ++ drawing_plan (j + Z.of_nat (length l1)) l2.
Proof.
  induction l1 as [|x l1 IH]; intros l2 j.
  - cbn. by rewrite Z.add_0_r.
  - cbn [app drawing_plan length]. rewrite IH.
    by replace (j + Z.of_nat (S (length l1)))
      with (j + 1 + Z.of_nat (length l1)) by lia.
Qed.

(** The boxes of the parts are appended in document order. *)
Lemma add_parts_collect (parts : list Element) : forall acc,
  fold_res DataVoc.add_part parts acc
  = (let? ps := map_res labelled_box parts in Ok (acc ++ ps)).
Proof.
  induction parts as [|p parts IH]; intros acc; cbn [fold_res map_res].
  - cbn [rbind]. by rewrite app_nil_r.
  - unfold DataVoc.add_part at 1, labelled_box at 1, class_name.
    destruct (find_text p "name") as [t|]; cbn [rbind]; [| done].
    destruct (lower_strip t) as [name|]; cbn [rbind]; [| done].
    destruct (int_coords _) as [box|]; cbn [rbind]; [| done].
    rewrite IH. destruct (map_res labelled_box parts); cbn [rbind]; [| done].
    by rewrite <- app_assoc.
Qed.

(** Drawing a list of labelled boxes is drawing its plan. *)
Lemma draw_labelled_plan painter (bs : list (string * list Z)) :
  forall img i,
    fold_res (DataVoc.draw_labelled painter) bs (img, i)
    = (let? img' := fold_res (draw painter)
                      (drawing_plan i (with_label <$> bs)) img in
       Ok (img', i + Z.of_nat (length bs))).
Proof.
  induction bs as [|b bs IH]; intros img i.
  - cbn. by rewrite Z.add_0_r.
  - cbn [fold_res fmap list_fmap drawing_plan length].
    unfold DataVoc.draw_labelled at 1. cbn [fst snd with_label].
    rewrite !data_color_at. cbn [rbind].
    destruct (draw painter img _) as [img1|]; cbn [rbind]; [| done].
    destruct (draw painter img1 _) as [img2|]; cbn [rbind]; [| done].
    rewrite IH. destruct (fold_res (draw painter) _ img2); cbn [rbind];
      [| done].
    f_equal. f_equal. lia.
Qed.

(** One object node: its boxes are read first, then drawn. *)
Lemma data_show_object_boxes painter subparts st obj :
  DataVoc.show_object painter subparts st obj
  = (let? bs := data_boxes_of subparts obj in
     fold_res (DataVoc.draw_labelled painter) bs st).
Proof.
  unfold DataVoc.show_object, data_boxes_of, labelled_box, class_name.
  destruct (find_text obj "name") as [t|]; cbn [rbind]; [| done].
  destruct (lower_strip t) as [name|]; cbn [rbind]; [| done].
  destruct (int_coords _) as [box|]; cbn [rbind]; [| done].
  destruct (subparts && _); cbn [rbind]; [| done].
  rewrite add_parts_collect.
  by destruct (map_res _ (ET_iter "part" obj)).
Qed.

Lemma data_show_objects painter subparts (objs : list Element) :
  forall bss img i,
    map_res (data_boxes_of subparts) objs = Ok bss ->
    fold_res (DataVoc.show_object painter subparts) objs (img, i)
    = (let? img' := fold_res (draw painter)
                      (drawing_plan i (with_label <$> concat bss)) img in
       Ok (img', i + Z.of_nat (length (concat bss)))).
Proof.
  induction objs as [|obj objs IH]; intros bss img i; cbn [map_res fold_res].
  - intros [= <-]. cbn. by rewrite Z.add_0_r.
  - rewrite data_show_object_boxes.
    destruct (data_boxes_of subparts obj) as [bs|]; cbn [rbind]; [| done].
    destruct (map_res _ objs) as [bss'|] eqn:E; cbn [rbind]; [| done].
    intros [= <-]. cbn [concat]. rewrite draw_labelled_plan.
    rewrite fmap_app, length_app.
    rewrite drawing_plan_app, fold_res_app, length_fmap.
    destruct (fold_res (draw painter) _ img) as [img1|]; cbn [rbind];
      [| done].
    rewrite (IH bss' img1 _ eq_refl).
    destruct (fold_res (draw painter) _ img1); cbn [rbind]; [| done].
    f_equal. f_equal. lia.
Qed.

Lemma data_boxes_without_parts (objs : list Element) : forall bss,
  map_res (data_boxes_of false) objs = Ok bss ->
  length (concat bss) = length objs.
Proof.
  induction objs as [|obj objs IH]; intros bss; cbn [map_res].
  - by intros [= <-].
  - unfold data_boxes_of at 1. cbn [andb].
    destruct (labelled_box obj) as [own|]; cbn [rbind]; [| done].
    destruct (map_res _ objs) as [bss'|]; cbn [rbind]; [| done].
    intros [= <-]. cbn. by rewrite (IH bss' eq_refl).
Qed.

Lemma drawing_plan_length boxes : forall i,
  length (drawing_plan i boxes) = (2 * length boxes)%nat.
Proof.
  induction boxes as [|b boxes IH]; intros i; [done |].
  cbn [drawing_plan length]. rewrite IH. lia.
Qed.

(** X15: [show] of [src/data/voc.py], once the annotation and the image
    of the index are loaded and the name and box of every node read
    without error, draws on the converted image, for the object nodes in
    document order, each object's box followed (when [subparts] is set
    and the object has a part child) by the boxes of the parts below it:
    per box a rectangle in the colour of the running counter and then
    its lowercased, trimmed name at the first two coordinates in the
    colour three places further; it then displays the image and returns
    it; a failure of a drawing call or of the viewer is raised.  These
    are two calls per box, and without [subparts] one box per object
    node, difficult ones included. *)
Theorem data_show_draws_boxes (libs : Libs) (painter : Painter)
    (self : DataVoc.VOCDetection) (index : Z) (subparts : bool)
    (id apath : string) (target : Element) (ipath : string)
    (im0 img : PILImage) (bss : list (list (string * list Z)))
    (Hid : list_getitem (DataVoc.ids self) index = Ok id)
    (Hap : py_format (DataVoc._annopath self) id = Ok apath)
    (Htree : ET_parse libs apath = Ok target)
    (Hip : py_format (DataVoc._imgpath self) id = Ok ipath)
    (Him0 : Image_open libs ipath = Ok im0)
    (Him : Image_convert libs im0 "RGB" = Ok img)
    (Hboxes : map_res (data_boxes_of subparts) (ET_iter "object" target)
              = Ok bss) :
  DataVoc.VOCDetection_show libs painter self index subparts
  = (let? drawn := fold_res (draw painter)
                     (drawing_plan 0 (with_label <$> concat bss)) img in
     let? _ := display painter drawn in
     Ok drawn)
  /\ length (drawing_plan 0 (with_label <$> concat bss))
     = (2 * length (concat bss))%nat
  /\ (subparts = false ->
      length (concat bss) = length (ET_iter "object" target)).
Proof.
  split; [| split].
  - unfold DataVoc.VOCDetection_show.
    rewrite Hid. cbn [rbind]. rewrite Hap. cbn [rbind].
    rewrite Htree. cbn [rbind]. rewrite Hip. cbn [rbind].
    rewrite Him0. cbn [rbind]. rewrite Him. cbn [rbind].
    rewrite (data_show_objects _ _ _ _ _ _ Hboxes).
    by destruct (fold_res (draw painter) _ img).
  - by rewrite drawing_plan_length, length_fmap.
  - intros ->. by apply data_boxes_without_parts.
Qed.

Lemma data_show_witness :
  DataVoc.VOCDetection_show person_libs sample_painter data_cat_dataset 0
    true
  = Ok (mkImage "RGB" (300, 300)
          [9; 19; 109; 219; 255; 9; 19; 0;
           9; 19; 109; 219; 0; 9; 19; 255;
           29; 20; 59; 49; 0; 29; 20; 255;
           14; 99; 24; 109; 0; 14; 99; 255]).
Proof.
  destruct (data_show_draws_boxes person_libs sample_painter
              data_cat_dataset 0 true "000001"
              "/data/VOC2007/Annotations/000001.xml" person_tree
              "/data/VOC2007/JPEGImages/000001.jpg" raw_image rgb_image
              [[("cat", [9; 19; 109; 219])];
               [("person", [9; 19; 109; 219]);
                ("head", [29; 20; 59; 49]);
                ("hand", [14; 99; 24; 109])]]
              eq_refl eq_refl eq_refl eq_refl eq_refl eq_refl eq_refl)
    as [-> _].
  reflexivity.
Defined.

(** One object node in [src/voc.py]: the rectangle, then the label. *)
Lemma voc_show_objects painter (objs : list Element) :
  forall boxes img i,
    map_res voc_box_of objs = Ok boxes ->
    fold_res (Voc.show_object painter) objs (img, i)
    = (let? img' := fold_res (draw painter) (drawing_plan i boxes) img in
       Ok (img', i + Z.of_nat (length boxes))).
Proof.
  induction objs as [|obj objs IH]; intros boxes img i; cbn [map_res fold_res].
  - intros [= <-]. cbn. by rewrite Z.add_0_r.
  - unfold voc_box_of at 1, Voc.show_object at 1. cbn [fst snd].
    destruct (int_coords _) as [box|]; cbn [rbind]; [| done].
    destruct (find_text obj "name") as [label|]; cbn [rbind]; [| done].
    destruct (map_res _ objs) as [boxes'|] eqn:E; cbn [rbind]; [| done].
    intros [= <-]. rewrite !voc_color_at. cbn [rbind drawing_plan fold_res].
    cbn [fst snd].
    destruct (draw painter img _) as [img1|]; cbn [rbind]; [| done].
    destruct (draw painter img1 _) as [img2|]; cbn [rbind]; [| done].
    rewrite (IH boxes' img2 _ eq_refl).
    destruct (fold_res (draw painter) _ img2); cbn [rbind]; [| done].
    cbn [length]. f_equal. f_equal. lia.
Qed.

(** X16: [show] of [src/voc.py], once the annotation and the image of
    the index are loaded and the box and name of every object node read
    without error, draws on the converted image, for the object nodes in
    document order (difficult ones included, parts never), a rectangle
    in the colour of the running counter and then the text of the name
    child as it is in the file (neither lowercased nor trimmed) at the
    first two coordinates in the colour three places further; it then
    displays the image and returns nothing. *)
Theorem voc_show_draws_boxes (libs : Libs) (painter : Painter)
    (self : Voc.VOCDetection) (index : Z)
    (id apath : string) (target : Element) (ipath : string)
    (im0 img : PILImage) (boxes : list (option string * list Z))
    (Hid : list_getitem (Voc.ids self) index = Ok id)
    (Hap : py_format (Voc._annopath self) id = Ok apath)
    (Htree : ET_parse libs apath = Ok target)
    (Hip : py_format (Voc._imgpath self) id = Ok ipath)
    (Him0 : Image_open libs ipath = Ok im0)
    (Him : Image_convert libs im0 "RGB" = Ok img)
    (Hboxes : map_res voc_box_of (ET_iter "object" target) = Ok boxes) :
  Voc.VOCDetection_show libs painter self index
  = (let? drawn := fold_res (draw painter) (drawing_plan 0 boxes) img in
     display painter drawn)
  /\ length boxes = length (ET_iter "object" target)
  /\ length (drawing_plan 0 boxes) = (2 * length boxes)%nat.
Proof.
  split; [| split].
  - unfold Voc.VOCDetection_show.
    rewrite Hid. cbn [rbind]. rewrite Hap. cbn [rbind].
    rewrite Htree. cbn [rbind]. rewrite Hip. cbn [rbind].
    rewrite Him0. cbn [rbind]. rewrite Him. cbn [rbind].
    rewrite (voc_show_objects _ _ _ _ _ Hboxes).
    by destruct (fold_res (draw painter) _ img).
  - by apply (map_res_length voc_box_of).
  - apply drawing_plan_length.
Qed.

Lemma voc_show_witness :
  Voc.VOCDetection_show person_libs sample_painter voc_cat_dataset 0
  = Ok tt
  /\ fold_res (draw sample_painter)
       (drawing_plan 0 [(Some "cat", [9; 19; 109; 219]);
                        (Some " Person", [9; 19; 109; 219])]) rgb_image
     = Ok (mkImage "RGB" (300, 300)
             [9; 19; 109; 219; 255; 9; 19; 0;
              9; 19; 109; 219; 0; 9; 19; 255]).
Proof.
  destruct (voc_show_draws_boxes person_libs sample_painter
              voc_cat_dataset 0 "000001"
              "/data/VOC2007/Annotations/000001.xml" person_tree
              "/data/VOC2007/JPEGImages/000001.jpg" raw_image rgb_image
              [(Some "cat", [9; 19; 109; 219]);
               (Some " Person", [9; 19; 109; 219])]
              eq_refl eq_refl eq_refl eq_refl eq_refl eq_refl eq_refl)
    as [-> _].
  split; reflexivity.
Defined.

(** X17: the colours of [show] (same table and arithmetic in both
    files).  For every value of the counter the two lookups succeed;
    the label of a box never has the colour of its rectangle; the
    rectangles of six consecutive boxes have six different colours, and
    the colours repeat with period six. *)
Theorem show_colours (i : Z) :
  exists outline fill,
    Voc.color_at i = Ok outline /\ Voc.color_at (i + 3) = Ok fill
    /\ DataVoc.color_at i = Ok outline
    /\ DataVoc.color_at (i + 3) = Ok fill
    /\ outline <> fill
    /\ (forall k, 0 < k < 6 -> DataVoc.color_at (i + k) <> Ok outline)
    /\ DataVoc.color_at (i + 6) = Ok outline.
Proof.
  exists (palette i), (palette (i + 3)).
  rewrite ?voc_color_at, ?data_color_at, palette_period.
  repeat (split; [done |]). split; [| split; [| done]].
  - by apply palette_differ.
  - intros k Hk. rewrite data_color_at. intros [= Heq].
    by apply (palette_differ i k Hk).
Qed.

(** An object node whose name or box cannot be read stops [show]. *)
Lemma fold_res_stops {A B C : Type} (body : A -> B -> result A)
    (read : B -> result C) (l : list B) :
  (forall x e, read x = Err e -> forall a, exists e', body a x = Err e') ->
  forall e, map_res read l = Err e ->
  forall a, exists e', fold_res body l a = Err e'.
Proof.
  intros Hbody. induction l as [|x l IH]; intros e; cbn [map_res fold_res].
  - done.
  - destruct (read x) as [c|ex] eqn:Ex; cbn [rbind].
    + destruct (map_res read l) as [cs|el] eqn:El; cbn [rbind]; [done |].
      intros _ a. destruct (body a x) as [a'|e']; cbn [rbind].
      * by apply (IH el).
      * by exists e'.
    + intros _ a. destruct (Hbody x ex Ex a) as [e' ->]. by exists e'.
Qed.

(** X18: when the name or the box of some object node (or, with
    [subparts], of a part that would be drawn) cannot be read - no name
    child, no bndbox child, a coordinate that is not an integer, in
    [src/data/voc.py] also a name without text - [show] raises in both
    files, whatever the drawing library and the viewer do. *)
Theorem show_unreadable_node_raises (libs : Libs) (painter : Painter)
    (index : Z) (target : Element) :
  (forall self id apath e,
      list_getitem (Voc.ids self) index = Ok id ->
      py_format (Voc._annopath self) id = Ok apath ->
      ET_parse libs apath = Ok target ->
      map_res voc_box_of (ET_iter "object" target) = Err e ->
      exists e', Voc.VOCDetection_show libs painter self index = Err e')
  /\ (forall self subparts id apath e,
        list_getitem (DataVoc.ids self) index = Ok id ->
        py_format (DataVoc._annopath self) id = Ok apath ->
        ET_parse libs apath = Ok target ->
        map_res (data_boxes_of subparts) (ET_iter "object" target) = Err e ->
        exists e',
          DataVoc.VOCDetection_show libs painter self index subparts
          = Err e').
Proof.
  split.
  - intros self id apath e Hid Hap Htree Hboxes.
    unfold Voc.VOCDetection_show.
    rewrite Hid. cbn [rbind]. rewrite Hap. cbn [rbind].
    rewrite Htree. cbn [rbind].
    destruct (py_format (Voc._imgpath self) id) as [ipath|]; cbn [rbind];
      [| by eexists].
    destruct (Image_open libs ipath) as [im0|]; cbn [rbind]; [| by eexists].
    destruct (Image_convert libs im0 _) as [img|]; cbn [rbind];
      [| by eexists].
    destruct (fold_res_stops (Voc.show_object painter) voc_box_of
                (ET_iter "object" target)) with (e := e) (a := (img, 0))
      as [e' ->]; [| done | by exists e'].
    intros obj ex Hex st. unfold voc_box_of in Hex.
    unfold Voc.show_object.
    destruct (int_coords _) as [box|]; cbn [rbind] in *; [| by eexists].
    rewrite voc_color_at. cbn [rbind].
    destruct (draw painter _ _); cbn [rbind]; [| by eexists].
    destruct (find_text obj "name"); cbn [rbind] in *; [done | by eexists].
  - intros self subparts id apath e Hid Hap Htree Hboxes.
    unfold DataVoc.VOCDetection_show.
    rewrite Hid. cbn [rbind]. rewrite Hap. cbn [rbind].
    rewrite Htree. cbn [rbind].
    destruct (py_format (DataVoc._imgpath self) id) as [ipath|];
      cbn [rbind]; [| by eexists].
    destruct (Image_open libs ipath) as [im0|]; cbn [rbind]; [| by eexists].
    destruct (Image_convert libs im0 _) as [img|]; cbn [rbind];
      [| by eexists].
    destruct (fold_res_stops (DataVoc.show_object painter subparts)
                (data_boxes_of subparts) (ET_iter "object" target))
      with (e := e) (a := (img, 0)) as [e' ->]; [| done | by exists e'].
    intros obj ex Hex st. rewrite data_show_object_boxes, Hex.
    by exists ex.
Qed.

Lemma show_unreadable_node_witness :
  exists e',
    DataVoc.VOCDetection_show
      (mkLibs (read_text cat_libs) (fun _ => Ok difficult_tree)
         (Image_open cat_libs) (Image_convert cat_libs))
      sample_painter data_cat_dataset 0 false
    = Err e'.
Proof.
  destruct (show_unreadable_node_raises
              (mkLibs (read_text cat_libs) (fun _ => Ok difficult_tree)
                 (Image_open cat_libs) (Image_convert cat_libs))
              sample_painter 0 difficult_tree) as [_ H].
  apply (H data_cat_dataset false "000001"
           "/data/VOC2007/Annotations/000001.xml" ValueError);
    reflexivity.
Defined.

(** X19: asking [show] of [src/data/voc.py] for the parts changes
    nothing for an image none of whose object nodes has a part child. *)
Theorem show_subparts_without_parts (libs : Libs) (painter : Painter)
    (self : DataVoc.VOCDetection) (index : Z)
    (Hnone : forall id apath target,
        list_getitem (DataVoc.ids self) index = Ok id ->
        py_format (DataVoc._annopath self) id = Ok apath ->
        ET_parse libs apath = Ok target ->
        Forall (fun obj => ET_find "part" obj = None)
               (ET_iter "object" target)) :
  DataVoc.VOCDetection_show libs painter self index true
  = DataVoc.VOCDetection_show libs painter self index false.
Proof.
  unfold DataVoc.VOCDetection_show.
  destruct (list_getitem _ index) as [id|] eqn:Hid; cbn [rbind]; [| done].
  destruct (py_format (DataVoc._annopath self) id) as [apath|] eqn:Hap;
    cbn [rbind]; [| done].
  destruct (ET_parse libs apath) as [target|] eqn:Ht; cbn [rbind]; [| done].
  specialize (Hnone id apath target eq_refl Hap Ht).
  destruct (py_format (DataVoc._imgpath self) id) as [ipath|]; cbn [rbind];
    [| done].
  destruct (Image_open libs ipath) as [im0|]; cbn [rbind]; [| done].
  destruct (Image_convert libs im0 _) as [img|]; cbn [rbind]; [| done].
  assert (Hsame : forall st,
             fold_res (DataVoc.show_object painter true)
               (ET_iter "object" target) st
             = fold_res (DataVoc.show_object painter false)
                 (ET_iter "object" target) st).
  { induction Hnone as [|obj objs Hobj _ IH]; intros st; [done |].
    cbn [fold_res].
    assert (Hone : DataVoc.show_object painter true st obj
                   = DataVoc.show_object painter false st obj).
    { unfold DataVoc.show_object. rewrite Hobj.
      by rewrite bool_decide_eq_true_2. }
    rewrite Hone.
    destruct (DataVoc.show_object painter false st obj); cbn [rbind];
      [apply IH | done]. }
  by rewrite Hsame.
Qed.

Lemma show_subparts_without_parts_witness :
  DataVoc.VOCDetection_show cat_libs sample_painter data_cat_dataset 0 true
  = DataVoc.VOCDetection_show cat_libs sample_painter data_cat_dataset 0
      false.
Proof.
  apply show_subparts_without_parts.
  intros id apath target [= <-] [= <-] [= <-].
  repeat constructor.
Defined.

(** ** The segmentation dataset *)

Lemma manifest_under_directory root name kind file :
  plain_component kind -> starts_with_slash file = false ->
  os_path_join root [name; "ImageSets"; kind; file]
  = os_path_join root [name; "ImageSets"; kind] +:+ "/" +:+ file.
Proof.
  intros (Hne & Hs & He) Hf. unfold os_path_join. cbn [fold_left].
  destruct (join2_ends (join2 (join2 root name) "ImageSets") kind Hne Hs He)
    as [Hd1 Hd2].
  by apply join2_file.
Qed.

Lemma manifest_directory_clean root name kind :
  has_char percent root = false -> has_char percent name = false ->
  has_char percent kind = false ->
  has_char percent (os_path_join root [name; "ImageSets"; kind]) = false.
Proof.
  intros Hr Hn Hk. unfold os_path_join. cbn [fold_left].
  apply join2_clean; [| done | done].
  apply join2_clean; [| done | done]. by apply join2_clean.
Qed.

Lemma segmentation_templates root name
    (Hroot : has_char percent root = false)
    (Hname : has_char percent name = false) :
  (forall image_set,
      py_format
        (os_path_join root [name; "ImageSets"; "Segmentation"; "%s.txt"])
        image_set
      = Ok (os_path_join root [name; "ImageSets"; "Segmentation"] +:+ "/"
            +:+ image_set +:+ ".txt"))
  /\ (forall id,
        py_format (os_path_join root [name; "SegmentationClass"; "%s.png"])
          id
        = Ok (os_path_join root [name; "SegmentationClass"] +:+ "/" +:+ id
              +:+ ".png"))
  /\ (forall id,
        py_format (os_path_join root [name; "JPEGImages"; "%s.jpg"]) id
        = Ok (os_path_join root [name; "JPEGImages"] +:+ "/" +:+ id
              +:+ ".jpg")).
Proof.
  split; [| split].
  - intros image_set. rewrite manifest_under_directory; [| done | done].
    apply (format_template _ ".txt"); [| done].
    by apply manifest_directory_clean.
  - intros id. rewrite template_under_directory; [| done | done].
    apply (format_template _ ".png"); [| done].
    by apply directory_clean.
  - intros id. rewrite template_under_directory; [| done | done].
    apply (format_template _ ".jpg"); [| done].
    by apply directory_clean.
Qed.

(** X20: building a [VOCSegmentation] dataset (same code in both
    files).  When the root and the dataset name hold no percent sign
    and the manifest [<dir>/<image_set>.txt], with [dir] =
    [os.path.join(root, dataset_name, 'ImageSets', 'Segmentation')], can
    be read, the dataset is built; its identifiers are the lines of the
    manifest, its length is their number, the mask of an identifier is
    [<id>.png] under [os.path.join(root, dataset_name,
    'SegmentationClass')] and its image is [<id>.jpg] under
    [os.path.join(root, dataset_name, 'JPEGImages')], the image file of
    the detection dataset. *)
Theorem segmentation_dataset (libs : Libs) (root image_set name : string)
    (content : string)
    (Hroot : has_char percent root = false)
    (Hname : has_char percent name = false)
    (Hread : read_text libs
               (os_path_join root [name; "ImageSets"; "Segmentation"]
                +:+ "/" +:+ image_set +:+ ".txt") = Ok content) :
  (exists ds,
      Voc.VOCSegmentation_init libs root image_set name = Ok ds
      /\ Voc.seg_ids ds = manifest_lines content
      /\ Voc.VOCSegmentation_len ds = Z.of_nat (line_count content)
      /\ forall id,
           py_format (Voc.seg_annopath ds) id
           = Ok (os_path_join root [name; "SegmentationClass"] +:+ "/"
                 +:+ id +:+ ".png")
           /\ py_format (Voc.seg_imgpath ds) id
              = Ok (os_path_join root [name; "JPEGImages"] +:+ "/" +:+ id
                    +:+ ".jpg")
           /\ forall det,
                Voc.VOCDetection_init libs root image_set name = Ok det ->
                Voc._imgpath det = Voc.seg_imgpath ds)
  /\ (exists ds,
        DataVoc.VOCSegmentation_init libs root image_set name = Ok ds
        /\ DataVoc.seg_ids ds = manifest_lines content
        /\ DataVoc.VOCSegmentation_len ds = Z.of_nat (line_count content)
        /\ forall id,
             py_format (DataVoc.seg_annopath ds) id
             = Ok (os_path_join root [name; "SegmentationClass"] +:+ "/"
                   +:+ id +:+ ".png")
             /\ py_format (DataVoc.seg_imgpath ds) id
                = Ok (os_path_join root [name; "JPEGImages"] +:+ "/" +:+ id
                      +:+ ".jpg")
             /\ forall det,
                  DataVoc.VOCDetection_init libs root image_set name
                  = Ok det ->
                  DataVoc._imgpath det = DataVoc.seg_imgpath ds).
Proof.
  destruct (segmentation_templates root name Hroot Hname)
    as (Htxt & Hpng & Hjpg).
  split.
  - unfold Voc.VOCSegmentation_init. rewrite Htxt. cbn [rbind].
    rewrite Hread. cbn [rbind]. eexists. split; [reflexivity |].
    unfold Voc.VOCSegmentation_len.
    cbn [Voc.seg_ids Voc.seg_annopath Voc.seg_imgpath].
    rewrite read_ids_lines, manifest_lines_count.
    split; [done |]. split; [done |].
    intros id. split; [apply Hpng |]. split; [apply Hjpg |].
    intros det. unfold Voc.VOCDetection_init.
    destruct (py_format _ image_set) as [m|]; cbn [rbind]; [| done].
    destruct (read_text libs m); cbn [rbind]; [| done].
    by intros [= <-].
  - unfold DataVoc.VOCSegmentation_init. rewrite Htxt. cbn [rbind].
    rewrite Hread. cbn [rbind]. eexists. split; [reflexivity |].
    unfold DataVoc.VOCSegmentation_len.
    cbn [DataVoc.seg_ids DataVoc.seg_annopath DataVoc.seg_imgpath].
    rewrite read_ids_lines, manifest_lines_count.
    split; [done |]. split; [done |].
    intros id. split; [apply Hpng |]. split; [apply Hjpg |].
    intros det. unfold DataVoc.VOCDetection_init.
    destruct (py_format _ image_set) as [m|]; cbn [rbind]; [| done].
    destruct (read_text libs m); cbn [rbind]; [| done].
    by intros [= <-].
Qed.

Lemma segmentation_dataset_witness :
  exists ds,
    DataVoc.VOCSegmentation_init seg_libs "/data" "trainval" "VOC2007"
    = Ok ds
    /\ DataVoc.seg_ids ds = ["000001"; "000002"]
    /\ DataVoc.VOCSegmentation_len ds = 2.
Proof.
  destruct (segmentation_dataset seg_libs "/data" "trainval" "VOC2007"
              ("000001" +:+ nl +:+ "000002") eq_refl eq_refl eq_refl)
    as [_ (ds & Hinit & Hids & Hlen & _)].
  exists ds. split; [exact Hinit |]. split; [exact Hids | exact Hlen].
Defined.

(** What remains of the segmentation accessor once the mask and the
    image are loaded: the two hooks. *)
Lemma voc_seg_getitem_loaded libs hooks index w id tpath t0 t ipath im0 im :
  list_getitem (Voc.seg_ids (Voc.seg_dataset w)) index = Ok id ->
  py_format (Voc.seg_annopath (Voc.seg_dataset w)) id = Ok tpath ->
  Image_open libs tpath = Ok t0 ->
  Image_convert libs t0 "RGB" = Ok t ->
  py_format (Voc.seg_imgpath (Voc.seg_dataset w)) id = Ok ipath ->
  Image_open libs ipath = Ok im0 ->
  Image_convert libs im0 "RGB" = Ok im ->
  Voc.VOCSegmentation_getitem libs hooks index w
  = (do img <- match Voc.input_transform hooks with
               | Some f => f (mkObject (S (Voc.seg_next_oid w)) (VImage im))
               | None => mret (mkObject (S (Voc.seg_next_oid w)) (VImage im))
               end;
     do target <- match Voc.seg_target_transform hooks with
                  | Some g => g (mkObject (Voc.seg_next_oid w) (VImage t))
                  | None => mret (mkObject (Voc.seg_next_oid w) (VImage t))
                  end;
     mret (img, target))%m (Voc.seg_bump (Voc.seg_bump w)).
Proof.
  intros Hid Htp Ht0 Ht Hip Him0 Him.
  unfold Voc.VOCSegmentation_getitem, mbind at 1 2 3 4 5 6 7 8 9 10 11 12.
  unfold gets, lift, Voc.seg_alloc, alloc_with. simpl.
  rewrite Hid, Htp, Ht0, Ht. simpl. rewrite Hip, Him0, Him. done.
Qed.

Lemma data_seg_getitem_loaded libs hooks index w id tpath t0 t ipath im0 im :
  list_getitem (DataVoc.seg_ids (DataVoc.seg_dataset w)) index = Ok id ->
  py_format (DataVoc.seg_annopath (DataVoc.seg_dataset w)) id = Ok tpath ->
  Image_open libs tpath = Ok t0 ->
  Image_convert libs t0 "RGB" = Ok t ->
  py_format (DataVoc.seg_imgpath (DataVoc.seg_dataset w)) id = Ok ipath ->
  Image_open libs ipath = Ok im0 ->
  Image_convert libs im0 "RGB" = Ok im ->
  DataVoc.VOCSegmentation_getitem libs hooks index w
  = (do img <- match DataVoc.seg_transform hooks with
               | Some f =>
                   f (mkObject (S (DataVoc.seg_next_oid w)) (VImage im))
               | None =>
                   mret (mkObject (S (DataVoc.seg_next_oid w)) (VImage im))
               end;
     do target <- match DataVoc.seg_target_transform hooks with
                  | Some g =>
                      g (mkObject (DataVoc.seg_next_oid w) (VImage t))
                  | None =>
                      mret (mkObject (DataVoc.seg_next_oid w) (VImage t))
                  end;
     mret (img, target))%m (DataVoc.seg_bump (DataVoc.seg_bump w)).
Proof.
  intros Hid Htp Ht0 Ht Hip Him0 Him.
  unfold DataVoc.VOCSegmentation_getitem,
    mbind at 1 2 3 4 5 6 7 8 9 10 11 12.
  unfold gets, lift, DataVoc.seg_alloc, alloc_with. simpl.
  rewrite Hid, Htp, Ht0, Ht. simpl. rewrite Hip, Him0, Him. done.
Qed.

Ltac seg_unfold :=
  unfold Voc.VOCSegmentation_getitem, DataVoc.VOCSegmentation_getitem,
    mbind, gets, lift, Voc.seg_alloc, DataVoc.seg_alloc, alloc_with.

(** Either loading stops with an exception, before any hook is called
    and after at most the mask has been created, or the mask and the
    image are loaded. *)
Lemma voc_seg_load_cases libs index w :
  (exists e w1,
      Voc.seg_dataset w1 = Voc.seg_dataset w
      /\ forall hooks,
           Voc.VOCSegmentation_getitem libs hooks index w = (Err e, w1))
  \/ (exists id tpath t0 t ipath im0 im,
        list_getitem (Voc.seg_ids (Voc.seg_dataset w)) index = Ok id
        /\ py_format (Voc.seg_annopath (Voc.seg_dataset w)) id = Ok tpath
        /\ Image_open libs tpath = Ok t0
        /\ Image_convert libs t0 "RGB" = Ok t
        /\ py_format (Voc.seg_imgpath (Voc.seg_dataset w)) id = Ok ipath
        /\ Image_open libs ipath = Ok im0
        /\ Image_convert libs im0 "RGB" = Ok im).
Proof.
  destruct (list_getitem (Voc.seg_ids (Voc.seg_dataset w)) index)
    as [id|e] eqn:Hid.
  2:{ left. exists e, w. split; [done |]. intros hooks. seg_unfold.
      by rewrite Hid. }
  destruct (py_format (Voc.seg_annopath (Voc.seg_dataset w)) id)
    as [tpath|e] eqn:Htp.
  2:{ left. exists e, w. split; [done |]. intros hooks. seg_unfold.
      by rewrite Hid, Htp. }
  destruct (Image_open libs tpath) as [t0|e] eqn:Ht0.
  2:{ left. exists e, w. split; [done |]. intros hooks. seg_unfold.
      by rewrite Hid, Htp, Ht0. }
  destruct (Image_convert libs t0 "RGB") as [t|e] eqn:Ht.
  2:{ left. exists e, w. split; [done |]. intros hooks. seg_unfold.
      by rewrite Hid, Htp, Ht0, Ht. }
  destruct (py_format (Voc.seg_imgpath (Voc.seg_dataset w)) id)
    as [ipath|e] eqn:Hip.
  2:{ left. exists e, (Voc.seg_bump w). split; [done |].
      intros hooks. seg_unfold. rewrite Hid, Htp, Ht0, Ht. simpl.
      by rewrite Hip. }
  destruct (Image_open libs ipath) as [im0|e] eqn:Him0.
  2:{ left. exists e, (Voc.seg_bump w). split; [done |].
      intros hooks. seg_unfold. rewrite Hid, Htp, Ht0, Ht. simpl.
      by rewrite Hip, Him0. }
  destruct (Image_convert libs im0 "RGB") as [im|e] eqn:Him.
  2:{ left. exists e, (Voc.seg_bump w). split; [done |].
      intros hooks. seg_unfold. rewrite Hid, Htp, Ht0, Ht. simpl.
      by rewrite Hip, Him0, Him. }
  right. by exists id, tpath, t0, t, ipath, im0, im.
Qed.

Lemma data_seg_load_cases libs index w :
  (exists e w1,
      DataVoc.seg_dataset w1 = DataVoc.seg_dataset w
      /\ forall hooks,
           DataVoc.VOCSegmentation_getitem libs hooks index w
           = (Err e, w1))
  \/ (exists id tpath t0 t ipath im0 im,
        list_getitem (DataVoc.seg_ids (DataVoc.seg_dataset w)) index = Ok id
        /\ py_format (DataVoc.seg_annopath (DataVoc.seg_dataset w)) id
           = Ok tpath
        /\ Image_open libs tpath = Ok t0
        /\ Image_convert libs t0 "RGB" = Ok t
        /\ py_format (DataVoc.seg_imgpath (DataVoc.seg_dataset w)) id
           = Ok ipath
        /\ Image_open libs ipath = Ok im0
        /\ Image_convert libs im0 "RGB" = Ok im).
Proof.
  destruct (list_getitem (DataVoc.seg_ids (DataVoc.seg_dataset w)) index)
    as [id|e] eqn:Hid.
  2:{ left. exists e, w. split; [done |]. intros hooks. seg_unfold.
      by rewrite Hid. }
  destruct (py_format (DataVoc.seg_annopath (DataVoc.seg_dataset w)) id)
    as [tpath|e] eqn:Htp.
  2:{ left. exists e, w. split; [done |]. intros hooks. seg_unfold.
      by rewrite Hid, Htp. }
  destruct (Image_open libs tpath) as [t0|e] eqn:Ht0.
  2:{ left. exists e, w. split; [done |]. intros hooks. seg_unfold.
      by rewrite Hid, Htp, Ht0. }
  destruct (Image_convert libs t0 "RGB") as [t|e] eqn:Ht.
  2:{ left. exists e, w. split; [done |]. intros hooks. seg_unfold.
      by rewrite Hid, Htp, Ht0, Ht. }
  destruct (py_format (DataVoc.seg_imgpath (DataVoc.seg_dataset w)) id)
    as [ipath|e] eqn:Hip.
  2:{ left. exists e, (DataVoc.seg_bump w). split; [done |].
      intros hooks. seg_unfold. rewrite Hid, Htp, Ht0, Ht. simpl.
      by rewrite Hip. }
  destruct (Image_open libs ipath) as [im0|e] eqn:Him0.
  2:{ left. exists e, (DataVoc.seg_bump w). split; [done |].
      intros hooks. seg_unfold. rewrite Hid, Htp, Ht0, Ht. simpl.
      by rewrite Hip, Him0. }
  destruct (Image_convert libs im0 "RGB") as [im|e] eqn:Him.
  2:{ left. exists e, (DataVoc.seg_bump w). split; [done |].
      intros hooks. seg_unfold. rewrite Hid, Htp, Ht0, Ht. simpl.
      by rewrite Hip, Him0, Him. }
  right. by exists id, tpath, t0, t, ipath, im0, im.
Qed.

(** X21: a segmentation sample, end to end (same code in both files).
    For a dataset built on a root and a dataset name without percent
    sign and no hooks, the accessor at a position of the identifier
    list returns the image [<id>.jpg] of the JPEGImages directory and
    the mask [<id>.png] of the SegmentationClass directory, both
    converted to RGB, as two new objects, the mask created first. *)
Theorem segmentation_sample (libs : Libs) (root image_set name : string)
    (Hroot : has_char percent root = false)
    (Hname : has_char percent name = false) :
  (forall w i id t0 t im0 im,
      Voc.VOCSegmentation_init libs root image_set name
      = Ok (Voc.seg_dataset w) ->
      Voc.seg_ids (Voc.seg_dataset w) !! i = Some id ->
      Image_open libs (os_path_join root [name; "SegmentationClass"]
                       +:+ "/" +:+ id +:+ ".png") = Ok t0 ->
      Image_convert libs t0 "RGB" = Ok t ->
      Image_open libs (os_path_join root [name; "JPEGImages"]
                       +:+ "/" +:+ id +:+ ".jpg") = Ok im0 ->
      Image_convert libs im0 "RGB" = Ok im ->
      Voc.VOCSegmentation_getitem libs (Voc.mkSegHooks None None)
        (Z.of_nat i) w
      = (Ok (mkObject (S (Voc.seg_next_oid w)) (VImage im),
             mkObject (Voc.seg_next_oid w) (VImage t)),
         Voc.seg_bump (Voc.seg_bump w)))
  /\ (forall w i id t0 t im0 im,
        DataVoc.VOCSegmentation_init libs root image_set name
        = Ok (DataVoc.seg_dataset w) ->
        DataVoc.seg_ids (DataVoc.seg_dataset w) !! i = Some id ->
        Image_open libs (os_path_join root [name; "SegmentationClass"]
                         +:+ "/" +:+ id +:+ ".png") = Ok t0 ->
        Image_convert libs t0 "RGB" = Ok t ->
        Image_open libs (os_path_join root [name; "JPEGImages"]
                         +:+ "/" +:+ id +:+ ".jpg") = Ok im0 ->
        Image_convert libs im0 "RGB" = Ok im ->
        DataVoc.VOCSegmentation_getitem libs (DataVoc.mkSegHooks None None)
          (Z.of_nat i) w
        = (Ok (mkObject (S (DataVoc.seg_next_oid w)) (VImage im),
               mkObject (DataVoc.seg_next_oid w) (VImage t)),
           DataVoc.seg_bump (DataVoc.seg_bump w))).
Proof.
  destruct (segmentation_templates root name Hroot Hname)
    as (Htxt & Hpng & Hjpg).
  split.
  - intros w i id t0 t im0 im Hinit Hi Ht0 Ht Him0 Him.
    assert (Hpaths :
              Voc.seg_annopath (Voc.seg_dataset w)
              = os_path_join root [name; "SegmentationClass"; "%s.png"]
              /\ Voc.seg_imgpath (Voc.seg_dataset w)
                 = os_path_join root [name; "JPEGImages"; "%s.jpg"]).
    { revert Hinit. unfold Voc.VOCSegmentation_init.
      destruct (py_format _ image_set) as [m|]; cbn [rbind]; [| done].
      destruct (read_text libs m); cbn [rbind]; [| done].
      by intros [= <-]. }
    destruct Hpaths as [Hta Hia].
    rewrite (voc_seg_getitem_loaded libs (Voc.mkSegHooks None None)
               (Z.of_nat i) w id
               (os_path_join root [name; "SegmentationClass"] +:+ "/" +:+ id
                +:+ ".png") t0 t
               (os_path_join root [name; "JPEGImages"] +:+ "/" +:+ id
                +:+ ".jpg") im0 im);
      [done | | | done | done | | done | done].
    + apply list_getitem_lookup; [lia | by rewrite Nat2Z.id].
    + rewrite Hta. apply Hpng.
    + rewrite Hia. apply Hjpg.
  - intros w i id t0 t im0 im Hinit Hi Ht0 Ht Him0 Him.
    assert (Hpaths :
              DataVoc.seg_annopath (DataVoc.seg_dataset w)
              = os_path_join root [name; "SegmentationClass"; "%s.png"]
              /\ DataVoc.seg_imgpath (DataVoc.seg_dataset w)
                 = os_path_join root [name; "JPEGImages"; "%s.jpg"]).
    { revert Hinit. unfold DataVoc.VOCSegmentation_init.
      destruct (py_format _ image_set) as [m|]; cbn [rbind]; [| done].
      destruct (read_text libs m); cbn [rbind]; [| done].
      by intros [= <-]. }
    destruct Hpaths as [Hta Hia].
    rewrite (data_seg_getitem_loaded libs (DataVoc.mkSegHooks None None)
               (Z.of_nat i) w id
               (os_path_join root [name; "SegmentationClass"] +:+ "/" +:+ id
                +:+ ".png") t0 t
               (os_path_join root [name; "JPEGImages"] +:+ "/" +:+ id
                +:+ ".jpg") im0 im);
      [done | | | done | done | | done | done].
    + apply list_getitem_lookup; [lia | by rewrite Nat2Z.id].
    + rewrite Hta. apply Hpng.
    + rewrite Hia. apply Hjpg.
Qed.

Lemma segmentation_sample_witness :
  Voc.VOCSegmentation_getitem seg_libs (Voc.mkSegHooks None None) 0
    voc_seg_world
  = (Ok (mkObject 1 (VImage rgb_image), mkObject 0 (VImage rgb_mask)),
     Voc.mkSegWorld voc_seg_dataset 2).
Proof.
  destruct (segmentation_sample seg_libs "/data" "trainval" "VOC2007"
              eq_refl eq_refl) as [Hvoc _].
  apply (Hvoc voc_seg_world 0%nat "000001" mask_image rgb_mask raw_image
           rgb_image); reflexivity.
Defined.

(** X22: a call of the segmentation accessor with hooks that behave as
    functions leaves the dataset (identifiers and path templates) as it
    was, and the image and the mask it returns are objects created
    during the call (same code in both files). *)
Theorem segmentation_frame :
  (forall libs hooks index w r w',
      (forall f, Voc.input_transform hooks = Some f ->
                 well_behaved Voc.seg_next_oid Voc.seg_dataset f) ->
      (forall g, Voc.seg_target_transform hooks = Some g ->
                 well_behaved Voc.seg_next_oid Voc.seg_dataset g) ->
      Voc.VOCSegmentation_getitem libs hooks index w = (r, w') ->
      Voc.seg_dataset w' = Voc.seg_dataset w
      /\ forall img target, r = Ok (img, target) ->
           created_between Voc.seg_next_oid w w' img
           /\ created_between Voc.seg_next_oid w w' target)
  /\ (forall libs hooks index w r w',
        (forall f, DataVoc.seg_transform hooks = Some f ->
                   well_behaved DataVoc.seg_next_oid DataVoc.seg_dataset f) ->
        (forall g, DataVoc.seg_target_transform hooks = Some g ->
                   well_behaved DataVoc.seg_next_oid DataVoc.seg_dataset g) ->
        DataVoc.VOCSegmentation_getitem libs hooks index w = (r, w') ->
        DataVoc.seg_dataset w' = DataVoc.seg_dataset w
        /\ forall img target, r = Ok (img, target) ->
             created_between DataVoc.seg_next_oid w w' img
             /\ created_between DataVoc.seg_next_oid w w' target).
Proof.
  split.
  - intros libs hooks index w r w' Hf Hg.
    destruct (voc_seg_load_cases libs index w)
      as [(e & w1 & Ha & Hfail)
         |(id & tp & t0 & t & ip & im0 & im
           & Hid & Htp & Ht0 & Ht & Hip & H0 & Hi)].
    + rewrite Hfail. by intros [= <- <-].
    + rewrite (voc_seg_getitem_loaded _ _ _ _ _ _ _ _ _ _ _
                 Hid Htp Ht0 Ht Hip H0 Hi).
      intros Hrun.
      apply (two_hooks_frame Voc.seg_next_oid Voc.seg_dataset
               (fun o => match Voc.input_transform hooks with
                         | Some f => f o | None => mret o end)
               (fun _ o => match Voc.seg_target_transform hooks with
                           | Some g => g o | None => mret o end))
        in Hrun as (Ha & Hn & Hfresh).
      * simpl in Ha. split; [done |].
        intros img target Hr. destruct (Hfresh _ _ Hr) as [Hi1 Ht1].
        unfold created_between in *. simpl in *. lia.
      * by apply well_behaved_optional.
      * intros _. by apply well_behaved_optional.
  - intros libs hooks index w r w' Hf Hg.
    destruct (data_seg_load_cases libs index w)
      as [(e & w1 & Ha & Hfail)
         |(id & tp & t0 & t & ip & im0 & im
           & Hid & Htp & Ht0 & Ht & Hip & H0 & Hi)].
    + rewrite Hfail. by intros [= <- <-].
    + rewrite (data_seg_getitem_loaded _ _ _ _ _ _ _ _ _ _ _
                 Hid Htp Ht0 Ht Hip H0 Hi).
      intros Hrun.
      apply (two_hooks_frame DataVoc.seg_next_oid DataVoc.seg_dataset
               (fun o => match DataVoc.seg_transform hooks with
                         | Some f => f o | None => mret o end)
               (fun _ o => match DataVoc.seg_target_transform hooks with
                           | Some g => g o | None => mret o end))
        in Hrun as (Ha & Hn & Hfresh).
      * simpl in Ha. split; [done |].
        intros img target Hr. destruct (Hfresh _ _ Hr) as [Hi1 Ht1].
        unfold created_between in *. simpl in *. lia.
      * by apply well_behaved_optional.
      * intros _. by apply well_behaved_optional.
Qed.

Lemma data_to_indices_well_behaved :
  well_behaved DataVoc.seg_next_oid DataVoc.seg_dataset data_to_indices.
Proof.
  intros o s r s' [= <- <-].
  split; [done |]. split; [simpl; lia |].
  intros o' [= <-]. right. unfold created_between. simpl. lia.
Qed.

Lemma segmentation_frame_witness :
  exists r w',
    DataVoc.VOCSegmentation_getitem seg_libs
      (DataVoc.mkSegHooks None (Some data_to_indices)) 0 data_seg_world
    = (r, w')
    /\ DataVoc.seg_dataset w' = data_seg_dataset
    /\ forall img target, r = Ok (img, target) ->
         created_between DataVoc.seg_next_oid data_seg_world w' img
         /\ created_between DataVoc.seg_next_oid data_seg_world w' target.
Proof.
  destruct segmentation_frame as [_ Hdata].
  eexists _, _. split; [reflexivity |].
  apply (Hdata seg_libs (DataVoc.mkSegHooks None (Some data_to_indices)) 0
           data_seg_world).
  - by intros f [=].
  - intros g [= <-]. apply data_to_indices_well_behaved.
  - reflexivity.
Defined.

(** X23: failures of the segmentation accessor (same code in both
    files).  An index outside the identifier list raises IndexError
    before any file is opened.  The mask is opened before the image:
    when it does not open or convert, the exception is that of the
    image library and no object has been created, whatever the image
    file is; when the image does not open or convert, the mask alone
    has been created.  No hook is called in any of these cases. *)
Theorem segmentation_loading_failures :
  (forall libs hooks index w,
      (index < - Z.of_nat (length (Voc.seg_ids (Voc.seg_dataset w)))
       \/ Z.of_nat (length (Voc.seg_ids (Voc.seg_dataset w))) <= index ->
       Voc.VOCSegmentation_getitem libs hooks index w
       = (Err IndexError, w))
      /\ forall id tpath e,
           list_getitem (Voc.seg_ids (Voc.seg_dataset w)) index = Ok id ->
           py_format (Voc.seg_annopath (Voc.seg_dataset w)) id = Ok tpath ->
           ((let? t0 := Image_open libs tpath in
             Image_convert libs t0 "RGB") = Err e ->
            Voc.VOCSegmentation_getitem libs hooks index w = (Err e, w))
           /\ forall t ipath,
                (let? t0 := Image_open libs tpath in
                 Image_convert libs t0 "RGB") = Ok t ->
                py_format (Voc.seg_imgpath (Voc.seg_dataset w)) id
                = Ok ipath ->
                (let? im0 := Image_open libs ipath in
                 Image_convert libs im0 "RGB") = Err e ->
                Voc.VOCSegmentation_getitem libs hooks index w
                = (Err e, Voc.seg_bump w))
  /\ (forall libs hooks index w,
        (index < - Z.of_nat (length (DataVoc.seg_ids (DataVoc.seg_dataset w)))
         \/ Z.of_nat (length (DataVoc.seg_ids (DataVoc.seg_dataset w)))
            <= index ->
         DataVoc.VOCSegmentation_getitem libs hooks index w
         = (Err IndexError, w))
        /\ forall id tpath e,
             list_getitem (DataVoc.seg_ids (DataVoc.seg_dataset w)) index
             = Ok id ->
             py_format (DataVoc.seg_annopath (DataVoc.seg_dataset w)) id
             = Ok tpath ->
             ((let? t0 := Image_open libs tpath in
               Image_convert libs t0 "RGB") = Err e ->
              DataVoc.VOCSegmentation_getitem libs hooks index w
              = (Err e, w))
             /\ forall t ipath,
                  (let? t0 := Image_open libs tpath in
                   Image_convert libs t0 "RGB") = Ok t ->
                  py_format (DataVoc.seg_imgpath (DataVoc.seg_dataset w)) id
                  = Ok ipath ->
                  (let? im0 := Image_open libs ipath in
                   Image_convert libs im0 "RGB") = Err e ->
                  DataVoc.VOCSegmentation_getitem libs hooks index w
                  = (Err e, DataVoc.seg_bump w)).
Proof.
  split; intros libs hooks index w; (split; [intros Hi | ]).
  - seg_unfold. by rewrite (list_getitem_out _ _ Hi).
  - intros id tpath e Hid Htp. split.
    + intros Hmask. seg_unfold. rewrite Hid, Htp.
      destruct (Image_open libs tpath) as [t0|e0]; cbn [rbind] in Hmask.
      * by rewrite Hmask.
      * by injection Hmask as ->.
    + intros t ipath Hmask Hip Himg. seg_unfold. rewrite Hid, Htp.
      destruct (Image_open libs tpath) as [t0|e0]; cbn [rbind] in Hmask;
        [| done].
      rewrite Hmask. simpl. rewrite Hip.
      destruct (Image_open libs ipath) as [im0|e0]; cbn [rbind] in Himg.
      * by rewrite Himg.
      * by injection Himg as ->.
  - seg_unfold. by rewrite (list_getitem_out _ _ Hi).
  - intros id tpath e Hid Htp. split.
    + intros Hmask. seg_unfold. rewrite Hid, Htp.
      destruct (Image_open libs tpath) as [t0|e0]; cbn [rbind] in Hmask.
      * by rewrite Hmask.
      * by injection Hmask as ->.
    + intros t ipath Hmask Hip Himg. seg_unfold. rewrite Hid, Htp.
      destruct (Image_open libs tpath) as [t0|e0]; cbn [rbind] in Hmask;
        [| done].
      rewrite Hmask. simpl. rewrite Hip.
      destruct (Image_open libs ipath) as [im0|e0]; cbn [rbind] in Himg.
      * by rewrite Himg.
      * by injection Himg as ->.
Qed.

Lemma segmentation_loading_failures_witness :
  Voc.VOCSegmentation_getitem seg_libs
    (Voc.mkSegHooks None (Some voc_to_indices)) 1 voc_seg_world
  = (Err (FileNotFoundError "/data/VOC2007/SegmentationClass/000002.png"),
     voc_seg_world)
  /\ DataVoc.VOCSegmentation_getitem seg_libs
       (DataVoc.mkSegHooks None (Some data_to_indices)) 2 data_seg_world
     = (Err IndexError, data_seg_world).
Proof.
  destruct segmentation_loading_failures as [Hvoc Hdata]. split.
  - destruct (Hvoc seg_libs (Voc.mkSegHooks None (Some voc_to_indices)) 1
                voc_seg_world) as [_ Hload].
    destruct (Hload "000002" "/data/VOC2007/SegmentationClass/000002.png"
                (FileNotFoundError
                   "/data/VOC2007/SegmentationClass/000002.png")
                eq_refl eq_refl) as [Hmask _].
    by apply Hmask.
  - destruct (Hdata seg_libs
                (DataVoc.mkSegHooks None (Some data_to_indices)) 2
                data_seg_world) as [Hout _].
    apply Hout. right. by vm_compute.
Defined.

(** ** Coordinates of the records *)

Lemma map_res_lookup {A B} (f : A -> result B) (l : list A) :
  forall ys j x,
    map_res f l = Ok ys -> l !! j = Some x ->
    exists y, f x = Ok y /\ ys !! j = Some y.
Proof.
  induction l as [|a l IH]; intros ys j x; cbn [map_res]; [done |].
  destruct (f a) as [b|] eqn:Ha; cbn [rbind]; [| done].
  destruct (map_res f l) as [bs|] eqn:Hl; cbn [rbind]; [| done].
  intros [= <-]. destruct j as [|j]; cbn.
  - intros [= <-]. by exists b.
  - intros Hx. by apply (IH bs j x).
Qed.

Lemma map_res_i_lookup {A B} (f : nat -> A -> result B) (l : list A) :
  forall i ys j x,
    map_res_i f i l = Ok ys -> l !! j = Some x ->
    exists y, f (i + j)%nat x = Ok y /\ ys !! j = Some y.
Proof.
  induction l as [|a l IH]; intros i ys j x; cbn [map_res_i]; [done |].
  destruct (f i a) as [b|] eqn:Ha; cbn [rbind]; [| done].
  destruct (map_res_i f (S i) l) as [bs|] eqn:Hl; cbn [rbind]; [| done].
  intros [= <-]. destruct j as [|j]; cbn.
  - intros [= <-]. exists b. by rewrite Nat.add_0_r.
  - intros Hx. destruct (IH (S i) bs j x Hl Hx) as (y & Hy & Hj).
    exists y. split; [| done].
    by replace (i + S j)%nat with (S i + j)%nat by lia.
Qed.

(** The coordinates of a record of [src/voc.py]. *)
Lemma voc_record_coords obj r :
  voc_record_of obj r ->
  exists c4,
    children obj !! 4%nat = Some c4
    /\ length r = S (length (children c4))
    /\ forall j bb, children c4 !! j = Some bb ->
         exists v, py_int (text bb) = Ok v /\ r !! j = Some (VInt (v - 1)).
Proof.
  intros (c0 & t & c4 & vs & _ & _ & H4 & Hvs & ->).
  exists c4. split; [done |].
  assert (Hlen : length vs = length (children c4))
    by (by apply (map_res_length (fun bb => py_int (text bb)))).
  split.
  - rewrite length_app, !length_fmap, Hlen. simpl. lia.
  - intros j bb Hbb.
    destruct (map_res_lookup _ _ _ _ _ Hvs Hbb) as (v & Hv & Hj).
    exists v. split; [done |].
    rewrite lookup_app_l by (rewrite !length_fmap; by eapply lookup_lt_Some).
    by rewrite !list_lookup_fmap, Hj.
Qed.

(** The coordinates of a record of [src/data/voc.py]. *)
Lemma data_record_coords self H W obj r :
  data_record_of self H W obj r ->
  exists b,
    ET_find "bndbox" obj = Some b
    /\ length r = S (length (children b))
    /\ forall j bb, children b !! j = Some bb ->
         exists v q,
           py_int (text bb) = Ok v
           /\ int_truediv (v - 1) (if Nat.even j then W else H) = Ok q
           /\ r !! j = Some (VFloat q).
Proof.
  intros (name & b & fs & i & _ & Hb & Hfs & Hlen & _ & ->).
  exists b. split; [done |]. split.
  - rewrite length_app, length_fmap, Hlen. simpl. lia.
  - intros j bb Hbb. unfold DataVoc.fraction_coords in Hfs.
    destruct (map_res_i_lookup _ _ _ _ _ _ Hfs Hbb) as (y & Hy & Hj).
    cbn [Nat.add] in Hy. unfold DataVoc.coord in Hy.
    destruct (py_int (text bb)) as [v|]; cbn [rbind] in Hy; [| done].
    destruct (int_truediv _ _) as [q|] eqn:Hq; cbn [rbind] in Hy; [| done].
    injection Hy as <-. exists v, q. split; [done |]. split; [done |].
    rewrite lookup_app_l; [done |].
    rewrite length_fmap, Hlen. by eapply lookup_lt_Some.
Qed.

(** C4: whenever a parser returns, it has one record per kept object
    node, in order, and the record holds one coordinate per child of the
    node's box followed by the class: in [src/voc.py] the coordinate at
    position j is the integer read from the j-th child less one; in
    [src/data/voc.py] it is that integer less one divided by the width
    when j is even (xmin, xmax) and by the height when j is odd (ymin,
    ymax).  So a box whose coordinates all read 1 is parsed to zeros, and
    xmin=101 on an image of width 200 is parsed to 0.5. *)
Theorem coordinate_conversion :
  (forall self target res,
      Voc.AnnotationTransform_call self target = Ok res ->
      Forall2
        (fun obj r =>
           exists c4,
             children obj !! 4%nat = Some c4
             /\ length r = S (length (children c4))
             /\ forall j bb, children c4 !! j = Some bb ->
                  exists v, py_int (text bb) = Ok v
                            /\ r !! j = Some (VInt (v - 1)))
        (List.filter (kept (Voc.keep_difficult self))
           (ET_iter "object" target))
        res)
  /\ (forall self target C H W res,
        DataVoc.AnnotationTransform_call self target C H W = Ok res ->
        Forall2
          (fun obj r =>
             exists b,
               ET_find "bndbox" obj = Some b
               /\ length r = S (length (children b))
               /\ forall j bb, children b !! j = Some bb ->
                    exists v q,
                      py_int (text bb) = Ok v
                      /\ int_truediv (v - 1) (if Nat.even j then W else H)
                         = Ok q
                      /\ r !! j = Some (VFloat q))
          (List.filter (kept (DataVoc.keep_difficult self))
             (ET_iter "object" target))
          res)
  /\ (forall self name,
        Voc.AnnotationTransform_call self
          (annotation_of [voc_object name "0" (bndbox "1" "1" "1" "1")])
        = Ok [[VInt 0; VInt 0; VInt 0; VInt 0;
               VStr (str_strip (str_lower name))]])
  /\ (forall keep C H W, H <> 0 -> W <> 0 ->
        DataVoc.AnnotationTransform_call
          (DataVoc.AnnotationTransform_init None keep)
          (annotation_of [voc_object "cat" "0" (bndbox "1" "1" "1" "1")])
          C H W
        = Ok [[VFloat (S754_zero (W <? 0)); VFloat (S754_zero (H <? 0));
               VFloat (S754_zero (W <? 0)); VFloat (S754_zero (H <? 0));
               VInt 7]])
  /\ (forall keep C,
        DataVoc.AnnotationTransform_call
          (DataVoc.AnnotationTransform_init None keep)
          (annotation_of
             [voc_object "cat" "0" (bndbox "101" "201" "151" "301")])
          C 400 200
        = Ok [[VFloat half; VFloat half;
               VFloat (S754_finite false 6755399441055744 (-53));
               VFloat (S754_finite false 6755399441055744 (-53));
               VInt 7]]).
Proof.
  split; [| split; [| split; [| split]]].
  - intros self target res Hres.
    eapply Forall2_impl; [by apply voc_call_structure |].
    intros obj r. apply voc_record_coords.
  - intros self target C H W res Hres.
    eapply Forall2_impl; [by eapply data_call_structure |].
    intros obj r. apply data_record_coords.
  - intros [m []] name; reflexivity.
  - intros keep C H W HH HW. unfold DataVoc.AnnotationTransform_call.
    change (ET_iter "object" (annotation_of _))
      with [voc_object "cat" "0" (bndbox "1" "1" "1" "1")].
    cbn [fold_res]. unfold DataVoc.call_step.
    rewrite data_call_object_flag.
    change (difficult_flag _) with (Ok (A:=Z) 0). cbn [rbind].
    change (0 =? 1) with false. rewrite andb_false_r.
    change (class_name _) with (Ok (A:=string) "cat"). cbn [rbind].
    change (ET_find "bndbox" _) with (Some (bndbox "1" "1" "1" "1")).
    rewrite (fraction_coords_ints H W (bndbox "1" "1" "1" "1")
               [1; 1; 1; 1] eq_refl).
    cbn [map_res_i Nat.even]. change (1 - 1) with 0.
    rewrite !(truediv_zero W HW), !(truediv_zero H HH). cbn [rbind].
    by destruct keep.
  - intros [] C; reflexivity.
Qed.

Lemma coordinate_conversion_witness :
  Forall2
    (fun obj r =>
       exists b,
         ET_find "bndbox" obj = Some b
         /\ length r = S (length (children b))
         /\ forall j bb, children b !! j = Some bb ->
              exists v q,
                py_int (text bb) = Ok v
                /\ int_truediv (v - 1) (if Nat.even j then 200 else 400)
                   = Ok q
                /\ r !! j = Some (VFloat q))
    [voc_object "cat" "0" (bndbox "101" "201" "151" "301")]
    [[VFloat half; VFloat half;
      VFloat (S754_finite false 6755399441055744 (-53));
      VFloat (S754_finite false 6755399441055744 (-53)); VInt 7]]
  /\ DataVoc.AnnotationTransform_call data_default
       (annotation_of [voc_object "cat" "0" (bndbox "1" "1" "1" "1")])
       3 300 300
     = Ok [[VFloat (S754_zero false); VFloat (S754_zero false);
            VFloat (S754_zero false); VFloat (S754_zero false); VInt 7]].
Proof.
  destruct coordinate_conversion as (_ & Hdata & _ & Hzero & _).
  split.
  - apply (Hdata data_default
             (annotation_of
                [voc_object "cat" "0" (bndbox "101" "201" "151" "301")])
             3 400 200).
    reflexivity.
  - apply (Hzero false 3 300 300); lia.
Defined.
